(** * AI Co-Scientist: the agents' parsing, ranking and evolution logic

    A shallow embedding of the deterministic parts of the agents under
    [src/agents]: the text heuristics that turn a response of the
    reasoning service into fields ([ranking_agent.py], [proximity_agent.py],
    [reflection_agent.py], [meta_review_agent.py], [generation_agent.py]),
    the pairwise tournament and the scoring strategy of the ranking agent,
    and the evolution pass.

    Conventions.
    - Text is [string]: a sequence of 8-bit characters.  The functions
      [lower] and [strip] follow Python's [str.lower] and [str.strip] on
      ASCII text; characters above 127 are left alone.
    - A hypothesis is a Python [dict] with string keys: a [gmap string value].
    - The reasoning service is a black box.  [llm k] is the text returned by
      the [k]-th call of [get_response] during one run of an agent method;
      the prompt is not a parameter of the answer (the service is sampled at
      a positive temperature), so of the prompt construction we keep what can
      raise.
    - A Python exception is a value [Raise e] of the [result] type. *)

From Stdlib Require Import Ascii String QArith Qreduction.
From stdpp Require Import gmap strings list fin_maps pretty sorting.

Set Warnings "-register-all".
Set Default Proof Using "Type".

Open Scope string_scope.
Open Scope list_scope.
Open Scope stdpp_scope.

(** ** Python strings *)

Module PyStr.

Definition is_upper (c : ascii) : bool :=
  let n := nat_of_ascii c in (65 <=? n)%nat && (n <=? 90)%nat.

Definition lower_char (c : ascii) : ascii :=
  if is_upper c then ascii_of_nat (nat_of_ascii c + 32) else c.

(** [s.lower()] on ASCII text: the letters A to Z are lowered and every
    other character is kept, so the length is kept too.  (Outside ASCII
    Python's [lower] follows the Unicode case mapping, which can change
    the number of characters; what depends on it is stated for ASCII
    texts.) *)
Fixpoint lower (s : string) : string :=
  match s with
  | EmptyString => EmptyString
  | String c s' => String (lower_char c) (lower s')
  end.

(** [s.startswith(p)] *)
Definition startswith (s p : string) : bool := String.prefix p s.

(** [pat in s] *)
Fixpoint contains (pat s : string) : bool :=
  String.prefix pat s ||
  match s with
  | EmptyString => false
  | String _ s' => contains pat s'
  end.

(** [s[n:]] *)
Fixpoint drop_str (n : nat) (s : string) : string :=
  match n, s with
  | O, _ => s
  | S _, EmptyString => EmptyString
  | S n', String _ s' => drop_str n' s'
  end.

(** [s.count(pat)] for a non-empty [pat]: occurrences are counted from the
    left and do not overlap.  [skip] is the number of characters still
    covered by the occurrence found last. *)
Fixpoint count_from (pat s : string) (skip : nat) : nat :=
  match s with
  | EmptyString => 0
  | String _ s' =>
      match skip with
      | S k => count_from pat s' k
      | O => if String.prefix pat s
             then S (count_from pat s' (String.length pat - 1))
             else count_from pat s' 0
      end
  end.

Definition count (s pat : string) : nat := count_from pat s 0.

(** [s.split(sep)] for a non-empty [sep]; [cur] holds the piece under
    construction, last character first. *)
Fixpoint split_from (sep s : string) (skip : nat) (cur : string) : list string :=
  match s with
  | EmptyString => [String.rev cur]
  | String c s' =>
      match skip with
      | S k => split_from sep s' k cur
      | O => if String.prefix sep s
             then String.rev cur :: split_from sep s' (String.length sep - 1) EmptyString
             else split_from sep s' 0 (String c cur)
      end
  end.

Definition split (s sep : string) : list string := split_from sep s 0 EmptyString.

(** [s.split(sep, 1)[1]] when [sep in s]: the text after the first
    occurrence of [sep]. *)
Fixpoint after_first (sep s : string) : option string :=
  if String.prefix sep s then Some (drop_str (String.length sep) s)
  else match s with
       | EmptyString => None
       | String _ s' => after_first sep s'
       end.

(** [sep.join(l)] *)
Fixpoint join (sep : string) (l : list string) : string :=
  match l with
  | [] => EmptyString
  | [x] => x
  | x :: l' => x +:+ sep +:+ join sep l'
  end.

(** [s.replace(old, new)] for a non-empty [old]. *)
Fixpoint replace_from (old new s : string) (skip : nat) : string :=
  match s with
  | EmptyString => EmptyString
  | String c s' =>
      match skip with
      | S k => replace_from old new s' k
      | O => if String.prefix old s
             then new +:+ replace_from old new s' (String.length old - 1)
             else String c (replace_from old new s' 0)
      end
  end.

Definition replace (s old new : string) : string := replace_from old new s 0.

(** The ASCII characters [str.isspace] accepts: tab, line feed, vertical
    tab, form feed, carriage return, the four separators 28..31, space. *)
Definition is_space (c : ascii) : bool :=
  let n := nat_of_ascii c in
  ((9 <=? n)%nat && (n <=? 13)%nat) || ((28 <=? n)%nat && (n <=? 32)%nat).

Fixpoint lstrip (s : string) : string :=
  match s with
  | EmptyString => EmptyString
  | String c s' => if is_space c then lstrip s' else s
  end.

(** [s.strip()] *)
Definition strip (s : string) : string :=
  String.rev (lstrip (String.rev (lstrip s))).

(** [l[-n:]] for [n > 0] *)
Definition last_n {A} (n : nat) (l : list A) : list A :=
  drop (length l - n) l.

Definition digit_of (c : ascii) : option Z :=
  let n := nat_of_ascii c in
  if (48 <=? n)%nat && (n <=? 57)%nat then Some (Z.of_nat (n - 48)) else None.

Fixpoint digits_from (s : string) (acc : Z) : option Z :=
  match s with
  | EmptyString => Some acc
  | String c s' =>
      match digit_of c with
      | Some d => digits_from s' (10 * acc + d)
      | None => None
      end
  end.

(** [int(s)] on a plain run of decimal digits; anything else is the
    [ValueError] case, [None]. *)
Definition int_of_string (s : string) : option Z :=
  match s with
  | EmptyString => None
  | _ => digits_from s 0
  end.

End PyStr.

(** ** Python values, dictionaries and exceptions *)

Inductive value : Type :=
  | VNone
  | VBool (b : bool)
  | VInt (z : Z)
  | VNum (q : Q)
  | VStr (s : string)
  | VList (l : list value)
  | VDict (d : gmap string value).

(** A hypothesis record: a dictionary with ad hoc optional keys. *)
Abbreviation hypothesis := (gmap string value).

Inductive error : Type :=
  | KeyError (k : string)
  | TypeError
  | ValueError.

Inductive result (A : Type) : Type :=
  | Ok (a : A)
  | Raise (e : error).
Arguments Ok {A} a.
Arguments Raise {A} e.

Definition bind {A B} (r : result A) (k : A -> result B) : result B :=
  match r with
  | Ok a => k a
  | Raise e => Raise e
  end.

Declare Scope result_scope.
Delimit Scope result_scope with result.
Notation "x <-- r ;; k" := (bind r (fun x => k))
  (at level 100, r at next level, right associativity) : result_scope.
Open Scope result_scope.

(** [d[k]] *)
Definition getitem (d : hypothesis) (k : string) : result value :=
  match d !! k with
  | Some v => Ok v
  | None => Raise (KeyError k)
  end.

(** [d.get(k, dflt)] *)
Definition get (d : hypothesis) (k : string) (dflt : value) : value :=
  default dflt (d !! k).

(** [len(v)] *)
Definition py_len (v : value) : result nat :=
  match v with
  | VStr s => Ok (String.length s)
  | VList l => Ok (length l)
  | VDict d => Ok (size d)
  | _ => Raise TypeError
  end.

(** [v[:n]]: only sequences can be sliced. *)
Definition py_slice_to (v : value) (n : nat) : result value :=
  match v with
  | VStr s => Ok (VStr (String.substring 0 n s))
  | VList l => Ok (VList (take n l))
  | _ => Raise TypeError
  end.

(** A Python number as a rational: [bool] and [int] embed into it, a [float]
    is the rational it denotes. *)
Definition as_number (v : value) : option Q :=
  match v with
  | VBool b => Some (inject_Z (if b then 1 else 0))
  | VInt z => Some (inject_Z z)
  | VNum q => Some q
  | _ => None
  end.

Definition Qltb (a b : Q) : bool := negb (Qle_bool b a).

(** [a / b] on integers with [b > 0]: the quotient as a reduced fraction
    (CPython rounds it to the nearest double). *)
Definition truediv (a : Z) (b : nat) : Q := Qred (a # Pos.of_nat b).

(** ** [sorted]

    [sorted] is stable, and stays stable under [reverse=True]: records with
    equal keys keep their input order.  A stable sort has one possible
    result, which the insertion sort below computes.  [lt a b] says that
    [a] must come strictly before [b]: [key a < key b] for an ascending
    sort, [key b < key a] under [reverse=True]. *)

Section Sorted.
Context {A : Type} (lt : A -> A -> bool).

Fixpoint insert_sorted (x : A) (l : list A) : list A :=
  match l with
  | [] => [x]
  | y :: l' => if lt y x then y :: insert_sorted x l' else x :: y :: l'
  end.

Fixpoint sorted (l : list A) : list A :=
  match l with
  | [] => []
  | x :: l' => insert_sorted x (sorted l')
  end.
End Sorted.

(** The line feed and the blank line that separates the sections of a
    response. *)
Definition nl : string := String (ascii_of_nat 10) EmptyString.
Definition blank_line : string := nl +:+ nl.

(** [sum(b for ...)] over a generator of booleans: each [True] counts 1. *)
Definition sum_bools (l : list bool) : nat :=
  foldl (fun acc (b : bool) => acc + (if b then 1 else 0)) 0 l.

(** ** Reflection agent ([reflection_agent.py]) *)

Module ReflectionAgent.
Import PyStr.

Definition positive_terms : list string :=
  ["strong"; "valid"; "plausible"; "consistent"; "novel"; "innovative"].
Definition negative_terms : list string :=
  ["weak"; "invalid"; "implausible"; "inconsistent"; "contradicts"; "flawed"].

Definition _estimate_score (review : string) : Q :=
  let positive_count :=
    sum_bools (map (fun term => contains term (lower review)) positive_terms) in
  let negative_count :=
    sum_bools (map (fun term => contains term (lower review)) negative_terms) in
  let total := positive_count + negative_count in
  if (total =? 0)%nat then 1 # 2
  else truediv (Z.of_nat positive_count) total.

End ReflectionAgent.

(** ** Meta-review agent ([meta_review_agent.py]) *)

Module MetaReviewAgent.
Import PyStr.

(** The [for line in lines[:10]] loop of [_extract_title]: [Some] is the
    [return] inside the loop. *)
Fixpoint first_title (lines : list string) : option string :=
  match lines with
  | [] => None
  | line :: rest =>
      if negb (String.eqb (strip line) EmptyString)
         && negb (startswith line "#")
         && (String.length line <? 100)%nat
      then Some (strip line)
      else first_title rest
  end.

Definition _extract_title (report : string) : string :=
  let lines := split report nl in
  match first_title (take 10 lines) with
  | Some title => title
  | None => "Research Report"
  end.

End MetaReviewAgent.

(** ** Ranking agent ([ranking_agent.py]) *)

Module RankingAgent.
Import PyStr.

(** *** Winner of one pairwise comparison *)

Definition _determine_winner (comparison_text : string) (hyp1_id hyp2_id : nat) : nat :=
  let lower_text := lower comparison_text in
  let h1 := "hypothesis " +:+ pretty hyp1_id in
  let h2 := "hypothesis " +:+ pretty hyp2_id in
  if contains (h1 +:+ " is superior") lower_text
     || contains (h1 +:+ " is stronger") lower_text
  then hyp1_id
  else if contains (h2 +:+ " is superior") lower_text
          || contains (h2 +:+ " is stronger") lower_text
  then hyp2_id
  else
    let hyp1_strength_count :=
      count lower_text (h1 +:+ " is more") + count lower_text (h1 +:+ " has higher") in
    let hyp2_strength_count :=
      count lower_text (h2 +:+ " is more") + count lower_text (h2 +:+ " has higher") in
    if (hyp2_strength_count <? hyp1_strength_count)%nat then hyp1_id
    else if (hyp1_strength_count <? hyp2_strength_count)%nat then hyp2_id
    else
      let last_sentences := join "." (last_n 3 (split comparison_text ".")) in
      if contains h1 (lower last_sentences) && negb (contains h2 (lower last_sentences))
      then hyp1_id
      else if contains h2 (lower last_sentences) && negb (contains h1 (lower last_sentences))
      then hyp2_id
      else 0.

(** *** Criterion scores of one evaluation *)

Definition criteria : list string :=
  ["novelty"; "plausibility"; "relevance"; "testability"; "potential impact"].

(** The three families of patterns, in the order the list is built:
    ["c: 1" .. "c: 10"], then ["c - 1" .. "c - 10"], then
    ["c: 1/10" .. "c: 10/10"]. *)
Definition colon_pattern (criterion : string) (i : nat) : string :=
  criterion +:+ ": " +:+ pretty i.
Definition dash_pattern (criterion : string) (i : nat) : string :=
  criterion +:+ " - " +:+ pretty i.
Definition out_of_ten_pattern (criterion : string) (i : nat) : string :=
  criterion +:+ ": " +:+ pretty i +:+ "/10".

Definition patterns (criterion : string) : list string :=
  map (colon_pattern criterion) (seq 1 10)
  ++ map (dash_pattern criterion) (seq 1 10)
  ++ map (out_of_ten_pattern criterion) (seq 1 10).

(** [pattern.lower() in evaluation.lower()] *)
Definition matches (evaluation pattern : string) : bool :=
  contains (lower pattern) (lower evaluation).

(** [int(pattern.split(" ")[-1].replace("/10", ""))] *)
Definition score_of_pattern (pattern : string) : result Z :=
  match int_of_string (replace (default EmptyString (last (split pattern " "))) "/10" "") with
  | Some score => Ok score
  | None => Raise ValueError
  end.

(** The inner loop over [patterns] with its [break]: the first pattern of
    the list that occurs decides. *)
Definition extract_criterion (evaluation criterion : string) : result (option Z) :=
  match find (matches evaluation) (patterns criterion) with
  | Some pattern => score <-- score_of_pattern pattern ;; Ok (Some score)
  | None => Ok None
  end.

Definition _extract_scores (evaluation : string) : result (gmap string Z) :=
  foldl (fun acc criterion =>
           scores <-- acc ;;
           found <-- extract_criterion evaluation criterion ;;
           Ok (match found with
               | Some score => <[criterion := score]> scores
               | None => scores
               end))
        (Ok ∅) criteria.

(** [sum(scores.values()) / len(scores) if scores else 0] *)
Definition overall_score (scores : gmap string Z) : value :=
  if (size scores =? 0)%nat then VInt 0
  else VNum (truediv (map_fold (fun _ score acc => (score + acc)%Z) 0%Z scores)
                     (size scores)).

Section WithService.
Variable llm : nat -> string.

(** *** Pairwise tournament *)

(** [for i in range(n): for j in range(i+1, n): pairs.append((i, j))] *)
Definition pairs (n : nat) : list (nat * nat) :=
  flat_map (fun i => map (pair i) (seq (i + 1) (n - (i + 1)))) (seq 0 n).

Record comparison : Type := {
  hypothesis1_idx : nat;
  hypothesis2_idx : nat;
  winner : nat;
  reasoning : string
}.

(** The state of the loop over [pairs]; [calls] counts the calls to the
    reasoning service made so far. *)
Record tournament : Type := {
  wins : list nat;
  comparisons : list comparison;
  calls : nat
}.

Definition compare_pair (t : tournament) (p : nat * nat) : tournament :=
  let '(i, j) := p in
  let comparison_result := llm (calls t) in
  let w := _determine_winner comparison_result 1 2 in
  {| wins := if (w =? 1)%nat then alter S i (wins t)
             else if (w =? 2)%nat then alter S j (wins t)
             else wins t;
     comparisons := comparisons t ++
       [{| hypothesis1_idx := i; hypothesis2_idx := j;
           winner := w; reasoning := comparison_result |}];
     calls := S (calls t) |}.

Definition run_tournament (n : nat) : tournament :=
  foldl compare_pair {| wins := replicate n 0; comparisons := []; calls := 0 |} (pairs n).

(** [sorted(range(len(wins)), key=lambda k: wins[k], reverse=True)] *)
Definition ranked_indices (wins : list nat) : list nat :=
  sorted (fun a b => (wins !!! b <? wins !!! a)%nat) (seq 0 (length wins)).

Definition involves (idx : nat) (c : comparison) : bool :=
  (hypothesis1_idx c =? idx)%nat || (hypothesis2_idx c =? idx)%nat.

Definition ranked_record (hypotheses : list hypothesis) (t : tournament)
    (rank idx : nat) : hypothesis :=
  <["total_comparisons" :=
      VInt (Z.of_nat (length (filter (fun c => involves idx c = true) (comparisons t))))]>
  (<["wins" := VInt (Z.of_nat (wins t !!! idx))]>
  (<["rank" := VInt (Z.of_nat (rank + 1))]> (hypotheses !!! idx))).

Definition _rank_by_pairwise_comparison (hypotheses : list hypothesis) : list hypothesis :=
  let t := run_tournament (length hypotheses) in
  imap (ranked_record hypotheses t) (ranked_indices (wins t)).

(** *** Scoring strategy *)

(** What can raise while the prompt is formatted:
    [hypothesis.get('review', 'No review available')[:500]]. *)
Definition scoring_prompt (h : hypothesis) : result unit :=
  _ <-- py_slice_to (get h "review" (VStr "No review available")) 500 ;; Ok tt.

Definition score_hypothesis (idx : nat) (h : hypothesis) : result hypothesis :=
  _ <-- scoring_prompt h ;;
  let evaluation := llm idx in
  scores <-- _extract_scores evaluation ;;
  Ok (<["overall_score" := overall_score scores]>
      (<["scores" := VDict (VInt <$> scores)]>
      (<["evaluation" := VStr evaluation]> h))).

Fixpoint score_all (idx : nat) (hypotheses : list hypothesis) : result (list hypothesis) :=
  match hypotheses with
  | [] => Ok []
  | h :: rest =>
      scored <-- score_hypothesis idx h ;;
      others <-- score_all (S idx) rest ;;
      Ok (scored :: others)
  end.

(** The sort key [h['overall_score']]; every scored record carries a
    number under that key. *)
Definition score_key (h : hypothesis) : Q :=
  default 0%Q (h !! "overall_score" ≫= as_number).

Definition _rank_by_scoring (hypotheses : list hypothesis) : result (list hypothesis) :=
  scored_hypotheses <-- score_all 0 hypotheses ;;
  let ranked_hypotheses :=
    sorted (fun a b => Qltb (score_key b) (score_key a)) scored_hypotheses in
  Ok (imap (fun rank h => <["rank" := VInt (Z.of_nat (rank + 1))]> h) ranked_hypotheses).

Definition process (reviewed_hypotheses : list hypothesis) : result (list hypothesis) :=
  if (length reviewed_hypotheses <=? 5)%nat
  then Ok (_rank_by_pairwise_comparison reviewed_hypotheses)
  else _rank_by_scoring reviewed_hypotheses.

End WithService.
End RankingAgent.

(** ** Proximity agent ([proximity_agent.py]) *)

Module ProximityAgent.
Import PyStr.

(** The four templates of [score_patterns], instantiated by
    [pattern.format(i)]. *)
Definition score_patterns : list (nat -> string) :=
  [ fun i => "overall proximity score: " +:+ pretty i;
    fun i => "overall proximity score of " +:+ pretty i;
    fun i => "proximity score: " +:+ pretty i;
    fun i => "overall score: " +:+ pretty i ].

(** The inner loop [for i in range(1, 11)] with its [break]. *)
Definition first_match (evaluation : string) (pattern : nat -> string) : option nat :=
  find (fun i => contains (lower (pattern i)) (lower evaluation)) (seq 1 10).

(** The outer loop: the [break] leaves the inner loop only, so a later
    template that matches overwrites the score of an earlier one. *)
Definition scan_patterns (evaluation : string) (pats : list (nat -> string))
    (proximity_score : Q) : Q :=
  foldl (fun score pattern =>
           match first_match evaluation pattern with
           | Some i => inject_Z (Z.of_nat i)
           | None => score
           end) proximity_score pats.

Definition _extract_proximity_info (evaluation : string) : Q * bool :=
  let proximity_score := scan_patterns evaluation score_patterns 5 in
  let is_relevant := Qle_bool 6 proximity_score in
  let is_relevant :=
    if contains "not relevant" (lower evaluation) || contains "irrelevant" (lower evaluation)
    then false else is_relevant in
  let is_relevant :=
    if contains "highly relevant" (lower evaluation)
       || contains "very relevant" (lower evaluation)
    then true else is_relevant in
  (proximity_score, is_relevant).

(** What can raise while the prompt is formatted: [hypothesis['statement']],
    then [len(hypothesis.get('rationale', ''))] and, above 300, the slice
    [[:300]] followed by [+ "..."], which only a string supports. *)
Definition proximity_prompt (h : hypothesis) : result unit :=
  _ <-- getitem h "statement" ;;
  let rationale := get h "rationale" (VStr "") in
  n <-- py_len rationale ;;
  if (300 <? n)%nat
  then match rationale with VStr _ => Ok tt | _ => Raise TypeError end
  else Ok tt.

Section WithService.
Variable llm : nat -> string.

Definition evaluate (idx : nat) (h : hypothesis) : result hypothesis :=
  _ <-- proximity_prompt h ;;
  let proximity_evaluation := llm idx in
  let '(proximity_score, is_relevant) := _extract_proximity_info proximity_evaluation in
  Ok (<["is_relevant" := VBool is_relevant]>
      (<["proximity_score" := VNum proximity_score]>
      (<["proximity_evaluation" := VStr proximity_evaluation]> h))).

Fixpoint evaluate_all (idx : nat) (hypotheses : list hypothesis) : result (list hypothesis) :=
  match hypotheses with
  | [] => Ok []
  | h :: rest =>
      evaluated <-- evaluate idx h ;;
      others <-- evaluate_all (S idx) rest ;;
      Ok (evaluated :: others)
  end.

Definition process (hypotheses : list hypothesis) : result (list hypothesis) :=
  evaluate_all 0 hypotheses.
End WithService.

(** [h.get('proximity_score', 0) >= threshold]; comparing a value that is
    not a number with a float raises. *)
Definition passes (threshold : Q) (h : hypothesis) : result bool :=
  match as_number (get h "proximity_score" (VInt 0)) with
  | Some score => Ok (Qle_bool threshold score)
  | None => Raise TypeError
  end.

Fixpoint filter_relevant_hypotheses (evaluated_hypotheses : list hypothesis)
    (threshold : Q) : result (list hypothesis) :=
  match evaluated_hypotheses with
  | [] => Ok []
  | h :: rest =>
      keep <-- passes threshold h ;;
      others <-- filter_relevant_hypotheses rest threshold ;;
      Ok (if keep : bool then h :: others else others)
  end.

(** The default of the [threshold] parameter. *)
Definition default_threshold : Q := 5.

End ProximityAgent.

(** ** Evolution agent ([evolution_agent.py]) *)

Module EvolutionAgent.
Import PyStr.

Definition scoring_keys : list string :=
  ["review"; "assessment_summary"; "rank"; "scores"; "evaluation"; "overall_score"; "wins"].

Definition blank_hypothesis (evolution_text : string) : hypothesis :=
  <["statement" := VStr ""]>
  (<["rationale" := VStr ""]>
  (<["evidence" := VStr ""]>
  (<["assumptions" := VStr ""]>
  (<["validation" := VStr ""]>
  (<["evolution_text" := VStr evolution_text]> ∅))))).

(** [section.split(':', 1)[1].strip()], reached only when [':' in section]. *)
Definition section_body (section : string) : string :=
  strip (default EmptyString (after_first ":" section)).

(** One turn of the loop over [sections]: the [if]/[elif] chain. *)
Definition parse_section (evolved_hypothesis : hypothesis) (section : string) : hypothesis :=
  let lower_section := lower section in
  let has_colon := contains ":" section in
  if contains "statement" lower_section && has_colon
  then <["statement" := VStr (section_body section)]> evolved_hypothesis
  else if contains "rationale" lower_section && has_colon
  then <["rationale" := VStr (section_body section)]> evolved_hypothesis
  else if contains "evidence" lower_section && has_colon
  then <["evidence" := VStr (section_body section)]> evolved_hypothesis
  else if contains "assumptions" lower_section && has_colon
  then <["assumptions" := VStr (section_body section)]> evolved_hypothesis
  else if contains "validation" lower_section && has_colon
  then <["validation" := VStr (section_body section)]> evolved_hypothesis
  else evolved_hypothesis.

(** [original_hypothesis] is [None] by default; an empty dictionary is
    falsy as well.  [{**original, **evolved}] keeps the keys of [evolved]
    where both have one: the left-biased union. *)
Definition _parse_evolved_hypothesis (evolution_text : string)
    (original_hypothesis : option hypothesis) : hypothesis :=
  let evolved_hypothesis := blank_hypothesis evolution_text in
  let evolved_hypothesis :=
    match original_hypothesis with
    | Some original =>
        if (size original =? 0)%nat then evolved_hypothesis
        else foldl (fun h key => delete key h) (evolved_hypothesis ∪ original) scoring_keys
    | None => evolved_hypothesis
    end in
  foldl parse_section evolved_hypothesis (split evolution_text blank_line).

(** The sort key [h.get('rank', float('inf'))]: a number ([None] stands
    for the infinity a record without rank gets), a text, or a value of
    another kind.  [None] and dictionaries are never ordered by [<]; a
    list is taken as not ordered either (Python orders two lists when it
    can order their elements: such ranks are not modelled). *)
Inductive sort_key : Type :=
  | KNumber (q : option Q)
  | KText (s : string)
  | KOther.

Definition rank_key (h : hypothesis) : sort_key :=
  match h !! "rank" with
  | None => KNumber None
  | Some (VStr s) => KText s
  | Some v => match as_number v with
              | Some q => KNumber (Some q)
              | None => KOther
              end
  end.

Definition key_lt (a b : option Q) : bool :=
  match a, b with
  | Some x, Some y => Qltb x y
  | Some _, None => true
  | None, _ => false
  end.

(** [k1 < k2]: a number compares with a number and a text with a text,
    character by character; every other comparison raises. *)
Definition key_before (k1 k2 : sort_key) : result bool :=
  match k1, k2 with
  | KNumber a, KNumber b => Ok (key_lt a b)
  | KText s, KText t => Ok (String.ltb s t)
  | _, _ => Raise TypeError
  end.

Definition comparable (a b : hypothesis) : bool :=
  match key_before (rank_key a) (rank_key b) with
  | Ok _ => true
  | Raise _ => false
  end.

(** Sorting two records or more compares every key with another one, and
    the comparisons that put a list in order connect all its keys: the
    sort raises [TypeError] as soon as two of the keys cannot be
    compared. *)
Definition check_keys (hypotheses : list hypothesis) : result unit :=
  if forallb (fun a => forallb (comparable a) hypotheses) hypotheses
  then Ok tt
  else Raise TypeError.

(** The order of the keys once they are known to compare. *)
Definition rank_lt (a b : hypothesis) : bool :=
  match key_before (rank_key a) (rank_key b) with
  | Ok r => r
  | Raise _ => false
  end.

(** [sorted(ranked_hypotheses, key=lambda h: h.get('rank', float('inf')))];
    a list of fewer than two records is never compared. *)
Definition sort_by_rank (ranked_hypotheses : list hypothesis) : result (list hypothesis) :=
  _ <-- (if (length ranked_hypotheses <=? 1)%nat then Ok tt else check_keys ranked_hypotheses) ;;
  Ok (sorted rank_lt ranked_hypotheses).

(** What can raise before the individual prompt is sent:
    [len(review_feedback)], the truncation [review_feedback[:1000] + "..."]
    and the five subscripts, in this order. *)
Definition individual_prompt (h : hypothesis) : result unit :=
  let review_feedback := get h "review" (VStr "") in
  n <-- py_len review_feedback ;;
  _ <-- (if (1000 <? n)%nat
         then match review_feedback with VStr _ => Ok tt | _ => Raise TypeError end
         else Ok tt) ;;
  _ <-- getitem h "statement" ;;
  _ <-- getitem h "rationale" ;;
  _ <-- getitem h "evidence" ;;
  _ <-- getitem h "assumptions" ;;
  _ <-- getitem h "validation" ;;
  Ok tt.

(** What can raise while the hybrid prompt is formatted:
    [hyp['statement']] and [hyp['rationale'][:300]] for both parents. *)
Definition hybrid_prompt (hyp1 hyp2 : hypothesis) : result unit :=
  _ <-- getitem hyp1 "statement" ;;
  r1 <-- getitem hyp1 "rationale" ;;
  _ <-- py_slice_to r1 300 ;;
  _ <-- getitem hyp2 "statement" ;;
  r2 <-- getitem hyp2 "rationale" ;;
  _ <-- py_slice_to r2 300 ;;
  Ok tt.

Section WithService.
Variable llm : nat -> string.

Definition evolve_individual (idx : nat) (h : hypothesis) : result hypothesis :=
  _ <-- individual_prompt h ;;
  let evolution_response := llm idx in
  let evolved_hypothesis := _parse_evolved_hypothesis evolution_response (Some h) in
  Ok (<["evolution_type" := VStr "individual_refinement"]>
      (<["original_rank" := get h "rank" VNone]> evolved_hypothesis)).

Fixpoint evolve_each (idx : nat) (top_hypotheses : list hypothesis)
    : result (list hypothesis) :=
  match top_hypotheses with
  | [] => Ok []
  | h :: rest =>
      evolved <-- evolve_individual idx h ;;
      others <-- evolve_each (S idx) rest ;;
      Ok (evolved :: others)
  end.

Definition combine (idx : nat) (hyp1 hyp2 : hypothesis) : result hypothesis :=
  _ <-- hybrid_prompt hyp1 hyp2 ;;
  let hybrid_response := llm idx in
  let hybrid_hypothesis := _parse_evolved_hypothesis hybrid_response None in
  s1 <-- getitem hyp1 "statement" ;;
  s2 <-- getitem hyp2 "statement" ;;
  Ok (<["parent_hypotheses" := VList [s1; s2]]>
      (<["evolution_type" := VStr "hypothesis_combination"]>
      (<["original_ranks" := VList [get hyp1 "rank" VNone; get hyp2 "rank" VNone]]>
         hybrid_hypothesis))).

Definition process (ranked_hypotheses : list hypothesis) : result (list hypothesis) :=
  sorted_hypotheses <-- sort_by_rank ranked_hypotheses ;;
  let top_k := min 3 (length sorted_hypotheses) in
  let top_hypotheses := take top_k sorted_hypotheses in
  evolved_hypotheses <-- evolve_each 0 top_hypotheses ;;
  match top_hypotheses with
  | hyp1 :: hyp2 :: _ =>
      hybrid_hypothesis <-- combine (length top_hypotheses) hyp1 hyp2 ;;
      Ok (evolved_hypotheses ++ [hybrid_hypothesis])
  | _ => Ok evolved_hypotheses
  end.
End WithService.
End EvolutionAgent.

(** ** Generation agent ([generation_agent.py]) *)

Module GenerationAgent.
Import PyStr.

(** [section.split(":\n", 1)[-1] if ":\n" in section else section] *)
Definition field_text (section : string) : string :=
  match after_first (":" +:+ nl) section with
  | Some text => text
  | None => section
  end.

(** The state of the loop over [sections]. *)
Record parser : Type := {
  hypotheses : list hypothesis;
  current_hypothesis : hypothesis
}.

(** A dictionary is truthy when it is not empty. *)
Definition truthy (d : hypothesis) : bool := negb (size d =? 0)%nat.

Definition has_key (d : hypothesis) (k : string) : bool :=
  match d !! k with Some _ => true | None => false end.

Definition new_hypothesis (section : string) : hypothesis :=
  <["hypothesis" := VStr (field_text section)]>
  (<["rationale" := VStr ""]>
  (<["evidence" := VStr ""]>
  (<["assumptions" := VStr ""]>
  (<["validation" := VStr ""]> ∅)))).

Definition parse_section (p : parser) (section : string) : parser :=
  if contains "Hypothesis" section && negb (has_key (current_hypothesis p) "hypothesis")
  then {| hypotheses := if truthy (current_hypothesis p)
                        then hypotheses p ++ [current_hypothesis p]
                        else hypotheses p;
          current_hypothesis := new_hypothesis section |}
  else if contains "Rationale" section
  then {| hypotheses := hypotheses p;
          current_hypothesis :=
            <["rationale" := VStr (field_text section)]> (current_hypothesis p) |}
  else if contains "Evidence" section
  then {| hypotheses := hypotheses p;
          current_hypothesis :=
            <["evidence" := VStr (field_text section)]> (current_hypothesis p) |}
  else if contains "Assumptions" section
  then {| hypotheses := hypotheses p;
          current_hypothesis :=
            <["assumptions" := VStr (field_text section)]> (current_hypothesis p) |}
  else if contains "Validation" section || contains "Testing" section
  then {| hypotheses := hypotheses p;
          current_hypothesis :=
            <["validation" := VStr (field_text section)]> (current_hypothesis p) |}
  else p.

Definition _parse_hypotheses (response : string) : list hypothesis :=
  let p := foldl parse_section {| hypotheses := []; current_hypothesis := ∅ |}
                 (split response blank_line) in
  if truthy (current_hypothesis p)
  then hypotheses p ++ [current_hypothesis p]
  else hypotheses p.

End GenerationAgent.

(** ** Reference definitions

    The quantities the statements below compare the code with. *)

Module Reference.
Import PyStr.

(** The number of terms of a lexicon that occur in a review. *)
Definition term_count (terms : list string) (review : string) : nat :=
  length (filter (fun term => contains term (lower review) = true) terms).

(** A title as the design document words it: the first non-empty line
    shorter than 100 characters among the first 10 lines. *)
Definition documented_title (report : string) : string :=
  match find (fun line => negb (String.eqb line EmptyString)
                          && (String.length line <? 100)%nat)
             (take 10 (split report nl)) with
  | Some line => line
  | None => "Research Report"
  end.

(** The lines the title loop visits: [lines[:10]]. *)
Definition first_lines (report : string) : list string :=
  take 10 (split report nl).

(** A line the title loop accepts. *)
Definition qualifies (line : string) : bool :=
  negb (String.eqb (strip line) EmptyString)
  && negb (startswith line "#")
  && (String.length line <? 100)%nat.

Definition says_irrelevant (evaluation : string) : bool :=
  contains "not relevant" (lower evaluation) || contains "irrelevant" (lower evaluation).

Definition says_relevant (evaluation : string) : bool :=
  contains "highly relevant" (lower evaluation)
  || contains "very relevant" (lower evaluation).

(** The least [n] of [1..10] that satisfies [P]. *)
Definition least (P : nat -> bool) : option nat := find P (seq 1 10).

Definition colon_occurs (evaluation criterion : string) (i : nat) : bool :=
  RankingAgent.matches evaluation (RankingAgent.colon_pattern criterion i).

Definition dash_occurs (evaluation criterion : string) (i : nat) : bool :=
  RankingAgent.matches evaluation (RankingAgent.dash_pattern criterion i).

(** The score the pattern list of one criterion yields: the least [n] whose
    ["c: n"] occurs and, when there is none, the least [n] whose ["c - n"]
    occurs. *)
Definition first_score (evaluation criterion : string) : option nat :=
  match least (colon_occurs evaluation criterion) with
  | Some n => Some n
  | None => least (dash_occurs evaluation criterion)
  end.

(** The least [n] of [1..10] one of whose three patterns occurs. *)
Definition least_any_variant (evaluation criterion : string) : option nat :=
  least (fun i =>
           colon_occurs evaluation criterion i
           || dash_occurs evaluation criterion i
           || RankingAgent.matches evaluation (RankingAgent.out_of_ten_pattern criterion i)).

(** The dictionary the loop over the criteria [ks] builds from [scores]. *)
Definition scores_of (evaluation : string) (scores : gmap string Z)
    (ks : list string) : gmap string Z :=
  foldl (fun m c => match first_score evaluation c with
                    | Some n => <[c := Z.of_nat n]> m
                    | None => m
                    end) scores ks.

(** The scores found, in the order of the criteria. *)
Definition found_scores (evaluation : string) (ks : list string) : list Z :=
  omap (fun c => Z.of_nat <$> first_score evaluation c) ks.

(** The arithmetic mean of a non-empty list of integers. *)
Definition mean (l : list Z) : Q := truediv (foldr Z.add 0%Z l) (length l).

(** [v[:n]] is defined on the review of [h], or [h] has no review. *)
Definition sliceable_review (h : hypothesis) : bool :=
  match h !! "review" with
  | None | Some (VStr _) | Some (VList _) => true
  | Some _ => false
  end.

(** The record has a statement. *)
Definition has_statement (h : hypothesis) : bool :=
  match h !! "statement" with Some _ => true | None => false end.

(** The field [k] of a record is a text, or the record has no such
    field. *)
Definition text_or_absent (h : hypothesis) (k : string) : bool :=
  match h !! k with
  | None | Some (VStr _) => true
  | Some _ => false
  end.

(** A record with a statement whose rationale, when there is one, is a
    text. *)
Definition fit_for_proximity (h : hypothesis) : bool :=
  has_statement h && text_or_absent h "rationale".

(** A rationale the proximity prompt can take: text of any length, no
    rationale, or a list or dictionary of at most 300 entries (a longer
    one is sliced and joined to "...", which only text supports). *)
Definition usable_rationale (h : hypothesis) : bool :=
  match h !! "rationale" with
  | None | Some (VStr _) => true
  | Some (VList l) => (length l <=? 300)%nat
  | Some (VDict d) => (size d <=? 300)%nat
  | Some _ => false
  end.

(** A record the proximity prompt can be built from. *)
Definition promptable (h : hypothesis) : bool :=
  has_statement h && usable_rationale h.

(** [h.get('proximity_score', 0) >= threshold] on a numeric score. *)
Definition score_at_least (threshold : Q) (h : hypothesis) : bool :=
  match as_number (get h "proximity_score" (VInt 0)) with
  | Some score => Qle_bool threshold score
  | None => false
  end.

(** The record [ProximityAgent.process] returns for [h] when the service
    answers [evaluation]. *)
Definition evaluated_record (evaluation : string) (h : hypothesis) : hypothesis :=
  <["is_relevant" := VBool (snd (ProximityAgent._extract_proximity_info evaluation))]>
  (<["proximity_score" := VNum (fst (ProximityAgent._extract_proximity_info evaluation))]>
  (<["proximity_evaluation" := VStr evaluation]> h)).

(** [a] occurs before [b] in a list. *)
Inductive before {A : Type} (a b : A) : list A -> Prop :=
  | before_here (l : list A) : b ∈ l -> before a b (a :: l)
  | before_later (x : A) (l : list A) : before a b l -> before a b (x :: l).

(** The win counts at the end of the tournament among [n] hypotheses. *)
Definition final_wins (llm : nat -> string) (n : nat) : list nat :=
  RankingAgent.wins (RankingAgent.run_tournament llm n).

(** The comparisons that named a winner. *)
Definition decisive (c : RankingAgent.comparison) : bool :=
  negb (RankingAgent.winner c =? 0)%nat.

(** The pair of indices a comparison was made on. *)
Definition indices (c : RankingAgent.comparison) : nat * nat :=
  (RankingAgent.hypothesis1_idx c, RankingAgent.hypothesis2_idx c).

Definition pair_involves (idx : nat) (p : nat * nat) : bool :=
  (fst p =? idx)%nat || (snd p =? idx)%nat.

(** The number of elements of a list that satisfy a test. *)
Fixpoint count_if {A} (f : A -> bool) (l : list A) : nat :=
  match l with
  | [] => 0
  | x :: l' => (if f x then 1 else 0) + count_if f l'
  end.

(** [sum(scores.values())] *)
Definition total (scores : gmap string Z) : Z :=
  map_fold (fun _ score acc => (score + acc)%Z) 0%Z scores.


(** A pattern decodes to the number it was built from. *)
Definition decodes (pattern : string) (i : nat) : bool :=
  match RankingAgent.score_of_pattern pattern with
  | Ok score => (score =? Z.of_nat i)%Z
  | Raise _ => false
  end.

(** What holds of the generation parser all along: the records already
    closed have no ['hypothesis'] key, there is at most one of them, and
    there is none while the record under construction has no key. *)
Definition parser_inv (p : GenerationAgent.parser) : Prop :=
  Forall (fun h => GenerationAgent.has_key h "hypothesis" = false)
         (GenerationAgent.hypotheses p)
  /\ (length (GenerationAgent.hypotheses p) <= 1)%nat
  /\ (GenerationAgent.has_key (GenerationAgent.current_hypothesis p) "hypothesis" = false ->
      GenerationAgent.hypotheses p = []).

(** The field [k] of a record is a text. *)
Definition is_text (h : hypothesis) (k : string) : bool :=
  match h !! k with Some (VStr _) => true | _ => false end.

(** The record has a field [k]. *)
Definition has (h : hypothesis) (k : string) : bool :=
  match h !! k with Some _ => true | None => false end.

(** The field [k] of a record is a number, or the record has no such
    field. *)
Definition numeric_or_absent (h : hypothesis) (k : string) : bool :=
  match h !! k with
  | None => true
  | Some v => match as_number v with Some _ => true | None => false end
  end.

(** A review the refinement prompt can take: text of any length, no
    review, or a list or dictionary of at most 1000 entries (a longer one
    is sliced and joined to "...", which only text supports). *)
Definition usable_review (h : hypothesis) : bool :=
  match h !! "review" with
  | None | Some (VStr _) => true
  | Some (VList l) => (length l <=? 1000)%nat
  | Some (VDict d) => (size d <=? 1000)%nat
  | Some _ => false
  end.

(** A record the refinement prompt can be built from. *)
Definition refinable (h : hypothesis) : bool :=
  has h "statement" && has h "rationale" && has h "evidence"
  && has h "assumptions" && has h "validation" && usable_review h.

(** A record the combination prompt can be built from: it has a
    statement and a rationale that can be sliced. *)
Definition combinable (h : hypothesis) : bool :=
  has h "statement"
  && match h !! "rationale" with
     | Some (VStr _) | Some (VList _) => true
     | _ => false
     end.

(** The rank of the record, if it has one, is not a list.  (Python orders
    lists of ranks element by element; the records considered here have
    none.) *)
Definition plain_rank (h : hypothesis) : bool :=
  match h !! "rank" with Some (VList _) => false | _ => true end.

(** Ranks the sort can order: at most one record, or every rank a number
    or missing, or every rank a text. *)
Definition ranks_ordered (l : list hypothesis) : bool :=
  (length l <=? 1)%nat
  || forallb (fun h => numeric_or_absent h "rank") l
  || forallb (fun h => is_text h "rank") l.

(** The rank of a record as the sort reads it. *)
Inductive rank : Type :=
  | NoRank
  | NumberRank (q : Q)
  | TextRank (s : string)
  | OtherRank.

Definition rank_of (h : hypothesis) : rank :=
  match h !! "rank" with
  | None => NoRank
  | Some (VStr s) => TextRank s
  | Some v => match as_number v with
              | Some q => NumberRank q
              | None => OtherRank
              end
  end.

(** The rank of a record as a number, infinity ([None]) when it is not
    one. *)
Definition number_of (h : hypothesis) : option Q :=
  match rank_of h with NumberRank q => Some q | _ => None end.

(** The rank of a record as a text, empty when it is not one. *)
Definition text_of (h : hypothesis) : string :=
  match rank_of h with TextRank s => s | _ => "" end.

(** The order [sorted(..., key=lambda h: h.get('rank', float('inf')))]
    sorts by: smaller numbers first and records without rank after every
    number; texts in the order of their characters. *)
Definition by_rank (a b : hypothesis) : bool :=
  match rank_of a, rank_of b with
  | NumberRank x, NumberRank y => Qltb x y
  | NumberRank _, NoRank => true
  | TextRank s, TextRank t => String.ltb s t
  | _, _ => false
  end.

(** The hypotheses the evolution pass works on: the first three of the
    list sorted by rank. *)
Definition top_hypotheses (ranked : list hypothesis) : list hypothesis :=
  take (min 3 (length ranked)) (sorted by_rank ranked).

(** The input lists the evolution pass returns on: the ranks can be
    ordered, each of the records it refines yields a refinement prompt,
    and, when there are two records or more, the first two yield the
    combination prompt. *)
Definition evolvable (ranked : list hypothesis) : bool :=
  ranks_ordered ranked
  && forallb refinable (top_hypotheses ranked)
  && ((length ranked <? 2)%nat || forallb combinable (take 2 (top_hypotheses ranked))).

(** The variant evolved from [h] alone when the service answers [text]. *)
Definition individual_variant (text : string) (h : hypothesis) : hypothesis :=
  <["evolution_type" := VStr "individual_refinement"]>
  (<["original_rank" := get h "rank" VNone]>
     (EvolutionAgent._parse_evolved_hypothesis text (Some h))).

(** The hybrid of [hyp1] and [hyp2] when the service answers [text]. *)
Definition combination_variant (text : string) (hyp1 hyp2 : hypothesis) : hypothesis :=
  <["parent_hypotheses" := VList [get hyp1 "statement" VNone; get hyp2 "statement" VNone]]>
  (<["evolution_type" := VStr "hypothesis_combination"]>
  (<["original_ranks" := VList [get hyp1 "rank" VNone; get hyp2 "rank" VNone]]>
     (EvolutionAgent._parse_evolved_hypothesis text None))).

Definition is_combination (h : hypothesis) : bool :=
  match h !! "evolution_type" with
  | Some (VStr s) => String.eqb s "hypothesis_combination"
  | _ => false
  end.
End Reference.

(** ** Sample records *)

Module Examples.
(** A ranked hypothesis with the five text fields. *)
Definition draft (statement rationale : string) (rank : Z) : hypothesis :=
  <["statement" := VStr statement]>
  (<["rationale" := VStr rationale]>
  (<["evidence" := VStr ""]>
  (<["assumptions" := VStr ""]>
  (<["validation" := VStr ""]>
  (<["rank" := VInt rank]> ∅))))).

(** A service that always answers with a statement and a rationale. *)
Definition steady_service (_ : nat) : string :=
  "Statement: caffeine shortens reaction time." +:+ blank_line
  +:+ "Rationale: adenosine receptors are blocked.".
End Examples.

(** ** Reflection agent: the review pass ([reflection_agent.py]) *)

Module ReflectionReview.
Import PyStr.

Definition _extract_assessment_summary (review : string) : hypothesis :=
  <["valid" := VBool (negb (contains "invalid" (lower review))
                      && negb (contains "implausible" (lower review)))]>
  (<["strengths" := VList []]>
  (<["weaknesses" := VList []]>
  (<["ethical_concerns" := VBool (contains "ethical concerns" (lower review)
                                  || contains "ethical issues" (lower review))]>
  (<["practical_limitations" := VBool (contains "impractical" (lower review)
                                       || contains "limitation" (lower review))]>
  (<["overall_score" := VNum (ReflectionAgent._estimate_score review)]> ∅))))).

(** What can raise while the review prompt is formatted: the five
    subscripts, in this order. *)
Definition review_prompt (h : hypothesis) : result unit :=
  _ <-- getitem h "statement" ;;
  _ <-- getitem h "rationale" ;;
  _ <-- getitem h "evidence" ;;
  _ <-- getitem h "assumptions" ;;
  _ <-- getitem h "validation" ;;
  Ok tt.

Section WithService.
Variable llm : nat -> string.

Definition review_one (idx : nat) (h : hypothesis) : result hypothesis :=
  _ <-- review_prompt h ;;
  let review_response := llm idx in
  Ok (<["assessment_summary" := VDict (_extract_assessment_summary review_response)]>
      (<["review" := VStr review_response]> h)).

Fixpoint review_all (idx : nat) (hypotheses : list hypothesis) : result (list hypothesis) :=
  match hypotheses with
  | [] => Ok []
  | h :: rest =>
      reviewed <-- review_one idx h ;;
      others <-- review_all (S idx) rest ;;
      Ok (reviewed :: others)
  end.

Definition process (hypotheses : list hypothesis) : result (list hypothesis) :=
  review_all 0 hypotheses.
End WithService.
End ReflectionReview.

(** ** Meta-review agent: the report ([meta_review_agent.py]) *)

Module MetaReviewReport.
Import PyStr.

(** [s[:k]] for an integer [k] of either sign: a negative bound counts from
    the end. *)
Definition slice_to (s : string) (k : Z) : string :=
  if (0 <=? k)%Z then String.substring 0 (Z.to_nat k) s
  else String.substring 0 (String.length s - Z.to_nat (- k)) s.

(** What can raise while the summaries are built: [hypothesis['statement']]
    and the slice [hypothesis.get('rationale', '')[:500]]. *)
Definition summary_fields (h : hypothesis) : result unit :=
  _ <-- getitem h "statement" ;;
  _ <-- py_slice_to (get h "rationale" (VStr "")) 500 ;;
  Ok tt.

Fixpoint summaries (final_hypotheses : list hypothesis) : result unit :=
  match final_hypotheses with
  | [] => Ok tt
  | h :: rest => _ <-- summary_fields h ;; summaries rest
  end.

Section WithService.
Variable llm : nat -> string.
(** [_get_timestamp()]: the wall clock, outside the model. *)
Variable timestamp : string.

Definition process (final_hypotheses : list hypothesis) (research_goal : string)
    (output_format : string) : result hypothesis :=
  _ <-- summaries final_hypotheses ;;
  let research_report := llm 0 in
  Ok (<["title" := VStr (MetaReviewAgent._extract_title research_report)]>
      (<["research_goal" := VStr research_goal]>
      (<["report" := VStr research_report]>
      (<["format" := VStr output_format]>
      (<["hypothesis_count" := VInt (Z.of_nat (length final_hypotheses))]>
      (<["timestamp" := VStr timestamp]> ∅)))))).

(** What can raise while the summary prompt is formatted:
    [report_package['research_goal']], [report_package['title']] and
    [report_package['report'][:2000]]. *)
Definition summary_prompt (report_package : hypothesis) : result unit :=
  _ <-- getitem report_package "research_goal" ;;
  _ <-- getitem report_package "title" ;;
  report <-- getitem report_package "report" ;;
  _ <-- py_slice_to report 2000 ;;
  Ok tt.

Definition create_executive_summary (report_package : hypothesis) (max_length : Z)
    : result string :=
  _ <-- summary_prompt report_package ;;
  let summary := llm 0 in
  Ok (if (max_length <? Z.of_nat (String.length summary))%Z
      then slice_to summary (max_length - 3) +:+ "..."
      else summary).
End WithService.
End MetaReviewReport.

(** ** The conversation of an agent ([base_agent.py]) *)

Module BaseAgent.

Inductive message : Type :=
  | SystemMessage (content : string)
  | HumanMessage (content : string)
  | AIMessage (content : string).

(** The state of an agent that the methods below touch. *)
Record agent : Type := {
  system_prompt : string;
  conversation_history : list message
}.

(** [__init__] *)
Definition init (prompt : string) : agent :=
  {| system_prompt := prompt; conversation_history := [SystemMessage prompt] |}.

Definition add_message (a : agent) (text : string) (is_human : bool) : agent :=
  {| system_prompt := system_prompt a;
     conversation_history :=
       conversation_history a
       ++ [if is_human then HumanMessage text else AIMessage text] |}.

Section WithModel.
(** [self.llm.invoke]: the answer to a whole conversation. *)
Variable invoke : list message -> string.

Definition get_response (a : agent) (query : string) : agent * string :=
  let a1 := add_message a query true in
  let response := invoke (conversation_history a1) in
  (add_message a1 response false, response).

(** [clear_history]: [None] is the [IndexError] of
    [self.conversation_history[0]] on an empty history. *)
Definition clear_history (a : agent) : option agent :=
  match conversation_history a with
  | [] => None
  | first :: _ =>
      Some {| system_prompt := system_prompt a; conversation_history := [first] |}
  end.

(** The calls a subclass makes on its own state. *)
Inductive call : Type :=
  | Ask (query : string)
  | Tell (text : string) (is_human : bool)
  | Clear.

Definition step (a : agent) (c : call) : option agent :=
  match c with
  | Ask query => Some (fst (get_response a query))
  | Tell text is_human => Some (add_message a text is_human)
  | Clear => clear_history a
  end.

Fixpoint run (a : agent) (calls : list call) : option agent :=
  match calls with
  | [] => Some a
  | c :: rest => match step a c with
                 | Some a' => run a' rest
                 | None => None
                 end
  end.
End WithModel.
End BaseAgent.

(** ** The caller of the generation agent ([main.py]) *)

Module Main.
Section WithService.
Variable llm : nat -> string.
(** [validate_hypothesis] tests its argument with regular expressions; it
    is taken as given. *)
Variable validate_hypothesis : string -> bool * list string.

(** One turn of the loop over the generated records; [valid_hypotheses]
    is the list built so far. *)
Definition validate_one (valid_hypotheses : list hypothesis) (h : hypothesis)
    : result (list hypothesis) :=
  text <-- getitem h "hypothesis" ;;
  match text with
  | VStr s =>
      let '(is_valid, issues) := validate_hypothesis s in
      let h' := <["validation" :=
                    VDict (<["is_valid" := VBool is_valid]>
                           (<["issues" := VList (VStr <$> issues)]> ∅))]> h in
      Ok (if is_valid then valid_hypotheses ++ [h'] else valid_hypotheses)
  | _ => Raise TypeError
  end.

Definition validate_all (hypotheses : list hypothesis) : result (list hypothesis) :=
  foldl (fun acc h => valid <-- acc ;; validate_one valid h) (Ok []) hypotheses.

(** [CoScientist.generate_hypotheses]; [count] only reaches the log. *)
Definition generate_hypotheses (research_goal : string) (count : Z)
    : result (list hypothesis) :=
  if String.eqb research_goal EmptyString then Raise ValueError
  else validate_all (GenerationAgent._parse_hypotheses (llm 0)).
End WithService.
End Main.

(** ** Validators ([utils/validators.py]) *)

Module Validators.
Import PyStr.

(** [s.endswith(suffix)] *)
Definition endswith (s suffix : string) : bool :=
  String.prefix (String.rev suffix) (String.rev s).

(** What [\w] matches in text of the ASCII range. *)
Definition is_word_char (c : ascii) : bool :=
  let n := nat_of_ascii c in
  ((48 <=? n)%nat && (n <=? 57)%nat) || ((65 <=? n)%nat && (n <=? 90)%nat)
  || ((97 <=? n)%nat && (n <=? 122)%nat) || (n =? 95)%nat.

(** [s] starts with [word] and a word boundary follows. *)
Definition word_ends (word s : string) : bool :=
  String.prefix word s
  && match drop_str (String.length word) s with
     | EmptyString => true
     | String c _ => negb (is_word_char c)
     end.

(** [re.search(r"\b(w1|...|wn)\b", s)] for words made of letters:
    [prev_is_word] tells whether the character before [s] is a word
    character. *)
Fixpoint word_search_from (words : list string) (prev_is_word : bool) (s : string) : bool :=
  (negb prev_is_word && existsb (fun word => word_ends word s) words)
  || match s with
     | EmptyString => false
     | String c s' => word_search_from words (is_word_char c) s'
     end.

Definition word_search (words : list string) (s : string) : bool :=
  word_search_from words false s.

(** [f" {term} " in f" {text} "] *)
Definition spaced_in (term text : string) : bool :=
  contains (" " +:+ term +:+ " ") (" " +:+ text +:+ " ").

Definition testability_terms : list string :=
  ["increase"; "decrease"; "affect"; "change"; "cause"; "lead to"; "result in";
   "correlate"; "association"; "relationship"].

Definition vague_terms : list string :=
  ["very"; "extremely"; "many"; "most"; "few"; "several"; "a lot"; "better"; "worse";
   "good"; "bad"; "significant"].

Definition condition_words : list string := ["if"; "when"; "as"; "while"].

Definition effect_words : list string :=
  ["causes"; "affects"; "influences"; "impacts"; "changes"; "increases"; "decreases"].

Definition validate_hypothesis (hypothesis : string) : bool * list string :=
  let issues := [] in
  let issues :=
    if (String.length hypothesis <? 10)%nat
    then issues ++ ["Hypothesis is too short"] else issues in
  let issues :=
    if (1000 <? String.length hypothesis)%nat
    then issues ++ ["Hypothesis is too long (>1000 characters)"] else issues in
  let issues :=
    if endswith (strip hypothesis) "?"
    then issues ++ ["Hypothesis should be a statement, not a question"] else issues in
  let has_testability_term :=
    existsb (fun term => contains term (lower hypothesis)) testability_terms in
  let issues :=
    if negb has_testability_term
    then issues ++ ["Hypothesis may not be testable - consider including terms that describe relationships, effects, or changes"]
    else issues in
  let found_vague_terms :=
    List.filter (fun term => spaced_in term (lower hypothesis)) vague_terms in
  let issues :=
    match found_vague_terms with
    | [] => issues
    | _ => issues ++ ["Hypothesis contains vague terms: " +:+ join ", " found_vague_terms]
    end in
  let issues :=
    if negb (word_search condition_words (lower hypothesis))
       && negb (word_search effect_words (lower hypothesis))
    then issues ++ ["Hypothesis may not clearly specify variables or relationships to test"]
    else issues in
  let is_valid := (length issues <=? 1)%nat in
  (is_valid, issues).

Definition appropriate_starts : list string :=
  ["to "; "the goal is to "; "this research aims to "; "we aim to ";
   "this study seeks to "; "the purpose is to "].

Definition research_verbs : list string :=
  ["investigate"; "explore"; "analyze"; "determine"; "identify"; "examine"; "understand";
   "evaluate"; "assess"; "develop"; "discover"; "explain"; "test"; "validate";
   "characterize"].

Definition validate_research_goal (goal : string) : bool * list string :=
  let issues := [] in
  let issues :=
    if (String.length goal <? 10)%nat
    then issues ++ ["Research goal is too short"] else issues in
  let issues :=
    if (500 <? String.length goal)%nat
    then issues ++ ["Research goal is too long (>500 characters)"] else issues in
  let has_appropriate_start :=
    existsb (fun start => startswith (lower goal) start) appropriate_starts in
  let issues :=
    if negb has_appropriate_start
    then issues ++ ["Research goal should typically start with 'To...' or similar phrase"]
    else issues in
  let has_research_verb :=
    existsb (fun verb => spaced_in verb (lower goal)) research_verbs in
  let issues :=
    if negb has_research_verb
    then issues ++ ["Research goal should include specific research action verbs"]
    else issues in
  let issues :=
    if endswith (strip goal) "?"
    then issues ++ ["Research goal should be a statement, not a question"] else issues in
  let is_valid := (length issues <=? 1)%nat in
  (is_valid, issues).
End Validators.

(** ** The workflow of the main class ([main.py]) *)

Module Workflow.
Import PyStr.

(** The exceptions of the workflow. *)
Inductive failure : Type :=
  | Error (e : error)
  | ValidationError (message : string)
  | AttributeError (class attribute : string).

Inductive outcome (A : Type) : Type :=
  | Done (a : A)
  | Raised (f : failure).
Arguments Done {A} a.
Arguments Raised {A} f.

Definition and_then {A B} (o : outcome A) (k : A -> outcome B) : outcome B :=
  match o with
  | Done a => k a
  | Raised f => Raised f
  end.

Notation "x <~ o ;; k" := (and_then o (fun x => k))
  (at level 100, o at next level, right associativity).

Definition lift {A} (r : result A) : outcome A :=
  match r with
  | Ok a => Done a
  | Raise e => Raised (Error e)
  end.

(** The attributes [BaseAgent.__init__] sets and the methods [BaseAgent]
    defines. *)
Definition base_attributes : list string :=
  ["name"; "system_prompt"; "model"; "temperature"; "conversation_history"; "llm";
   "logger"; "add_message"; "get_response"; "clear_history"; "process"].

(** The methods each agent class defines itself. *)
Definition own_methods (class : string) : list string :=
  if String.eqb class "GenerationAgent" then
    ["generate_hypotheses"; "process"; "_parse_hypotheses"]
  else if String.eqb class "ReflectionAgent" then
    ["process"; "_extract_assessment_summary"; "_estimate_score"]
  else if String.eqb class "RankingAgent" then
    ["rank_hypotheses"; "process"; "_rank_by_pairwise_comparison"; "_rank_by_scoring";
     "_determine_winner"; "_extract_scores"]
  else if String.eqb class "EvolutionAgent" then
    ["process"; "_parse_evolved_hypothesis"]
  else if String.eqb class "ProximityAgent" then
    ["process"; "filter_relevant_hypotheses"; "_extract_proximity_info"]
  else if String.eqb class "MetaReviewAgent" then
    ["process"; "create_executive_summary"; "_format_hypotheses_for_prompt";
     "_get_format_instructions"; "_extract_title"; "_get_timestamp"]
  else if String.eqb class "SupervisorAgent" then
    ["process"; "update_plan"; "_analyze_research_query"; "_create_research_plan";
     "_extract_query_analysis"; "_extract_section"; "_extract_research_plan";
     "_extract_updated_plan"; "_get_timestamp"]
  else [].

(** Looking up [agent.attribute] on an instance of [class]. *)
Definition getattr (class attribute : string) : outcome unit :=
  if existsb (String.eqb attribute) (own_methods class ++ base_attributes)
  then Done tt
  else Raised (AttributeError class attribute).

(** The research state of [AICoScientist]. *)
Record state : Type := {
  research_goal : option string;
  hypotheses : list hypothesis;
  ranked_hypotheses : list hypothesis;
  final_report : option hypothesis
}.

(** The state [__init__] leaves. *)
Definition init : state :=
  {| research_goal := None; hypotheses := []; ranked_hypotheses := [];
     final_report := None |}.

Definition set_research_goal (s : state) (goal : string) : outcome state :=
  let '(is_valid, issues) := Validators.validate_research_goal goal in
  if negb is_valid
  then Raised (ValidationError ("Invalid research goal: " +:+ join ", " issues))
  else Done {| research_goal := Some goal; hypotheses := hypotheses s;
               ranked_hypotheses := ranked_hypotheses s;
               final_report := final_report s |}.

Section WithServices.
(** The answers of the generation agent and of the ranking agent. *)
Variable generation_llm ranking_llm : nat -> string.
(** What the loop body of [refine_hypotheses] does once
    [reflection_agent.review_hypothesis] has been looked up, in
    iteration [i] for hypothesis [j]; what [generate_research_report]
    does once [meta_review_agent.generate_report] has been looked up;
    and [save_results], which writes a file. *)
Variable refine_body : nat -> nat -> hypothesis -> outcome hypothesis.
Variable report_body : state -> outcome hypothesis.
Variable save_results : state -> string -> outcome string.

Definition generate_hypotheses (s : state) (count : Z) : outcome state :=
  valid_hypotheses <~
    lift (Main.generate_hypotheses generation_llm Validators.validate_hypothesis
            (default EmptyString (research_goal s)) count) ;;
  Done {| research_goal := research_goal s; hypotheses := valid_hypotheses;
          ranked_hypotheses := ranked_hypotheses s;
          final_report := final_report s |}.

Definition rank_hypotheses (s : state) : outcome state :=
  match hypotheses s with
  | [] => Raised (Error ValueError)
  | _ =>
      ranked <~ lift (RankingAgent.process ranking_llm (hypotheses s)) ;;
      Done {| research_goal := research_goal s; hypotheses := hypotheses s;
              ranked_hypotheses := ranked; final_report := final_report s |}
  end.

(** One turn of the inner loop: the callee
    [reflection_agent.review_hypothesis] is evaluated before its
    arguments. *)
Definition refine_one (i j : nat) (h : hypothesis) : outcome hypothesis :=
  _ <~ getattr "ReflectionAgent" "review_hypothesis" ;;
  refine_body i j h.

Fixpoint refine_each (i j : nat) (refined_hypotheses : list hypothesis)
    : outcome (list hypothesis) :=
  match refined_hypotheses with
  | [] => Done []
  | h :: rest =>
      refined <~ refine_one i j h ;;
      others <~ refine_each i (S j) rest ;;
      Done (refined :: others)
  end.

(** [for i in range(iterations)], with [n] iterations left. *)
Fixpoint refine_loop (n i : nat) (refined_hypotheses : list hypothesis)
    : outcome (list hypothesis) :=
  match n with
  | O => Done refined_hypotheses
  | S n' =>
      refined <~ refine_each i 0 refined_hypotheses ;;
      refine_loop n' (S i) refined
  end.

Definition refine_hypotheses (s : state) (iterations : Z) : outcome state :=
  match ranked_hypotheses s with
  | [] => Raised (Error ValueError)
  | _ =>
      let top_hypotheses := take 3 (ranked_hypotheses s) in
      refined <~ refine_loop (Z.to_nat iterations) 0 top_hypotheses ;;
      Done {| research_goal := research_goal s; hypotheses := hypotheses s;
              ranked_hypotheses :=
                refined ++ drop (length refined) (ranked_hypotheses s);
              final_report := final_report s |}
  end.

Definition generate_research_report (s : state) : outcome state :=
  match ranked_hypotheses s with
  | [] => Raised (Error ValueError)
  | _ =>
      _ <~ getattr "MetaReviewAgent" "generate_report" ;;
      report <~ report_body s ;;
      Done {| research_goal := research_goal s; hypotheses := hypotheses s;
              ranked_hypotheses := ranked_hypotheses s;
              final_report := Some report |}
  end.

(** [run_full_workflow]; the [except] clause logs and raises again.  An
    [output_dir] that is [None] or empty saves nothing. *)
Definition run_full_workflow (s : state) (goal : string) (iterations : Z)
    (output_dir : option string) : outcome state :=
  s <~ set_research_goal s goal ;;
  s <~ generate_hypotheses s 7 ;;
  s <~ rank_hypotheses s ;;
  s <~ refine_hypotheses s iterations ;;
  s <~ generate_research_report s ;;
  _ <~ match output_dir with
       | Some dir => if String.eqb dir EmptyString then Done EmptyString
                     else save_results s dir
       | None => Done EmptyString
       end ;;
  Done s.
End WithServices.
End Workflow.

(** ** Supervisor agent ([supervisor_agent.py]) *)

Module SupervisorAgent.
Import PyStr.

(** [s.find(pat)]: the least index of an occurrence; [None] is [-1]. *)
Fixpoint str_find (pat s : string) : option nat :=
  if String.prefix pat s then Some 0%nat
  else match s with
       | EmptyString => None
       | String _ s' => S <$> str_find pat s'
       end.

(** [s.rindex(pat)]: the greatest index of an occurrence; [None] is the
    [ValueError] of a text without one. *)
Fixpoint str_rindex (pat s : string) : option nat :=
  match s with
  | EmptyString => if String.prefix pat s then Some 0%nat else None
  | String _ s' =>
      match str_rindex pat s' with
      | Some i => Some (S i)
      | None => if String.prefix pat s then Some 0%nat else None
      end
  end.

(** [max_chars] is 200 or 300 at the call sites; [start] is
    [max(0, keyword_index - 20)], which truncated subtraction gives.  The
    [rindex] is only evaluated on a section that contains a period. *)
Definition _extract_section (text keyword : string) (max_chars : nat) : string :=
  match str_find (lower keyword) (lower text) with
  | None => EmptyString
  | Some keyword_index =>
      let start := (keyword_index - 20)%nat in
      let end_ := min (String.length text) (keyword_index + max_chars) in
      let section := String.substring start (end_ - start) text in
      if contains "." section
      then match str_rindex "." section with
           | Some last_period =>
               if (String.length section / 2 <? last_period)%nat
               then String.substring 0 (last_period + 1) section
               else section
           | None => section
           end
      else section
  end.

Record analysis : Type := {
  domains : list string;
  research_type : string;
  scope : string;
  key_concepts : list string;
  constraints : list string;
  relevant_background : list string
}.

Definition research_types : list string :=
  ["explanation"; "prediction"; "design"; "discovery"; "exploration"; "validation"].

(** The dictionary [scope_terms], in insertion order. *)
Definition scope_terms : list (string * string) :=
  [("narrow", "narrow"); ("focused", "narrow"); ("specific", "narrow");
   ("broad", "broad"); ("complex", "broad"); ("wide", "broad")].

Definition non_empty (s : string) : bool := negb (String.eqb s EmptyString).

Definition _extract_query_analysis (analysis_text : string) : analysis :=
  let lower_text := lower analysis_text in
  let domains :=
    if contains "domain" lower_text
    then let domain_section := _extract_section analysis_text "domain" 200 in
         List.filter non_empty (map strip (split domain_section ","))
    else [] in
  let research_type :=
    match List.find (fun r_type => contains r_type lower_text) research_types with
    | Some r_type => r_type
    | None => EmptyString
    end in
  let scope :=
    match List.find (fun item => contains (fst item) lower_text) scope_terms with
    | Some item => snd item
    | None => EmptyString
    end in
  let key_concepts :=
    if contains "concept" lower_text || contains "key" lower_text
    then let concept_section := _extract_section analysis_text "concept" 300 in
         List.filter (fun c => non_empty c && (2 <? String.length c)%nat)
                     (map strip (split concept_section ","))
    else [] in
  {| domains := domains; research_type := research_type; scope := scope;
     key_concepts := key_concepts; constraints := []; relevant_background := [] |}.

(** A step of a plan: [{"agent": ..., "task": ..., "params": {...}}]. *)
Record step : Type := {
  agent : string;
  task : string;
  params : gmap string value
}.

Definition default_sequence (hypothesis_count iteration_limit output_format : value)
    : list step :=
  [ {| agent := "Generation"; task := "generate_initial_hypotheses";
       params := <["count" := hypothesis_count]> ∅ |};
    {| agent := "Reflection"; task := "review_hypotheses"; params := ∅ |};
    {| agent := "Proximity"; task := "evaluate_relevance";
       params := <["threshold" := VNum 6]> ∅ |};
    {| agent := "Ranking"; task := "rank_hypotheses"; params := ∅ |};
    {| agent := "Evolution"; task := "improve_hypotheses";
       params := <["iterations" := iteration_limit]> ∅ |};
    {| agent := "Ranking"; task := "rank_final_hypotheses"; params := ∅ |};
    {| agent := "MetaReview"; task := "create_research_report";
       params := <["format" := output_format]> ∅ |} ].

(** [v + 1]; on a float the sum is the rational one (CPython rounds it). *)
Definition plus_one (v : value) : result value :=
  match v with
  | VBool b => Ok (VInt (if b then 2 else 1))
  | VInt z => Ok (VInt (z + 1))
  | VNum q => Ok (VNum (q + 1))
  | _ => Raise TypeError
  end.

(** [max(1, v - 1)]: [max] returns its first argument unless the second is
    greater. *)
Definition one_less_at_least_one (v : value) : result value :=
  match v with
  | VBool _ => Ok (VInt 1)
  | VInt z => Ok (VInt (Z.max 1 (z - 1)))
  | VNum q => Ok (if Qltb 1 (q - 1) then VNum (q - 1) else VInt 1)
  | _ => Raise TypeError
  end.

Definition set_iterations (s : step) (v : value) : step :=
  {| agent := agent s; task := task s; params := <["iterations" := v]> (params s) |}.

(** One turn of the loop [for step in sequence]. *)
Definition adjust_step (lower_text : string) (s : step) : result step :=
  if String.eqb (agent s) "Evolution"
  then if contains "additional iterations" lower_text
          || contains "more iterations" lower_text
       then v <-- getitem (params s) "iterations" ;;
            v' <-- plus_one v ;;
            Ok (set_iterations s v')
       else if contains "fewer iterations" lower_text
               || contains "reduce iterations" lower_text
       then v <-- getitem (params s) "iterations" ;;
            v' <-- one_less_at_least_one v ;;
            Ok (set_iterations s v')
       else Ok s
  else Ok s.

Fixpoint adjust_steps (lower_text : string) (sequence : list step) : result (list step) :=
  match sequence with
  | [] => Ok []
  | s :: rest =>
      s' <-- adjust_step lower_text s ;;
      rest' <-- adjust_steps lower_text rest ;;
      Ok (s' :: rest')
  end.

Record research_plan : Type := {
  steps : list step;
  reasoning : string;
  status : string
}.

Definition _extract_research_plan (plan_text : string) (default_sequence : list step)
    : result research_plan :=
  let lower_text := lower plan_text in
  let sequence :=
    if contains "skip proximity evaluation" lower_text
       || contains "omit proximity" lower_text
    then List.filter (fun s => negb (String.eqb (agent s) "Proximity")) default_sequence
    else default_sequence in
  steps <-- adjust_steps lower_text sequence ;;
  Ok {| steps := steps; reasoning := String.substring 0 500 plan_text;
        status := "planned" |}.

(** The plan [_create_research_plan] returns, with the three keys it adds. *)
Record created_plan : Type := {
  plan : research_plan;
  research_query : string;
  created_at : string;
  configuration : gmap string value
}.

(** [plan_response] is the answer to the planning prompt, [timestamp] the
    wall clock.  [session_config or {}]: [None] and the empty dictionary
    give the empty configuration. *)
Definition _create_research_plan (plan_response timestamp research_query : string)
    (session_config : option (gmap string value)) : result created_plan :=
  let config := default ∅ session_config in
  let hypothesis_count := get config "hypothesis_count" (VInt 3) in
  let iteration_limit := get config "iteration_limit" (VInt 2) in
  let output_format := get config "output_format" (VStr "scientific_report") in
  research_plan <-- _extract_research_plan plan_response
                      (default_sequence hypothesis_count iteration_limit output_format) ;;
  Ok {| plan := research_plan; research_query := research_query;
        created_at := timestamp; configuration := config |}.

(** *** Updating a plan

    [current_plan.copy()] is a shallow copy: the copy has its own keys but
    shares the list under ['steps'] with the original.  A plan dictionary
    is therefore a reference to a list of steps in a store, together with
    its other keys. *)
Record plan_dict : Type := {
  steps_at : option nat;
  fields : gmap string value
}.

Definition store : Type := gmap nat (list step).

(** [plan['steps']] *)
Definition steps_of (heap : store) (p : plan_dict) : result (list step) :=
  match steps_at p ≫= (heap !!.) with
  | Some l => Ok l
  | None => Raise (KeyError "steps")
  end.

Definition summary_step : step :=
  {| agent := "MetaReview"; task := "create_executive_summary"; params := ∅ |}.

(** [plan['steps'].append(step)] and [plan['steps'].pop(-1)] on the
    store; the list is there when these are reached. *)
Definition append_step (heap : store) (p : plan_dict) (s : step) : store :=
  match steps_at p with
  | Some l => alter (fun steps => steps ++ [s]) l heap
  | None => heap
  end.

Definition pop_step (heap : store) (p : plan_dict) : store :=
  match steps_at p with
  | Some l => alter (fun steps => removelast steps) l heap
  | None => heap
  end.

(** The function returns the store it leaves and either the updated plan
    or the exception raised: what was appended before an exception stays
    appended. *)
Definition _extract_updated_plan (update_text : string) (current_plan : plan_dict)
    (heap : store) : store * result plan_dict :=
  let lower_text := lower update_text in
  let updated_plan :=
    {| steps_at := steps_at current_plan;
       fields := <["update_notes" := VStr (String.substring 0 500 update_text)]>
                   (fields current_plan) |} in
  let added :=
    if contains "add step" lower_text || contains "additional step" lower_text
    then match steps_of heap updated_plan with
         | Ok _ => (append_step heap updated_plan summary_step, Ok tt)
         | Raise e => (heap, Raise e)
         end
    else (heap, Ok tt) in
  match added with
  | (heap1, Raise e) => (heap1, Raise e)
  | (heap1, Ok _) =>
      if contains "remove step" lower_text || contains "skip step" lower_text
      then match py_len (get (fields current_plan) "executed_steps" (VList [])) with
           | Raise e => (heap1, Raise e)
           | Ok executed_count =>
               match steps_of heap1 updated_plan with
               | Raise e => (heap1, Raise e)
               | Ok steps =>
                   if (executed_count <? length steps)%nat
                   then (pop_step heap1 updated_plan, Ok updated_plan)
                   else (heap1, Ok updated_plan)
               end
           end
      else (heap1, Ok updated_plan)
  end.
End SupervisorAgent.

(** ** Further reference definitions *)

Module Reference2.
Import PyStr.

(** [s.isascii()]: every character of the text is below 128. *)
Fixpoint is_ascii (s : string) : bool :=
  match s with
  | EmptyString => true
  | String c s' => (nat_of_ascii c <? 128)%nat && is_ascii s'
  end.

(** A record the report can summarise: it has a statement, and its
    rationale is a text or a list, or is missing. *)
Definition reportable (h : hypothesis) : bool :=
  Reference.has_statement h
  && match h !! "rationale" with
     | None | Some (VStr _) | Some (VList _) => true
     | Some _ => false
     end.

(** The keys a record of the generation parser can have. *)
Definition generation_keys : list string :=
  ["hypothesis"; "rationale"; "evidence"; "assumptions"; "validation"].

(** Every key of [h] is one of [keys], and every value is text. *)
Definition text_record (keys : list string) (h : hypothesis) : Prop :=
  forall k v, h !! k = Some v -> k ∈ keys /\ exists s, v = VStr s.

(** The template that decides the proximity score: the last of the list
    that occurs. *)
Definition deciding_score (evaluation : string) : Q :=
  match ProximityAgent.first_match evaluation
          (fun i => "overall score: " +:+ pretty i) with
  | Some i => inject_Z (Z.of_nat i)
  | None =>
    match ProximityAgent.first_match evaluation
            (fun i => "proximity score: " +:+ pretty i) with
    | Some i => inject_Z (Z.of_nat i)
    | None =>
      match ProximityAgent.first_match evaluation
              (fun i => "overall proximity score of " +:+ pretty i) with
      | Some i => inject_Z (Z.of_nat i)
      | None =>
        match ProximityAgent.first_match evaluation
                (fun i => "overall proximity score: " +:+ pretty i) with
        | Some i => inject_Z (Z.of_nat i)
        | None => 5
        end
      end
    end
  end.

(** The fields the evolution parser fills. *)
Definition evolved_fields : list string :=
  ["statement"; "rationale"; "evidence"; "assumptions"; "validation"].

(** A section the evolution parser reads a field from. *)
Definition names_field (field section : string) : bool :=
  contains field (lower section) && contains ":" section.

(** The record the scoring loop builds from [h] when the service answers
    [evaluation]. *)
Definition scored_record (evaluation : string) (h : hypothesis) : hypothesis :=
  <["overall_score" :=
      RankingAgent.overall_score (Reference.scores_of evaluation ∅ RankingAgent.criteria)]>
  (<["scores" := VDict (VInt <$> Reference.scores_of evaluation ∅ RankingAgent.criteria)]>
  (<["evaluation" := VStr evaluation]> h)).

(** The order the scoring strategy sorts by: higher overall score first. *)
Definition by_score (a b : hypothesis) : bool :=
  Qltb (RankingAgent.score_key b) (RankingAgent.score_key a).

(** A section the generation parser reacts to. *)
Definition mentions_keyword (section : string) : bool :=
  contains "Hypothesis" section || contains "Rationale" section
  || contains "Evidence" section || contains "Assumptions" section
  || contains "Validation" section || contains "Testing" section.

(** The record the review loop builds from [h] when the service answers
    [review]. *)
Definition reviewed_record (review : string) (h : hypothesis) : hypothesis :=
  <["assessment_summary" := VDict (ReflectionReview._extract_assessment_summary review)]>
  (<["review" := VStr review]> h).

(** The five subscripts of the review prompt, in the order they are
    evaluated. *)
Definition first_missing (h : hypothesis) : option string :=
  find (fun k => negb (Reference.has h k)) evolved_fields.

(** What the supervisor reads from a planning answer. *)
Definition skips_proximity (plan_text : string) : bool :=
  contains "skip proximity evaluation" (lower plan_text)
  || contains "omit proximity" (lower plan_text).

Definition asks_more (plan_text : string) : bool :=
  contains "additional iterations" (lower plan_text)
  || contains "more iterations" (lower plan_text).

Definition asks_fewer (plan_text : string) : bool :=
  contains "fewer iterations" (lower plan_text)
  || contains "reduce iterations" (lower plan_text).

(** The iterations of the evolution step planned from a limit. *)
Definition planned_iterations (plan_text : string) (limit : Z) : Z :=
  if asks_more plan_text then limit + 1
  else if asks_fewer plan_text then Z.max 1 (limit - 1)
  else limit.

(** The agents of the planned steps, in order. *)
Definition planned_agents (plan_text : string) : list string :=
  if skips_proximity plan_text
  then ["Generation"; "Reflection"; "Ranking"; "Evolution"; "Ranking"; "MetaReview"]
  else ["Generation"; "Reflection"; "Proximity"; "Ranking"; "Evolution"; "Ranking";
        "MetaReview"].

(** What the supervisor reads from an update answer. *)
Definition adds_step (update_text : string) : bool :=
  contains "add step" (lower update_text) || contains "additional step" (lower update_text).

Definition removes_step (update_text : string) : bool :=
  contains "remove step" (lower update_text) || contains "skip step" (lower update_text).

(** The first record of a list has no ['statement'] key. *)
Definition first_lacks_statement (l : list hypothesis) : Prop :=
  exists h rest, l = h :: rest /\ h !! "statement" = None.
End Reference2.
(** * Properties *)

(** ** Strings *)

Section StringFacts.
Import PyStr.

Lemma prefix_app_l (p q s : string) :
  String.prefix (p +:+ q) s = true -> String.prefix p s = true.
Proof.
  revert s. induction p as [|c p IH]; intros s H.
  - by destruct s.
  - destruct s as [|d s]; simpl in *; [done|].
    destruct (Ascii.ascii_dec c d); [auto|done].
Qed.

Lemma contains_app_l (p q s : string) :
  contains (p +:+ q) s = true -> contains p s = true.
Proof.
  induction s as [|d s IH]; cbn [contains]; intros H.
  - apply orb_true_iff in H as [H|H]; [|done].
    apply prefix_app_l in H. by rewrite H.
  - apply orb_true_iff in H as [H|H].
    + apply prefix_app_l in H. by rewrite H.
    + rewrite (IH H). apply orb_true_r.
Qed.

Lemma lower_app (p q : string) : lower (p +:+ q) = lower p +:+ lower q.
Proof. induction p as [|c p IH]; simpl; [done|by rewrite IH]. Qed.

Lemma sum_bools_filter (P : string -> bool) (l : list string) :
  sum_bools (map P l) = length (filter (fun t => P t = true) l).
Proof.
  unfold sum_bools.
  assert (G : forall acc, foldl (fun a (b : bool) => a + (if b then 1 else 0)) acc (map P l)
               = acc + length (filter (fun t => P t = true) l)).
  { induction l as [|t l IH]; intros acc; simpl; [lia|].
    rewrite IH, filter_cons. destruct (decide (P t = true)) as [E|E].
    - rewrite E. simpl. lia.
    - destruct (P t); [done|]. simpl. lia. }
  apply G.
Qed.
End StringFacts.

(** ** Reflection: the quality estimate *)

Section EstimateScore.
Import PyStr ReflectionAgent Reference.

Lemma estimate_score_unfold (review : string) :
  _estimate_score review =
    let p := term_count positive_terms review in
    let n := term_count negative_terms review in
    if (p + n =? 0)%nat then 1 # 2 else truediv (Z.of_nat p) (p + n).
Proof.
  unfold _estimate_score, term_count.
  by rewrite !sum_bools_filter.
Qed.

Lemma truediv_Qeq (a : Z) (b : nat) :
  b <> 0%nat -> (truediv a b == inject_Z a / inject_Z (Z.of_nat b))%Q.
Proof.
  intros Hb. unfold truediv. rewrite Qred_correct.
  replace (Z.of_nat b) with (Z.pos (Pos.of_nat b)) by lia.
  apply Qmake_Qdiv.
Qed.

Lemma truediv_bounds (a b : nat) :
  (a <= b)%nat -> b <> 0%nat ->
  (0 <= truediv (Z.of_nat a) b)%Q /\ (truediv (Z.of_nat a) b <= 1)%Q.
Proof.
  intros Hab Hb. unfold truediv. rewrite Qred_correct.
  unfold Qle. simpl. lia.
Qed.
End EstimateScore.

(** C8. The quality estimate of a review is the number of positive lexicon
    terms it contains divided by the number of positive and negative
    lexicon terms it contains, and it is exactly 1/2 when the review contains
    no lexicon term; it always lies between 0 and 1. *)
Theorem estimate_score_ratio (review : string) :
  let p := Reference.term_count ReflectionAgent.positive_terms review in
  let n := Reference.term_count ReflectionAgent.negative_terms review in
  ((p + n)%nat <> 0%nat ->
     (ReflectionAgent._estimate_score review
       == inject_Z (Z.of_nat p) / inject_Z (Z.of_nat (p + n)))%Q)
  /\ ((p + n)%nat = 0%nat -> ReflectionAgent._estimate_score review = 1 # 2)
  /\ (0 <= ReflectionAgent._estimate_score review)%Q
  /\ (ReflectionAgent._estimate_score review <= 1)%Q.
Proof.
  intros p n. rewrite estimate_score_unfold. fold p n. cbv zeta.
  destruct (Nat.eqb_spec (p + n) 0) as [E|E].
  - repeat split; try done.
  - split; [intros _; by apply truediv_Qeq|].
    split; [done|]. apply truediv_bounds; [lia|done].
Qed.

Lemma estimate_score_ratio_witness :
  (ReflectionAgent._estimate_score "A strong and novel idea, but the design is flawed."
    == inject_Z 2 / inject_Z 3)%Q
  /\ ReflectionAgent._estimate_score "The proposal is fine." = 1 # 2.
Proof.
  split.
  - apply (estimate_score_ratio "A strong and novel idea, but the design is flawed.").
    vm_compute. discriminate.
  - apply (estimate_score_ratio "The proposal is fine."). vm_compute. reflexivity.
Defined.

(** ** Meta-review: the title of a report *)

Section ExtractTitle.
Import PyStr MetaReviewAgent Reference.

Lemma first_title_cons (line : string) (rest : list string) :
  first_title (line :: rest) =
    if qualifies line then Some (strip line) else first_title rest.
Proof. reflexivity. Qed.

Lemma first_title_first (lines : list string) (i : nat) (line : string) :
  lines !! i = Some line ->
  qualifies line = true ->
  (forall j l', (j < i)%nat -> lines !! j = Some l' -> qualifies l' = false) ->
  first_title lines = Some (strip line).
Proof.
  revert i. induction lines as [|l0 lines IH]; intros i Hi Hq Hbefore; [done|].
  rewrite first_title_cons. destruct i as [|i].
  - injection Hi as ->. by rewrite Hq.
  - rewrite (Hbefore 0%nat l0) by (done || lia).
    apply (IH i); [done|done|].
    intros j l' Hj Hl'. apply (Hbefore (S j)); [lia|done].
Qed.

Lemma first_title_none (lines : list string) :
  (forall line, line ∈ lines -> qualifies line = false) ->
  first_title lines = None.
Proof.
  induction lines as [|l0 lines IH]; intros Hall; [done|].
  rewrite first_title_cons, (Hall l0) by left.
  apply IH. intros line Hin. apply Hall. by right.
Qed.
End ExtractTitle.

(** C9, as the code has it.  The title of a report is the stripped text of
    the first line, among the first 10, that is not blank, does not start
    with [#] and has fewer than 100 characters; when no line qualifies the
    title is "Research Report". *)
Theorem extract_title_first_qualifying (report : string) :
  (forall i line,
      Reference.first_lines report !! i = Some line ->
      Reference.qualifies line = true ->
      (forall j l', (j < i)%nat -> Reference.first_lines report !! j = Some l' ->
                    Reference.qualifies l' = false) ->
      MetaReviewAgent._extract_title report = PyStr.strip line)
  /\ ((forall line, line ∈ Reference.first_lines report -> Reference.qualifies line = false) ->
      MetaReviewAgent._extract_title report = "Research Report").
Proof.
  unfold MetaReviewAgent._extract_title, Reference.first_lines. split.
  - intros i line Hi Hq Hb.
    by rewrite (first_title_first (take 10 (PyStr.split report nl)) i line).
  - intros Hall. by rewrite first_title_none.
Qed.

Lemma extract_title_first_qualifying_witness :
  MetaReviewAgent._extract_title
    ("# Report" +:+ nl +:+ nl +:+ "  Caffeine and reaction time  " +:+ nl +:+ "Body")
  = "Caffeine and reaction time"
  /\ MetaReviewAgent._extract_title ("# Report" +:+ nl +:+ "## Section") = "Research Report".
Proof.
  split.
  - apply (proj1 (extract_title_first_qualifying
             ("# Report" +:+ nl +:+ nl +:+ "  Caffeine and reaction time  " +:+ nl +:+ "Body"))
             2%nat "  Caffeine and reaction time  ").
    + reflexivity.
    + reflexivity.
    + intros j l' Hj Hl'.
      destruct j as [|[|j]]; [| |lia]; vm_compute in Hl'; injection Hl' as <-; reflexivity.
  - apply (proj2 (extract_title_first_qualifying ("# Report" +:+ nl +:+ "## Section"))).
    intros line Hin. vm_compute in Hin.
    apply elem_of_cons in Hin as [->|Hin]; [reflexivity|].
    apply elem_of_cons in Hin as [->|Hin]; [reflexivity|].
    by apply elem_of_nil in Hin.
Defined.

(** C9 as worded fails: a heading line that starts with [#] is non-empty and
    short, yet the code skips it and takes the next line. *)
Lemma extract_title_skips_heading :
  MetaReviewAgent._extract_title ("# Findings" +:+ nl +:+ "Introduction") = "Introduction"
  /\ Reference.documented_title ("# Findings" +:+ nl +:+ "Introduction") = "# Findings"
  /\ MetaReviewAgent._extract_title ("# Findings" +:+ nl +:+ "Introduction")
     <> Reference.documented_title ("# Findings" +:+ nl +:+ "Introduction").
Proof. vm_compute. repeat split; discriminate. Qed.

(** ** Proximity: relevance *)

(** C4, as the code has it.  The relevance flag is true when the text
    contains "highly relevant" or "very relevant"; otherwise false when it
    contains "not relevant" or "irrelevant"; otherwise it is the threshold
    test [score >= 6].  So a text scored 8 with a negative phrase and no
    positive phrase is not relevant, and a text scored 3 with a positive
    phrase is relevant. *)
Theorem proximity_override_precedence (evaluation : string) :
  let score := fst (ProximityAgent._extract_proximity_info evaluation) in
  let is_relevant := snd (ProximityAgent._extract_proximity_info evaluation) in
  is_relevant =
    (if Reference.says_relevant evaluation then true
     else if Reference.says_irrelevant evaluation then false
     else Qle_bool 6 score)
  /\ (score = 8%Q -> Reference.says_irrelevant evaluation = true ->
      Reference.says_relevant evaluation = false -> is_relevant = false)
  /\ (score = 3%Q -> Reference.says_relevant evaluation = true -> is_relevant = true).
Proof.
  intros score is_relevant.
  assert (E : is_relevant =
    (if Reference.says_relevant evaluation then true
     else if Reference.says_irrelevant evaluation then false
     else Qle_bool 6 score)).
  { unfold is_relevant, score, ProximityAgent._extract_proximity_info,
      Reference.says_relevant, Reference.says_irrelevant. cbn [fst snd].
    destruct (_ || _); [done|]. by destruct (_ || _). }
  split; [exact E|]. split.
  - intros _ Hneg Hpos. by rewrite E, Hpos, Hneg.
  - intros _ Hpos. by rewrite E, Hpos.
Qed.

Lemma proximity_override_precedence_witness :
  snd (ProximityAgent._extract_proximity_info
         "Overall proximity score: 8. Still, the hypothesis is not relevant to the goal.")
  = false
  /\ snd (ProximityAgent._extract_proximity_info
            "Overall score: 3, although the topic is highly relevant.")
     = true.
Proof.
  split.
  - apply (proximity_override_precedence
             "Overall proximity score: 8. Still, the hypothesis is not relevant to the goal.");
      reflexivity.
  - apply (proximity_override_precedence
             "Overall score: 3, although the topic is highly relevant."); reflexivity.
Defined.

(** C4 as worded fails: the positive override is applied last, so a text
    scored 8 that contains "not relevant" is still relevant when it also
    contains "very relevant". *)
Lemma proximity_negative_phrase_overridden :
  let evaluation := "Overall score: 8. Not relevant to sleep, but very relevant to caffeine." in
  fst (ProximityAgent._extract_proximity_info evaluation) = 8%Q
  /\ PyStr.contains "not relevant" (PyStr.lower evaluation) = true
  /\ snd (ProximityAgent._extract_proximity_info evaluation) = true.
Proof. vm_compute. repeat split. Qed.

(** ** Ranking: criterion scores *)

Section ExtractScores.
Import PyStr RankingAgent Reference.

Lemma find_app_first {A} (P : A -> bool) (l1 l2 : list A) :
  find P (l1 ++ l2) = match find P l1 with Some x => Some x | None => find P l2 end.
Proof. induction l1 as [|x l1 IH]; simpl; [done|]. by destruct (P x). Qed.

Lemma find_map_comp {A B} (P : B -> bool) (f : A -> B) (l : list A) :
  find P (map f l) = f <$> find (fun x => P (f x)) l.
Proof. induction l as [|x l IH]; simpl; [done|]. by destruct (P (f x)). Qed.

Lemma find_seq_Some (P : nat -> bool) (a len n : nat) :
  find P (seq a len) = Some n <->
  (a <= n < a + len)%nat /\ P n = true /\ (forall m, (a <= m < n)%nat -> P m = false).
Proof.
  revert a. induction len as [|len IH]; intros a; simpl.
  - split; [done|]. intros [? _]. lia.
  - destruct (P a) eqn:Pa.
    + split.
      * intros [= <-]. split; [lia|]. split; [done|]. intros m ?. lia.
      * intros (Hr & Hn & Hb). f_equal.
        destruct (decide (a = n)) as [|Hne]; [done|].
        rewrite (Hb a) in Pa by lia. done.
    + rewrite IH. split.
      * intros (Hr & Hn & Hb). split; [lia|]. split; [done|].
        intros m Hm. destruct (decide (m = a)) as [->|]; [done|]. apply Hb. lia.
      * intros (Hr & Hn & Hb).
        assert (a <> n) by (intros ->; congruence).
        split; [lia|]. split; [done|]. intros m Hm. apply Hb. lia.
Qed.

Lemma find_seq_None (P : nat -> bool) (a len : nat) :
  find P (seq a len) = None <-> (forall m, (a <= m < a + len)%nat -> P m = false).
Proof.
  revert a. induction len as [|len IH]; intros a; simpl.
  - split; [intros _ m ?; lia|done].
  - destruct (P a) eqn:Pa.
    + split; [done|]. intros H. rewrite (H a) in Pa by lia. done.
    + rewrite IH. split.
      * intros H m Hm. destruct (decide (m = a)) as [->|]; [done|]. apply H. lia.
      * intros H m Hm. apply H. lia.
Qed.

Lemma least_Some (P : nat -> bool) (n : nat) :
  least P = Some n <->
  (1 <= n <= 10)%nat /\ P n = true /\ (forall m, (1 <= m < n)%nat -> P m = false).
Proof.
  unfold least. rewrite find_seq_Some.
  split; intros (? & ? & ?); (split; [lia|done]).
Qed.

Lemma least_None (P : nat -> bool) :
  least P = None <-> (forall m, (1 <= m <= 10)%nat -> P m = false).
Proof.
  unfold least. rewrite find_seq_None.
  split; intros H m Hm; apply H; lia.
Qed.

Lemma append_assoc (a b c : string) : (a +:+ b) +:+ c = a +:+ (b +:+ c).
Proof.
  induction a as [|x a IH]; [done|].
  change (String x ((a +:+ b) +:+ c) = String x (a +:+ (b +:+ c))).
  by rewrite IH.
Qed.

(** A text that contains ["c: n/10"] contains ["c: n"]. *)
Lemma out_of_ten_matches_colon (evaluation criterion : string) (i : nat) :
  matches evaluation (out_of_ten_pattern criterion i) = true ->
  matches evaluation (colon_pattern criterion i) = true.
Proof.
  unfold matches, out_of_ten_pattern, colon_pattern.
  replace (criterion +:+ ": " +:+ pretty i +:+ "/10")
    with ((criterion +:+ ": " +:+ pretty i) +:+ "/10")
    by (by rewrite !append_assoc).
  rewrite (lower_app (criterion +:+ ": " +:+ pretty i) "/10"). apply contains_app_l.
Qed.

(** Every pattern of the five criteria decodes to the number it was built
    from: a finite table. *)
Lemma patterns_decode :
  forallb (fun c =>
    forallb (fun i => decodes (colon_pattern c i) i
                      && decodes (dash_pattern c i) i
                      && decodes (out_of_ten_pattern c i) i) (seq 1 10)) criteria = true.
Proof. vm_compute. reflexivity. Qed.

Lemma decodes_Ok (pattern : string) (i : nat) :
  decodes pattern i = true -> score_of_pattern pattern = Ok (Z.of_nat i).
Proof.
  unfold decodes. destruct (score_of_pattern pattern) as [score|]; [|done].
  intros H. apply Z.eqb_eq in H. by subst.
Qed.

Lemma pattern_scores (criterion : string) (i : nat) :
  criterion ∈ criteria -> (1 <= i <= 10)%nat ->
  score_of_pattern (colon_pattern criterion i) = Ok (Z.of_nat i)
  /\ score_of_pattern (dash_pattern criterion i) = Ok (Z.of_nat i).
Proof.
  intros Hc Hi.
  pose proof patterns_decode as T.
  rewrite forallb_forall in T.
  specialize (T criterion (proj1 (list_elem_of_In _ _) Hc)).
  rewrite forallb_forall in T.
  assert (Hin : List.In i (seq 1 10)) by (apply in_seq; lia).
  specialize (T i Hin).
  apply andb_true_iff in T as [T _]. apply andb_true_iff in T as [T1 T2].
  split; by apply decodes_Ok.
Qed.

(** The first pattern of the list that occurs is a colon pattern when one
    occurs, a dash pattern otherwise; the out-of-ten family never
    decides. *)
Lemma extract_criterion_first_score (evaluation criterion : string) :
  criterion ∈ criteria ->
  extract_criterion evaluation criterion
  = Ok (Z.of_nat <$> first_score evaluation criterion).
Proof.
  intros Hc. unfold extract_criterion, patterns, first_score, colon_occurs, dash_occurs.
  rewrite find_app_first, find_map_comp, find_app_first, !find_map_comp.
  fold (colon_occurs evaluation criterion) (dash_occurs evaluation criterion).
  fold (least (colon_occurs evaluation criterion)).
  fold (least (dash_occurs evaluation criterion)).
  fold (least (fun i => matches evaluation (out_of_ten_pattern criterion i))).
  destruct (least (colon_occurs evaluation criterion)) as [n|] eqn:E1.
  - apply least_Some in E1 as (Hn & _ & _). cbn.
    by rewrite (proj1 (pattern_scores criterion n Hc Hn)).
  - destruct (least (dash_occurs evaluation criterion)) as [n|] eqn:E2.
    + apply least_Some in E2 as (Hn & _ & _). cbn.
      by rewrite (proj2 (pattern_scores criterion n Hc Hn)).
    + destruct (least (fun i => matches evaluation (out_of_ten_pattern criterion i)))
        as [n|] eqn:E3; [|done].
      apply least_Some in E3 as (Hn & Hm & _).
      apply out_of_ten_matches_colon in Hm.
      rewrite least_None in E1. specialize (E1 n Hn).
      unfold colon_occurs in E1. congruence.
Qed.

Lemma extract_scores_fold (evaluation : string) (ks : list string) (scores : gmap string Z) :
  (forall c, c ∈ ks -> c ∈ criteria) ->
  foldl (fun acc criterion =>
           scores <-- acc ;;
           found <-- extract_criterion evaluation criterion ;;
           Ok (match found with
               | Some score => <[criterion := score]> scores
               | None => scores
               end))
        (Ok scores) ks
  = Ok (scores_of evaluation scores ks).
Proof.
  revert scores. induction ks as [|c ks IH]; intros scores Hks; [done|].
  simpl. rewrite extract_criterion_first_score by (apply Hks; left).
  simpl. destruct (first_score evaluation c) as [n|]; simpl;
    apply IH; intros c' Hc'; apply Hks; by right.
Qed.

Lemma extract_scores_total (evaluation : string) :
  _extract_scores evaluation = Ok (scores_of evaluation ∅ criteria).
Proof. unfold _extract_scores. by apply extract_scores_fold. Qed.

Lemma scores_of_lookup (evaluation : string) (ks : list string) (scores : gmap string Z)
    (c : string) :
  NoDup ks ->
  scores_of evaluation scores ks !! c
  = if decide (c ∈ ks) then
      match first_score evaluation c with
      | Some n => Some (Z.of_nat n)
      | None => scores !! c
      end
    else scores !! c.
Proof.
  revert scores. induction ks as [|k ks IH]; intros scores Hnd.
  - destruct (decide (c ∈ [])) as [H%elem_of_nil|]; done.
  - apply NoDup_cons in Hnd as [Hk Hnd].
    change (scores_of evaluation scores (k :: ks))
      with (scores_of evaluation
              (match first_score evaluation k with
               | Some n => <[k := Z.of_nat n]> scores
               | None => scores
               end) ks).
    rewrite IH by done.
    destruct (decide (c = k)) as [->|Hne].
    + rewrite (decide_False (P := k ∈ ks)) by done.
      rewrite (decide_True (P := k ∈ k :: ks)) by left.
      destruct (first_score evaluation k); [by rewrite lookup_insert_eq|done].
    + destruct (decide (c ∈ ks)) as [Hin|Hnin].
      * rewrite (decide_True (P := c ∈ k :: ks)) by (by right).
        destruct (first_score evaluation c); [done|].
        destruct (first_score evaluation k); [by rewrite lookup_insert_ne|done].
      * rewrite (decide_False (P := c ∈ k :: ks)).
        2:{ intros [?|?]%elem_of_cons; done. }
        destruct (first_score evaluation k); [by rewrite lookup_insert_ne|done].
Qed.

Lemma criteria_NoDup : NoDup criteria.
Proof. apply (bool_decide_unpack (NoDup criteria)). vm_compute. exact I. Qed.

Lemma scores_lookup (evaluation criterion : string) :
  criterion ∈ criteria ->
  scores_of evaluation ∅ criteria !! criterion
  = Z.of_nat <$> first_score evaluation criterion.
Proof.
  intros Hc. rewrite scores_of_lookup by apply criteria_NoDup.
  rewrite decide_True by done. by destruct (first_score _ _).
Qed.
End ExtractScores.

(** C3, as the code has it.  For each criterion the patterns are tried in
    list order, ["c: 1" .. "c: 10"] first, then ["c - 1" .. "c - 10"], and
    the first that occurs decides: the score is the least [n] whose ["c: n"]
    occurs and, only when no ["c: n"] occurs, the least [n] whose ["c - n"]
    occurs; otherwise the criterion gets no score.  A text that contains
    "novelty: 10" therefore scores novelty 1.  The proximity templates are
    scanned in the same ascending way. *)
Theorem extract_scores_first_match (evaluation criterion : string) :
  criterion ∈ RankingAgent.criteria ->
  (forall n, (1 <= n <= 10)%nat ->
             Reference.colon_occurs evaluation criterion n = true ->
             (forall m, (1 <= m < n)%nat -> Reference.colon_occurs evaluation criterion m = false) ->
             RankingAgent.extract_criterion evaluation criterion = Ok (Some (Z.of_nat n)))
  /\ (forall n, (forall m, (1 <= m <= 10)%nat ->
                           Reference.colon_occurs evaluation criterion m = false) ->
                (1 <= n <= 10)%nat ->
                Reference.dash_occurs evaluation criterion n = true ->
                (forall m, (1 <= m < n)%nat ->
                           Reference.dash_occurs evaluation criterion m = false) ->
                RankingAgent.extract_criterion evaluation criterion = Ok (Some (Z.of_nat n)))
  /\ ((forall m, (1 <= m <= 10)%nat -> Reference.colon_occurs evaluation criterion m = false) ->
      (forall m, (1 <= m <= 10)%nat -> Reference.dash_occurs evaluation criterion m = false) ->
      RankingAgent.extract_criterion evaluation criterion = Ok None)
  /\ (exists scores,
        RankingAgent._extract_scores evaluation = Ok scores
        /\ RankingAgent.extract_criterion evaluation criterion = Ok (scores !! criterion)
        /\ (PyStr.contains "novelty: 10" (PyStr.lower evaluation) = true ->
            scores !! "novelty" = Some 1%Z))
  /\ (forall pattern n,
        ProximityAgent.first_match evaluation pattern = Some n <->
        (1 <= n <= 10)%nat
        /\ PyStr.contains (PyStr.lower (pattern n)) (PyStr.lower evaluation) = true
        /\ (forall m, (1 <= m < n)%nat ->
              PyStr.contains (PyStr.lower (pattern m)) (PyStr.lower evaluation) = false)).
Proof.
  intros Hc.
  pose proof (extract_criterion_first_score evaluation criterion Hc) as E.
  unfold Reference.first_score in E.
  split; [|split; [|split; [|split]]].
  - intros n Hn Hcn Hb.
    assert (L : Reference.least (Reference.colon_occurs evaluation criterion) = Some n)
      by (apply least_Some; done).
    by rewrite E, L.
  - intros n Hnone Hn Hdn Hb.
    assert (L1 : Reference.least (Reference.colon_occurs evaluation criterion) = None)
      by (by apply least_None).
    assert (L2 : Reference.least (Reference.dash_occurs evaluation criterion) = Some n)
      by (apply least_Some; done).
    by rewrite E, L1, L2.
  - intros Hnone1 Hnone2.
    assert (L1 : Reference.least (Reference.colon_occurs evaluation criterion) = None)
      by (by apply least_None).
    assert (L2 : Reference.least (Reference.dash_occurs evaluation criterion) = None)
      by (by apply least_None).
    by rewrite E, L1, L2.
  - exists (Reference.scores_of evaluation ∅ RankingAgent.criteria).
    split; [apply extract_scores_total|]. split.
    + rewrite scores_lookup by done. apply extract_criterion_first_score, Hc.
    + intros H10.
      assert (Hnov : "novelty" ∈ RankingAgent.criteria) by left.
      rewrite scores_lookup by done.
      assert (L : Reference.least (Reference.colon_occurs evaluation "novelty") = Some 1%nat).
      { apply least_Some. split; [lia|]. split; [|intros m ?; lia].
        unfold Reference.colon_occurs, RankingAgent.matches.
        apply (contains_app_l "novelty: 1" "0"). exact H10. }
      unfold Reference.first_score. by rewrite L.
  - intros pattern n. unfold ProximityAgent.first_match.
    apply (least_Some (fun i => PyStr.contains (PyStr.lower (pattern i)) (PyStr.lower evaluation))).
Qed.

Lemma extract_scores_first_match_witness :
  RankingAgent.extract_criterion "Novelty: 10/10 - revolutionary." "novelty" = Ok (Some 1%Z).
Proof.
  apply (proj1 (extract_scores_first_match "Novelty: 10/10 - revolutionary." "novelty"
                  ltac:(left)) 1%nat).
  - lia.
  - reflexivity.
  - intros m Hm. lia.
Defined.

(** C3 as worded fails: the score is not the least [n] one of whose patterns
    occurs.  A dash pattern with a smaller number loses to a colon pattern,
    because all colon patterns come first in the list. *)
Lemma extract_scores_colon_before_dash :
  RankingAgent.extract_criterion
    "Novelty - 3 at first sight; after review, novelty: 5." "novelty" = Ok (Some 5%Z)
  /\ Reference.least_any_variant
       "Novelty - 3 at first sight; after review, novelty: 5." "novelty" = Some 3%nat.
Proof. vm_compute. split; reflexivity. Qed.

(** ** [sorted] *)

Section SortedFacts.
Context {A : Type} (lt : A -> A -> bool).

Lemma insert_sorted_Permutation (x : A) (l : list A) :
  insert_sorted lt x l ≡ₚ x :: l.
Proof.
  induction l as [|y l IH]; simpl; [done|].
  destruct (lt y x); [|done].
  rewrite IH. apply Permutation_swap.
Qed.

Lemma sorted_Permutation (l : list A) : sorted lt l ≡ₚ l.
Proof.
  induction l as [|x l IH]; simpl; [done|].
  by rewrite insert_sorted_Permutation, IH.
Qed.

Lemma sorted_length (l : list A) : length (sorted lt l) = length l.
Proof. by rewrite sorted_Permutation. Qed.

Lemma sorted_elem_of (x : A) (l : list A) : x ∈ sorted lt l <-> x ∈ l.
Proof. by rewrite sorted_Permutation. Qed.
End SortedFacts.

(** ** Ranking: the scoring strategy *)

Section Scoring.
Import PyStr RankingAgent Reference.

Lemma scores_of_cons (evaluation : string) (scores : gmap string Z) (k : string)
    (ks : list string) :
  scores_of evaluation scores (k :: ks)
  = scores_of evaluation
      (match first_score evaluation k with
       | Some n => <[k := Z.of_nat n]> scores
       | None => scores
       end) ks.
Proof. reflexivity. Qed.

Lemma found_scores_cons (evaluation : string) (k : string) (ks : list string) :
  found_scores evaluation (k :: ks)
  = match first_score evaluation k with
    | Some n => Z.of_nat n :: found_scores evaluation ks
    | None => found_scores evaluation ks
    end.
Proof. unfold found_scores. simpl. by destruct (first_score evaluation k). Qed.

Lemma total_insert (scores : gmap string Z) (k : string) (v : Z) :
  scores !! k = None -> total (<[k := v]> scores) = (v + total scores)%Z.
Proof.
  intros Hk. unfold total.
  apply (map_fold_insert_L (fun _ score acc => (score + acc)%Z)); [|done].
  intros. lia.
Qed.

(** Size and sum of the dictionary against the list of scores found. *)
Lemma scores_of_size_total (evaluation : string) (ks : list string)
    (scores : gmap string Z) :
  NoDup ks -> (forall c, c ∈ ks -> scores !! c = None) ->
  size (scores_of evaluation scores ks)
    = (size scores + length (found_scores evaluation ks))%nat
  /\ total (scores_of evaluation scores ks)
    = (total scores + foldr Z.add 0 (found_scores evaluation ks))%Z.
Proof.
  revert scores. induction ks as [|k ks IH]; intros scores Hnd Hfresh.
  - simpl. split; [unfold scores_of; simpl; lia|unfold scores_of; simpl; lia].
  - apply NoDup_cons in Hnd as [Hk Hnd].
    rewrite scores_of_cons, found_scores_cons.
    destruct (first_score evaluation k) as [n|].
    + destruct (IH (<[k := Z.of_nat n]> scores) Hnd) as [Hs Ht].
      { intros c Hc. rewrite lookup_insert_ne by (intros ->; done).
        apply Hfresh. by right. }
      rewrite Hs, Ht.
      rewrite map_size_insert_None by (apply Hfresh; left).
      rewrite total_insert by (apply Hfresh; left).
      simpl. split; lia.
    + apply IH; [done|]. intros c Hc. apply Hfresh. by right.
Qed.

Lemma overall_score_mean (evaluation : string) :
  overall_score (scores_of evaluation ∅ criteria)
  = match found_scores evaluation criteria with
    | [] => VInt 0
    | found => VNum (mean found)
    end.
Proof.
  destruct (scores_of_size_total evaluation criteria ∅ criteria_NoDup) as [Hs Ht].
  { intros c _. apply lookup_empty. }
  unfold overall_score. fold (total (scores_of evaluation ∅ criteria)).
  rewrite Hs, Ht. unfold total at 1. rewrite map_fold_empty, map_size_empty.
  destruct (found_scores evaluation criteria) as [|z found]; [done|].
  simpl. unfold mean. simpl. done.
Qed.

Section WithService.
Variable llm : nat -> string.



End WithService.
End Scoring.



(** ** Generation: the response parser *)

Section ParseHypotheses.
Import PyStr GenerationAgent Reference.

Lemma has_key_insert (d : hypothesis) (k k' : string) (v : value) :
  has_key (<[k := v]> d) k' = if decide (k = k') then true else has_key d k'.
Proof.
  unfold has_key. destruct (decide (k = k')) as [->|Hne].
  - by rewrite lookup_insert_eq.
  - by rewrite lookup_insert_ne.
Qed.

Lemma has_key_truthy (d : hypothesis) (k : string) : has_key d k = true -> truthy d = true.
Proof.
  unfold has_key, truthy. destruct (d !! k) as [v|] eqn:E; [|done]. intros _.
  destruct (Nat.eqb_spec (size d) 0) as [Hz|]; [|done].
  apply map_size_empty_iff in Hz. subst d. by rewrite lookup_empty in E.
Qed.

Lemma has_key_new (section : string) : has_key (new_hypothesis section) "hypothesis" = true.
Proof. unfold new_hypothesis. by rewrite has_key_insert. Qed.

(** Once the key is set the guard is closed for good. *)
Lemma parse_section_keyed (p : parser) (section : string) :
  has_key (current_hypothesis p) "hypothesis" = true ->
  hypotheses (parse_section p section) = hypotheses p
  /\ has_key (current_hypothesis (parse_section p section)) "hypothesis" = true.
Proof.
  intros Hk. unfold parse_section. rewrite Hk, andb_false_r.
  repeat match goal with
         | |- context [if ?b then _ else _] => destruct b
         end; simpl; rewrite ?has_key_insert; by repeat case_decide.
Qed.

Lemma parse_section_inv (p : parser) (section : string) :
  parser_inv p -> parser_inv (parse_section p section).
Proof.
  intros (Hall & Hlen & Hnone).
  destruct (has_key (current_hypothesis p) "hypothesis") eqn:Hk.
  - destruct (parse_section_keyed p section Hk) as [E1 E2].
    unfold parser_inv. rewrite E1, E2. by repeat split.
  - specialize (Hnone eq_refl).
    unfold parse_section. rewrite Hk, andb_true_r, Hnone.
    repeat match goal with
           | |- context [if ?b then _ else _] => destruct b
           end; unfold parser_inv; simpl; rewrite ?has_key_insert, ?Hnone;
      repeat split; repeat case_decide; try done; try lia; auto.
    all: try (apply Forall_cons; split; [done|constructor]).
Qed.

Lemma parse_sections_inv (sections : list string) (p : parser) :
  parser_inv p -> parser_inv (foldl parse_section p sections).
Proof.
  revert p. induction sections as [|s sections IH]; intros p Hp; [done|].
  simpl. apply IH. by apply parse_section_inv.
Qed.

Lemma parse_sections_keyed (sections : list string) (p : parser) :
  has_key (current_hypothesis p) "hypothesis" = true ->
  hypotheses (foldl parse_section p sections) = hypotheses p
  /\ has_key (current_hypothesis (foldl parse_section p sections)) "hypothesis" = true.
Proof.
  revert p. induction sections as [|s sections IH]; intros p Hk; [done|].
  simpl. destruct (parse_section_keyed p s Hk) as [E1 E2].
  destruct (IH _ E2) as [E3 E4]. by rewrite E3, E1.
Qed.

Lemma filter_keyed_none (l : list hypothesis) :
  Forall (fun h => has_key h "hypothesis" = false) l ->
  filter (fun h => has_key h "hypothesis" = true) l = [].
Proof.
  induction 1 as [|h l Hh _ IH]; [done|].
  rewrite filter_cons, decide_False by (by rewrite Hh). exact IH.
Qed.

Lemma parse_first_section (first : string) :
  contains "Hypothesis" first = true ->
  parse_section {| hypotheses := []; current_hypothesis := ∅ |} first
  = {| hypotheses := []; current_hypothesis := new_hypothesis first |}.
Proof.
  intros H. unfold parse_section, has_key, truthy. cbn [current_hypothesis hypotheses].
  by rewrite H, lookup_empty, map_size_empty.
Qed.

Lemma initial_parser_inv : parser_inv {| hypotheses := []; current_hypothesis := ∅ |}.
Proof. unfold parser_inv. simpl. split; [constructor|]. split; [lia|done]. Qed.
End ParseHypotheses.

(** C10, as the code has it.  The parser returns at most two records, at
    most one of which has the ['hypothesis'] key: once the record under
    construction has the key, no section starts another record.  When two
    records are returned, the first is the key-less fragment collected from
    sections that came before the first "Hypothesis" section.  A response
    whose first section contains "Hypothesis" yields exactly one record. *)
Theorem parse_hypotheses_at_most_two (response : string) :
  (length (GenerationAgent._parse_hypotheses response) <= 2)%nat
  /\ (length (filter (fun h => GenerationAgent.has_key h "hypothesis" = true)
                     (GenerationAgent._parse_hypotheses response)) <= 1)%nat
  /\ (forall p section,
        GenerationAgent.has_key (GenerationAgent.current_hypothesis p) "hypothesis" = true ->
        GenerationAgent.hypotheses (GenerationAgent.parse_section p section)
          = GenerationAgent.hypotheses p
        /\ GenerationAgent.has_key
             (GenerationAgent.current_hypothesis (GenerationAgent.parse_section p section))
             "hypothesis" = true)
  /\ (forall h1 h2,
        GenerationAgent._parse_hypotheses response = [h1; h2] ->
        GenerationAgent.has_key h1 "hypothesis" = false
        /\ GenerationAgent.has_key h2 "hypothesis" = true)
  /\ (forall first rest,
        PyStr.split response blank_line = first :: rest ->
        PyStr.contains "Hypothesis" first = true ->
        length (GenerationAgent._parse_hypotheses response) = 1%nat).
Proof.
  pose proof (parse_sections_inv (PyStr.split response blank_line) _ initial_parser_inv)
    as (Hall & Hlen & Hnone).
  unfold GenerationAgent._parse_hypotheses.
  set (p := foldl GenerationAgent.parse_section _ _) in *.
  split; [|split; [|split; [|split]]].
  - destruct (GenerationAgent.truthy _); [rewrite length_app; simpl|]; lia.
  - destruct (GenerationAgent.has_key (GenerationAgent.current_hypothesis p) "hypothesis")
      eqn:Hk.
    + rewrite (has_key_truthy _ _ Hk), filter_app, length_app.
      rewrite (filter_keyed_none _ Hall).
      rewrite filter_cons, filter_nil. simpl. case_decide; simpl; lia.
    + rewrite (Hnone eq_refl).
      destruct (GenerationAgent.truthy _); simpl; [|lia].
      rewrite filter_cons, filter_nil. rewrite decide_False by (by rewrite Hk). simpl. lia.
  - intros p0 section. apply parse_section_keyed.
  - intros h1 h2.
    destruct (GenerationAgent.truthy (GenerationAgent.current_hypothesis p)) eqn:Ht.
    + destruct (GenerationAgent.hypotheses p) as [|h [|h' l]] eqn:Eh; simpl in *;
        [done| |intros [=]; lia].
      intros [= -> <-]. apply Forall_cons in Hall as [Hh1 _]. split; [done|].
      destruct (GenerationAgent.has_key (GenerationAgent.current_hypothesis p) "hypothesis");
        [done|]. by specialize (Hnone eq_refl).
    + intros E. rewrite E in Hlen. simpl in Hlen. lia.
  - intros first rest Hsplit Hfirst. subst p. rewrite Hsplit. cbn [foldl].
    rewrite (parse_first_section first Hfirst).
    destruct (parse_sections_keyed rest
                {| GenerationAgent.hypotheses := [];
                   GenerationAgent.current_hypothesis := GenerationAgent.new_hypothesis first |})
      as [E1 E2]; [apply has_key_new|].
    cbn [GenerationAgent.current_hypothesis GenerationAgent.hypotheses] in E1, E2.
    rewrite (has_key_truthy _ _ E2), E1. reflexivity.
Qed.

(** C10 as worded fails: sections that come before the first "Hypothesis"
    section and name a field open a record of their own, so the list can
    hold two records. *)
Lemma parse_hypotheses_leading_fragment :
  length (GenerationAgent._parse_hypotheses
            ("Rationale: caffeine blocks adenosine." +:+ blank_line
             +:+ "Hypothesis: caffeine shortens reaction time.")) = 2%nat.
Proof. vm_compute. reflexivity. Qed.

Lemma parse_hypotheses_at_most_two_witness :
  length (GenerationAgent._parse_hypotheses
            ("Hypothesis 1: caffeine helps." +:+ blank_line
             +:+ "Hypothesis 2: sleep matters." +:+ blank_line
             +:+ "Rationale: adenosine.")) = 1%nat.
Proof.
  apply (proj2 (proj2 (proj2 (proj2 (parse_hypotheses_at_most_two
           ("Hypothesis 1: caffeine helps." +:+ blank_line
            +:+ "Hypothesis 2: sleep matters." +:+ blank_line
            +:+ "Rationale: adenosine.")))))
           "Hypothesis 1: caffeine helps."
           ["Hypothesis 2: sleep matters."; "Rationale: adenosine."]).
  - vm_compute. reflexivity.
  - vm_compute. reflexivity.
Defined.

(** ** Proximity: evaluation and filter *)

Section Proximity.
Import PyStr ProximityAgent Reference.

Lemma fit_promptable (h : hypothesis) :
  fit_for_proximity h = true -> promptable h = true.
Proof.
  unfold fit_for_proximity, promptable, text_or_absent, usable_rationale.
  destruct (has_statement h); [|done]. cbn [andb].
  by destruct (h !! "rationale") as [[| | | |s| |]|].
Qed.

(** The prompt is built exactly from the records that are [promptable]. *)
Lemma proximity_prompt_spec (h : hypothesis) :
  (promptable h = true /\ proximity_prompt h = Ok tt)
  \/ (promptable h = false /\ exists e, proximity_prompt h = Raise e).
Proof.
  unfold promptable, has_statement, usable_rationale, proximity_prompt, getitem, get.
  destruct (h !! "statement") as [v|]; [|right; split; [done|by eexists]].
  cbn [bind andb].
  destruct (h !! "rationale") as [[| | | |s|l|d]|]; cbn [default from_option id py_len bind];
    try (right; split; [done|by eexists]).
  - left. split; [done|]. by destruct (300 <? String.length s)%nat.
  - destruct (300 <? length l)%nat eqn:E.
    + apply Nat.ltb_lt in E. rewrite (proj2 (Nat.leb_gt _ _) E).
      right. split; [done|by eexists].
    + apply Nat.ltb_ge in E. rewrite (proj2 (Nat.leb_le _ _) E). by left.
  - destruct (300 <? size d)%nat eqn:E.
    + apply Nat.ltb_lt in E. rewrite (proj2 (Nat.leb_gt _ _) E).
      right. split; [done|by eexists].
    + apply Nat.ltb_ge in E. rewrite (proj2 (Nat.leb_le _ _) E). by left.
  - by left.
Qed.

Lemma proximity_prompt_Ok (h : hypothesis) :
  fit_for_proximity h = true -> proximity_prompt h = Ok tt.
Proof.
  intros Hf%fit_promptable.
  destruct (proximity_prompt_spec h) as [[_ ?]|[? _]]; [done|congruence].
Qed.

Section WithService.
Variable llm : nat -> string.

Lemma evaluate_promptable (idx : nat) (h : hypothesis) :
  promptable h = true ->
  evaluate llm idx h = Ok (evaluated_record (llm idx) h).
Proof.
  intros Hf. unfold evaluate.
  destruct (proximity_prompt_spec h) as [[_ ->]|[? _]]; [|congruence]. cbn [bind].
  unfold evaluated_record. by destruct (_extract_proximity_info (llm idx)).
Qed.

Lemma evaluate_Ok (idx : nat) (h : hypothesis) :
  fit_for_proximity h = true ->
  evaluate llm idx h = Ok (evaluated_record (llm idx) h).
Proof. intros Hf%fit_promptable. by apply evaluate_promptable. Qed.

Lemma evaluate_all_promptable (idx : nat) (hypotheses : list hypothesis) :
  Forall (fun h => promptable h = true) hypotheses ->
  evaluate_all llm idx hypotheses
  = Ok (imap (fun i h => evaluated_record (llm (idx + i)) h) hypotheses).
Proof.
  revert idx. induction hypotheses as [|h hs IH]; intros idx Hall; [done|].
  apply Forall_cons in Hall as [Hh Hall].
  cbn [evaluate_all]. rewrite (evaluate_promptable idx h Hh), (IH (S idx) Hall).
  cbn [bind imap].
  rewrite Nat.add_0_r. do 2 f_equal.
  apply imap_ext. intros i x _. simpl. f_equal. f_equal. lia.
Qed.

Lemma evaluate_all_Ok (idx : nat) (hypotheses : list hypothesis) :
  Forall (fun h => fit_for_proximity h = true) hypotheses ->
  evaluate_all llm idx hypotheses
  = Ok (imap (fun i h => evaluated_record (llm (idx + i)) h) hypotheses).
Proof.
  intros Hall. apply evaluate_all_promptable.
  eapply Forall_impl; [exact Hall|]. apply fit_promptable.
Qed.

(** The evaluation stops at the first record the prompt cannot be built
    from. *)
Lemma evaluate_all_returns (idx : nat) (hypotheses evaluated : list hypothesis) :
  evaluate_all llm idx hypotheses = Ok evaluated ->
  Forall (fun h => promptable h = true) hypotheses.
Proof.
  revert idx evaluated. induction hypotheses as [|h hs IH]; intros idx evaluated He;
    [apply Forall_nil; exact I|].
  cbn [evaluate_all] in He. unfold evaluate in He.
  destruct (proximity_prompt_spec h) as [[Hp E]|[_ [e E]]]; rewrite E in He;
    cbn [bind] in He; [|done].
  destruct (_extract_proximity_info (llm idx)) as [score flag].
  cbn [bind] in He.
  destruct (evaluate_all llm (S idx) hs) as [others|e] eqn:Eo; [|done].
  apply Forall_cons. split; [done|]. by apply (IH (S idx) others).
Qed.
End WithService.

Lemma evaluated_record_score (evaluation : string) (h : hypothesis) :
  get (evaluated_record evaluation h) "proximity_score" (VInt 0)
  = VNum (fst (_extract_proximity_info evaluation)).
Proof. unfold get, evaluated_record. by simplify_map_eq. Qed.

(** The filter on records whose score is a number: the comprehension. *)
Lemma filter_relevant_numeric (evaluated : list hypothesis) (threshold : Q) :
  Forall (fun r => is_Some (as_number (get r "proximity_score" (VInt 0)))) evaluated ->
  filter_relevant_hypotheses evaluated threshold
  = Ok (List.filter (score_at_least threshold) evaluated).
Proof.
  induction 1 as [|r rs [score Hr] _ IH]; [done|].
  cbn [filter_relevant_hypotheses List.filter]. unfold passes, score_at_least. rewrite Hr, IH.
  cbn [bind]. by destruct (Qle_bool threshold score).
Qed.

Lemma numeric_score (r : hypothesis) :
  numeric_or_absent r "proximity_score" = true
  <-> is_Some (as_number (get r "proximity_score" (VInt 0))).
Proof.
  unfold numeric_or_absent, get.
  destruct (r !! "proximity_score") as [v|]; cbn [default from_option id].
  - destruct (as_number v); split; intros H; try done; by destruct H.
  - split; [by eexists|done].
Qed.

(** The filter stops at the first record whose score is not a number. *)
Lemma filter_relevant_returns (records kept : list hypothesis) (threshold : Q) :
  filter_relevant_hypotheses records threshold = Ok kept ->
  Forall (fun r => numeric_or_absent r "proximity_score" = true) records.
Proof.
  revert kept. induction records as [|r rs IH]; intros kept Hk;
    [apply Forall_nil; exact I|].
  cbn [filter_relevant_hypotheses] in Hk. unfold passes in Hk.
  destruct (as_number (get r "proximity_score" (VInt 0))) as [score|] eqn:Es; [|done].
  cbn [bind] in Hk.
  destruct (filter_relevant_hypotheses rs threshold) as [others|e] eqn:Eo; [|done].
  apply Forall_cons. split; [|by apply (IH others)].
  apply numeric_score. by eexists.
Qed.

(** What the filter returns on records whose score is a number or
    missing. *)
Lemma filter_relevant_spec (records : list hypothesis) (threshold : Q) :
  Forall (fun r => numeric_or_absent r "proximity_score" = true) records ->
  filter_relevant_hypotheses records threshold
  = Ok (List.filter (score_at_least threshold) records).
Proof.
  intros H. apply filter_relevant_numeric.
  eapply Forall_impl; [exact H|]. intros r. apply numeric_score.
Qed.

Lemma list_filter_sublist {A} (f : A -> bool) (l : list A) : sublist (List.filter f l) l.
Proof.
  induction l as [|x l IH]; simpl; [constructor|].
  destruct (f x); by constructor.
Qed.
End Proximity.

(** C7, as the code has it.  Proximity evaluation never discards a
    hypothesis.  It returns exactly on the lists whose records are all
    [Reference.promptable]: each has a statement, and a rationale that is
    a text, missing, or a list or dictionary of at most 300 entries.  When
    it returns, it returns exactly one evaluated record per input
    hypothesis, in order: the input extended with the evaluation text, the
    score and the relevance flag.  Exclusion happens only in the separate
    filter, on whatever list its caller passes: it returns exactly when
    every score is a number or missing, and then returns, in order, exactly
    the records whose proximity score (0 when missing) is at least the
    threshold; the result is a sub-list of its input, and the relevance
    flag is not looked at. *)
Theorem proximity_evaluates_all_filter_by_score (llm : nat -> string)
    (hypotheses : list hypothesis) :
  (Forall (fun h => Reference.promptable h = true) hypotheses
   <-> exists evaluated, ProximityAgent.process llm hypotheses = Ok evaluated)
  /\ (forall evaluated,
        ProximityAgent.process llm hypotheses = Ok evaluated ->
        length evaluated = length hypotheses
        /\ (forall i h, hypotheses !! i = Some h ->
                        evaluated !! i = Some (Reference.evaluated_record (llm i) h))
        /\ Forall (fun r => Reference.numeric_or_absent r "proximity_score" = true)
                  evaluated)
  /\ (forall (records : list hypothesis) (threshold : Q),
        (Forall (fun r => Reference.numeric_or_absent r "proximity_score" = true) records
         <-> exists kept,
               ProximityAgent.filter_relevant_hypotheses records threshold = Ok kept)
        /\ forall kept,
             ProximityAgent.filter_relevant_hypotheses records threshold = Ok kept ->
             kept = List.filter (Reference.score_at_least threshold) records
             /\ sublist kept records
             /\ (forall r, r ∈ kept <->
                            r ∈ records /\ Reference.score_at_least threshold r = true)).
Proof.
  split; [|split].
  - split.
    + intros Hall. eexists. unfold ProximityAgent.process.
      by apply evaluate_all_promptable.
    + intros [evaluated He]. by apply (evaluate_all_returns llm 0 _ evaluated).
  - intros evaluated He.
    pose proof (evaluate_all_returns llm 0 _ _ He) as Hall.
    unfold ProximityAgent.process in He.
    rewrite (evaluate_all_promptable llm 0 _ Hall) in He. injection He as <-.
    split; [by rewrite length_imap|]. split.
    + intros i h Hi. rewrite list_lookup_imap, Hi. reflexivity.
    + apply Forall_forall. intros r Hr.
      apply elem_of_lookup_imap in Hr as (i & h & -> & _).
      apply numeric_score. rewrite evaluated_record_score. by eexists.
  - intros records threshold. split.
    + split.
      * intros Hall. eexists. by apply filter_relevant_spec.
      * intros [kept Hk]. by apply (filter_relevant_returns records kept threshold).
    + intros kept Hk.
      pose proof (filter_relevant_returns records kept threshold Hk) as Hall.
      rewrite (filter_relevant_spec records threshold Hall) in Hk. injection Hk as <-.
      split; [done|]. split; [apply list_filter_sublist|].
      intros r. rewrite !list_elem_of_In, filter_In. done.
Qed.

Lemma proximity_evaluates_all_filter_by_score_witness :
  exists evaluated kept,
    ProximityAgent.process (fun _ => "Overall proximity score: 7.")
      [{["statement" := VStr "Caffeine shortens reaction time."]};
       {["statement" := VStr "Naps restore attention."]}] = Ok evaluated
    /\ length evaluated = 2%nat
    /\ ProximityAgent.filter_relevant_hypotheses evaluated ProximityAgent.default_threshold
       = Ok kept
    /\ sublist kept evaluated.
Proof.
  destruct (proximity_evaluates_all_filter_by_score (fun _ => "Overall proximity score: 7.")
              [{["statement" := VStr "Caffeine shortens reaction time."]};
               {["statement" := VStr "Naps restore attention."]}])
    as ((Hok & _) & Hall & Hfilter).
  destruct Hok as [evaluated He].
  - apply Forall_cons. split; [vm_compute; reflexivity|].
    apply Forall_cons. split; [vm_compute; reflexivity|]. apply Forall_nil. exact I.
  - destruct (Hall evaluated He) as (Hlen & _ & Hscores).
    destruct (Hfilter evaluated ProximityAgent.default_threshold) as ((Hret & _) & Hkept).
    destruct (Hret Hscores) as [kept Hk].
    exists evaluated, kept. split; [exact He|]. split; [exact Hlen|].
    split; [exact Hk|]. exact (proj1 (proj2 (Hkept kept Hk))).
Defined.

(** C7 as worded fails: the filter does not exclude exactly the records
    flagged [is_relevant = false].  A record with the default score 5 is
    flagged not relevant yet kept at the default threshold, and a record
    scored 3 but called "highly relevant" is flagged relevant yet dropped. *)
Lemma proximity_filter_ignores_relevance_flag :
  exists kept_record dropped_record,
    ProximityAgent.process
      (fun k => match k with
                | O => "The link to the goal is loose."
                | _ => "Overall proximity score: 3. Still highly relevant."
                end)
      [{["statement" := VStr "Caffeine shortens reaction time."]};
       {["statement" := VStr "Naps restore attention."]}]
    = Ok [kept_record; dropped_record]
    /\ kept_record !! "is_relevant" = Some (VBool false)
    /\ dropped_record !! "is_relevant" = Some (VBool true)
    /\ ProximityAgent.filter_relevant_hypotheses [kept_record; dropped_record]
         ProximityAgent.default_threshold = Ok [kept_record].
Proof.
  exists (Reference.evaluated_record "The link to the goal is loose."
            {["statement" := VStr "Caffeine shortens reaction time."]}),
         (Reference.evaluated_record "Overall proximity score: 3. Still highly relevant."
            {["statement" := VStr "Naps restore attention."]}).
  split.
  { unfold ProximityAgent.process. rewrite evaluate_all_Ok; [reflexivity|].
    apply Forall_cons. split; [vm_compute; reflexivity|].
    apply Forall_cons. split; [vm_compute; reflexivity|]. apply Forall_nil. exact I. }
  split.
  { unfold Reference.evaluated_record. rewrite lookup_insert_eq. vm_compute. reflexivity. }
  split.
  { unfold Reference.evaluated_record. rewrite lookup_insert_eq. vm_compute. reflexivity. }
  cbn [ProximityAgent.filter_relevant_hypotheses]. unfold ProximityAgent.passes.
  rewrite !evaluated_record_score. cbn [as_number bind].
  assert (E1 : Qle_bool ProximityAgent.default_threshold
                 (fst (ProximityAgent._extract_proximity_info
                         "The link to the goal is loose.")) = true)
    by (vm_compute; reflexivity).
  assert (E2 : Qle_bool ProximityAgent.default_threshold
                 (fst (ProximityAgent._extract_proximity_info
                         "Overall proximity score: 3. Still highly relevant.")) = false)
    by (vm_compute; reflexivity).
  rewrite E1, E2. reflexivity.
Qed.

(** ** [sorted] is stable and orders by key *)

Section Stability.
Import Reference.
Context {A : Type} (lt : A -> A -> bool).

Lemma before_lookup (a b : A) (l : list A) :
  before a b l <-> exists i j, (i < j)%nat /\ l !! i = Some a /\ l !! j = Some b.
Proof.
  split.
  - induction 1 as [l Hb|x l _ (i & j & Hij & Hi & Hj)].
    + apply list_elem_of_lookup in Hb as [j Hj].
      exists 0%nat, (S j). split; [lia|done].
    + exists (S i), (S j). split; [lia|done].
  - intros (i & j & Hij & Hi & Hj). revert i j Hij Hi Hj.
    induction l as [|x l IH]; intros i j Hij Hi Hj; [done|].
    destruct i as [|i].
    + injection Hi as ->. destruct j as [|j]; [lia|].
      apply before_here. by eapply list_elem_of_lookup_2.
    + destruct j as [|j]; [lia|].
      apply before_later, (IH i j); [lia|done|done].
Qed.

Lemma insert_sorted_keeps_order (x a b : A) (l : list A) :
  before a b l -> before a b (insert_sorted lt x l).
Proof.
  induction 1 as [l Hb|y l Hab IH]; simpl.
  - destruct (lt a x); [|by apply before_later, before_here].
    apply before_here. rewrite insert_sorted_Permutation. by right.
  - destruct (lt y x); [by apply before_later|].
    by apply before_later, before_later.
Qed.

Lemma insert_sorted_before (x b : A) (l : list A) :
  b ∈ l -> lt b x = false -> before x b (insert_sorted lt x l).
Proof.
  induction l as [|y l IH]; intros Hb Hlt; [by apply elem_of_nil in Hb|].
  simpl. destruct (lt y x) eqn:Hyx; [|by apply before_here].
  apply before_later, IH; [|done].
  apply elem_of_cons in Hb as [->|Hb]; [congruence|done].
Qed.

(** Records that the order does not separate keep their input order. *)
Lemma sorted_stable (a b : A) (l : list A) :
  before a b l -> lt b a = false -> before a b (sorted lt l).
Proof.
  induction 1 as [l Hb|x l Hab IH]; intros Hlt; simpl.
  - apply insert_sorted_before; [|done]. by rewrite sorted_elem_of.
  - by apply insert_sorted_keeps_order, IH.
Qed.
End Stability.

Section Ordered.
Import Reference.
Context {A : Type} (lt : A -> A -> bool).
Hypothesis lt_asym : forall a b, lt a b = true -> lt b a = false.
Hypothesis lt_trans : forall a b c, lt b a = false -> lt c b = false -> lt c a = false.

Lemma insert_sorted_ordered (x : A) (l : list A) :
  (forall a b, before a b l -> lt b a = false) ->
  forall a b, before a b (insert_sorted lt x l) -> lt b a = false.
Proof using lt_asym lt_trans.
  induction l as [|y l IH]; intros Hl a b Hab; simpl in Hab.
  - inversion Hab as [l' Hb|x' l' Hab']; subst.
    + by apply elem_of_nil in Hb.
    + inversion Hab'.
  - destruct (lt y x) eqn:Hyx.
    + inversion Hab as [l' Hb|x' l' Hab']; subst.
      * rewrite insert_sorted_Permutation in Hb.
        apply elem_of_cons in Hb as [->|Hb]; [by apply lt_asym|].
        apply Hl. by apply before_here.
      * apply (IH (fun a' b' H => Hl a' b' (before_later _ _ _ _ H)) a b Hab').
    + inversion Hab as [l' Hb|x' l' Hab']; subst.
      * apply elem_of_cons in Hb as [->|Hb]; [done|].
        apply (lt_trans _ y _); [done|]. apply Hl. by apply before_here.
      * by apply Hl.
Qed.

(** In the result no record must come strictly before one placed ahead
    of it. *)
Lemma sorted_ordered (l : list A) :
  forall a b, before a b (sorted lt l) -> lt b a = false.
Proof using lt_asym lt_trans.
  induction l as [|x l IH]; simpl.
  - intros a b H. inversion H.
  - by apply insert_sorted_ordered.
Qed.
End Ordered.

Lemma sorted_descending {A} (key : A -> nat) (l : list A) (a b : A) :
  Reference.before a b (sorted (fun a b => (key b <? key a)%nat) l) ->
  (key b <= key a)%nat.
Proof.
  intros H.
  apply (sorted_ordered (fun a b => (key b <? key a)%nat)) in H.
  - apply Nat.ltb_ge in H. done.
  - intros x y Hxy. apply Nat.ltb_lt in Hxy. apply Nat.ltb_ge. lia.
  - intros x y z H1 H2. apply Nat.ltb_ge in H1, H2. apply Nat.ltb_ge. lia.
Qed.

(** ** Ranking: the pairwise tournament *)

Section Tournament.
Import PyStr RankingAgent Reference.

(** A comparison has a winner 1, a winner 2 or none. *)
Lemma determine_winner_cases (text : string) (a b : nat) :
  _determine_winner text a b = a \/ _determine_winner text a b = b
  \/ _determine_winner text a b = 0%nat.
Proof.
  unfold _determine_winner.
  repeat match goal with
         | |- context [if ?c then _ else _] => destruct c
         end; auto.
Qed.

(** *** The list of pairs *)

Lemma pairs_length_from (k a : nat) :
  (2 * length (flat_map (fun i => map (pair i) (seq (i + 1) (a + k - (i + 1)))) (seq a k))
   = k * (k - 1))%nat.
Proof.
  revert a. induction k as [|k IH]; intros a; [done|].
  cbn [seq flat_map]. rewrite length_app, length_map, length_seq.
  replace (flat_map (fun i => map (pair i) (seq (i + 1) (a + S k - (i + 1)))) (seq (S a) k))
    with (flat_map (fun i => map (pair i) (seq (i + 1) (S a + k - (i + 1)))) (seq (S a) k)).
  2:{ apply flat_map_ext. intros i. do 2 f_equal. lia. }
  specialize (IH (S a)). destruct k; simpl in *; nia.
Qed.

Lemma pairs_length (n : nat) : (2 * length (pairs n) = n * (n - 1))%nat.
Proof. apply (pairs_length_from n 0). Qed.

Lemma pairs_in_range (n i j : nat) : (i, j) ∈ pairs n -> (i < j < n)%nat.
Proof.
  unfold pairs. rewrite list_elem_of_In, in_flat_map.
  intros (i' & Hi' & Hj). apply in_map_iff in Hj as (j' & [= <- <-] & Hj').
  apply in_seq in Hi'. apply in_seq in Hj'. lia.
Qed.

Lemma count_if_app {A} (f : A -> bool) (l1 l2 : list A) :
  count_if f (l1 ++ l2) = (count_if f l1 + count_if f l2)%nat.
Proof. induction l1 as [|x l1 IH]; simpl; [done|]. rewrite IH. lia. Qed.

Lemma count_if_filter {A} (f : A -> bool) (l : list A) :
  length (filter (fun x => f x = true) l) = count_if f l.
Proof.
  induction l as [|x l IH]; [done|].
  rewrite filter_cons. simpl. destruct (f x) eqn:E.
  - rewrite decide_True by done. simpl. by rewrite IH.
  - rewrite decide_False by congruence. by rewrite IH.
Qed.

Lemma count_if_map {A B} (f : B -> bool) (g : A -> B) (l : list A) :
  count_if f (map g l) = count_if (fun x => f (g x)) l.
Proof. induction l as [|x l IH]; simpl; [done|]. by rewrite IH. Qed.

Lemma count_if_all {A} (f : A -> bool) (l : list A) :
  (forall x, x ∈ l -> f x = true) -> count_if f l = length l.
Proof.
  induction l as [|x l IH]; intros H; simpl; [done|].
  rewrite (H x) by left. rewrite IH; [done|]. intros y Hy. apply H. by right.
Qed.

Lemma count_if_none {A} (f : A -> bool) (l : list A) :
  (forall x, x ∈ l -> f x = false) -> count_if f l = 0%nat.
Proof.
  induction l as [|x l IH]; intros H; simpl; [done|].
  rewrite (H x) by left. rewrite IH; [done|]. intros y Hy. apply H. by right.
Qed.

Lemma count_if_ext_seq {A} (f g : A -> bool) (l : list A) :
  (forall x, f x = g x) -> count_if f l = count_if g l.
Proof. intros H. induction l as [|x l IH]; simpl; [done|]. by rewrite H, IH. Qed.

(** A number occurs once in a range that holds it. *)
Lemma count_if_seq_eq (idx a k : nat) :
  (a <= idx < a + k)%nat -> count_if (fun j => (j =? idx)%nat) (seq a k) = 1%nat.
Proof.
  revert a. induction k as [|k IH]; intros a Hr; [lia|].
  simpl. destruct (Nat.eqb_spec a idx) as [->|Hne].
  - rewrite count_if_none; [done|].
    intros j Hj. apply list_elem_of_In, in_seq in Hj. apply Nat.eqb_neq. lia.
  - rewrite IH by lia. done.
Qed.

(** The pairs that start at [i], counted by whether they involve [idx]. *)
Lemma row_count (n idx i : nat) :
  (idx < n)%nat -> (i < n)%nat ->
  count_if (pair_involves idx) (map (pair i) (seq (i + 1) (n - (i + 1))))
  = if (i <? idx)%nat then 1%nat
    else if (i =? idx)%nat then (n - (idx + 1))%nat else 0%nat.
Proof.
  intros Hidx Hi. rewrite count_if_map. unfold pair_involves. cbn [fst snd].
  destruct (Nat.ltb_spec i idx) as [Hlt|Hge].
  - rewrite (count_if_ext_seq _ (fun j => (j =? idx)%nat)).
    + apply (count_if_seq_eq idx). lia.
    + intros j. destruct (Nat.eqb_spec i idx); [lia|done].
  - destruct (Nat.eqb_spec i idx) as [->|Hne].
    + rewrite count_if_all; [by rewrite length_seq|].
      intros j _. done.
    + apply count_if_none. intros j Hj. apply list_elem_of_In, in_seq in Hj.
      simpl. apply Nat.eqb_neq. lia.
Qed.

Lemma count_if_flat_map {A B} (f : B -> bool) (g : A -> list B) (l : list A) :
  count_if f (flat_map g l) = sum_list (map (fun x => count_if f (g x)) l).
Proof. induction l as [|x l IH]; simpl; [done|]. by rewrite count_if_app, IH. Qed.

Lemma sum_list_const {A} (h : A -> nat) (c : nat) (l : list A) :
  (forall x, x ∈ l -> h x = c) -> sum_list (map h l) = (c * length l)%nat.
Proof.
  induction l as [|x l IH]; intros H; simpl; [lia|].
  rewrite (H x) by left. rewrite IH; [lia|]. intros y Hy. apply H. by right.
Qed.

Lemma sum_list_map_ext {A} (h h' : A -> nat) (l : list A) :
  (forall x, x ∈ l -> h x = h' x) -> sum_list (map h l) = sum_list (map h' l).
Proof.
  induction l as [|x l IH]; intros H; simpl; [done|].
  rewrite (H x) by left. rewrite IH; [done|]. intros y Hy. apply H. by right.
Qed.

(** Every hypothesis takes part in [n - 1] of the pairs. *)
Lemma pairs_involving (n idx : nat) :
  (idx < n)%nat -> count_if (pair_involves idx) (pairs n) = (n - 1)%nat.
Proof.
  intros Hidx. unfold pairs. rewrite count_if_flat_map.
  rewrite (sum_list_map_ext _
             (fun i => if (i <? idx)%nat then 1%nat
                       else if (i =? idx)%nat then (n - (idx + 1))%nat else 0%nat)).
  2:{ intros i Hi. apply list_elem_of_In, in_seq in Hi. apply row_count; lia. }
  replace n with (idx + S (n - (idx + 1)))%nat at 1 by lia.
  rewrite seq_app, map_app, sum_list_with_app. cbn [seq map sum_list_with].
  rewrite (sum_list_const _ 1%nat).
  2:{ intros i Hi. apply list_elem_of_In, in_seq in Hi.
      destruct (Nat.ltb_spec i idx); [done|lia]. }
  rewrite (sum_list_const _ 0%nat).
  2:{ intros i Hi. apply list_elem_of_In, in_seq in Hi.
      destruct (Nat.ltb_spec i idx); [lia|]. destruct (Nat.eqb_spec i idx); [lia|done]. }
  rewrite length_seq, Nat.ltb_irrefl, Nat.eqb_refl. simpl. lia.
Qed.

(** *** The loop over the pairs *)

Lemma sum_list_alter_S (l : list nat) (i : nat) :
  (i < length l)%nat -> sum_list (alter S i l) = S (sum_list l).
Proof.
  revert i. induction l as [|x l IH]; intros i Hi; simpl in Hi; [lia|].
  destruct i as [|i]; [done|].
  change (sum_list (x :: alter S i l) = S (sum_list (x :: l))).
  cbn [sum_list_with]. rewrite IH by lia. unfold id. lia.
Qed.

Section WithService.
Variable llm : nat -> string.

(** One comparison credits the first hypothesis, the second, or none. *)
Lemma compare_pair_cases (t : tournament) (i j : nat) :
  let w := _determine_winner (llm (calls t)) 1 2 in
  comparisons (compare_pair llm t (i, j))
    = comparisons t ++ [{| hypothesis1_idx := i; hypothesis2_idx := j;
                           winner := w; reasoning := llm (calls t) |}]
  /\ calls (compare_pair llm t (i, j)) = S (calls t)
  /\ ((w = 1%nat /\ wins (compare_pair llm t (i, j)) = alter S i (wins t))
      \/ (w = 2%nat /\ wins (compare_pair llm t (i, j)) = alter S j (wins t))
      \/ (w = 0%nat /\ wins (compare_pair llm t (i, j)) = wins t)).
Proof.
  intros w. split; [done|]. split; [done|].
  unfold compare_pair. cbn [wins]. fold w.
  destruct (determine_winner_cases (llm (calls t)) 1 2) as [H|[H|H]];
    fold w in H; rewrite H; simpl; auto.
Qed.

Lemma count_if_snoc {A} (f : A -> bool) (l : list A) (x : A) :
  count_if f (l ++ [x]) = (count_if f l + if f x then 1 else 0)%nat.
Proof. rewrite count_if_app. simpl. lia. Qed.

Lemma tournament_fold (n : nat) (ps : list (nat * nat)) (t : tournament) :
  (forall i j, (i, j) ∈ ps -> (i < n)%nat /\ (j < n)%nat) ->
  length (wins t) = n ->
  let t' := foldl (compare_pair llm) t ps in
  length (wins t') = n
  /\ map indices (comparisons t') = map indices (comparisons t) ++ ps
  /\ calls t' = (calls t + length ps)%nat
  /\ (sum_list (wins t') + count_if decisive (comparisons t)
      = sum_list (wins t) + count_if decisive (comparisons t'))%nat.
Proof.
  revert t. induction ps as [|[i j] ps IH]; intros t Hr Hlen; cbn zeta.
  - simpl. rewrite app_nil_r. repeat split; lia.
  - cbn [foldl].
    destruct (Hr i j) as [Hi Hj]; [left|].
    destruct (compare_pair_cases t i j) as (Hc & Hk & Hw). cbn zeta in Hc, Hw.
    remember (compare_pair llm t (i, j)) as t1 eqn:Et1.
    assert (Hlen' : length (wins t1) = n).
    { destruct Hw as [[_ Ew]|[[_ Ew]|[_ Ew]]]; rewrite Ew; by rewrite ?length_alter. }
    destruct (IH t1) as (H1 & H2 & H3 & H4);
      [intros i' j' H'; apply Hr; by right|done|].
    split; [done|]. split.
    { rewrite H2, Hc, map_app, <- app_assoc. done. }
    split; [rewrite H3, Hk; simpl; lia|].
    rewrite Hc, count_if_snoc in H4. unfold decisive at 2 in H4. cbn [winner] in H4.
    destruct Hw as [[Hw Ew]|[[Hw Ew]|[Hw Ew]]]; rewrite Hw, Ew in H4;
      cbn [Nat.eqb negb] in H4;
      rewrite ?sum_list_alter_S in H4 by lia; lia.
Qed.

Lemma run_tournament_facts (n : nat) :
  length (final_wins llm n) = n
  /\ map indices (comparisons (run_tournament llm n)) = pairs n
  /\ calls (run_tournament llm n) = length (pairs n)
  /\ sum_list (final_wins llm n)
     = count_if decisive (comparisons (run_tournament llm n)).
Proof.
  unfold final_wins, run_tournament.
  destruct (tournament_fold n (pairs n)
              {| wins := replicate n 0%nat; comparisons := []; calls := 0 |})
    as (H1 & H2 & H3 & H4).
  - intros i j H. apply pairs_in_range in H. lia.
  - apply length_replicate.
  - cbn [wins comparisons calls] in *. split; [done|]. split; [done|].
    split; [done|].
    assert (Z : sum_list (replicate n 0%nat) = 0%nat).
    { clear. induction n; simpl; [done|]. done. }
    rewrite Z in H4. simpl in H4. lia.
Qed.

Lemma involved_count (n idx : nat) :
  (idx < n)%nat ->
  length (filter (fun c => involves idx c = true) (comparisons (run_tournament llm n)))
  = (n - 1)%nat.
Proof.
  intros Hidx. rewrite count_if_filter.
  destruct (run_tournament_facts n) as (_ & Hp & _).
  rewrite <- (pairs_involving n idx Hidx), <- Hp, count_if_map. done.
Qed.

Lemma ranked_indices_Permutation (ws : list nat) :
  ranked_indices ws ≡ₚ seq 0 (length ws).
Proof. apply sorted_Permutation. Qed.

Lemma ranked_indices_lt (ws : list nat) (r idx : nat) :
  ranked_indices ws !! r = Some idx -> (idx < length ws)%nat.
Proof.
  intros H. apply list_elem_of_lookup_2 in H.
  rewrite ranked_indices_Permutation in H.
  apply list_elem_of_In, in_seq in H. lia.
Qed.
End WithService.
End Tournament.

Section PairwiseRanking.
Import RankingAgent Reference.
Variable llm : nat -> string.

Lemma ranked_record_rank (hypotheses : list hypothesis) (t : tournament) (rank idx : nat) :
  ranked_record hypotheses t rank idx !! "rank" = Some (VInt (Z.of_nat (rank + 1))).
Proof. unfold ranked_record. by simplify_map_eq. Qed.


(** The ranks of the records built by [enumerate]: [k], [k + 1], ... *)
Lemma ranks_of_imap (f : nat -> nat -> hypothesis) (l : list nat) (k : nat) :
  (forall r idx, f r idx !! "rank" = Some (VInt (Z.of_nat (r + k)))) ->
  omap (fun h : hypothesis => h !! "rank") (imap f l)
  = map (fun r => VInt (Z.of_nat r)) (seq k (length l)).
Proof.
  revert f k. induction l as [|x l IH]; intros f k Hf; [done|].
  rewrite imap_cons. cbn [omap list_omap length seq map].
  rewrite (Hf 0%nat x). cbn [Nat.add]. f_equal.
  apply (IH (fun r => f (S r)) (S k)).
  intros r idx. rewrite Hf. do 3 f_equal. lia.
Qed.

Lemma rank_by_pairwise_lookup (hypotheses : list hypothesis) (r idx : nat) :
  ranked_indices (final_wins llm (length hypotheses)) !! r = Some idx ->
  _rank_by_pairwise_comparison llm hypotheses !! r
  = Some (ranked_record hypotheses (run_tournament llm (length hypotheses)) r idx).
Proof.
  intros H. unfold _rank_by_pairwise_comparison. cbn zeta.
  rewrite list_lookup_imap. unfold final_wins in H. by rewrite H.
Qed.
End PairwiseRanking.

(** C1.  The pairwise strategy returns one record per hypothesis; the ranks
    of the returned list are 1, 2, ..., n in this order, so they are
    contiguous and without duplicates; the record of rank [r + 1] is the
    hypothesis at position [r] of the stable descending sort of the indices
    by win count, which is a permutation of the indices in which win counts
    never increase; and of two hypotheses with equal win counts the one
    earlier in the input gets the smaller rank. *)
Theorem pairwise_ranks_contiguous_and_stable (llm : nat -> string)
    (hypotheses : list hypothesis) :
  length (RankingAgent._rank_by_pairwise_comparison llm hypotheses) = length hypotheses
  /\ omap (fun h : hypothesis => h !! "rank")
          (RankingAgent._rank_by_pairwise_comparison llm hypotheses)
     = map (fun r => VInt (Z.of_nat r)) (seq 1 (length hypotheses))
  /\ RankingAgent.ranked_indices (Reference.final_wins llm (length hypotheses))
     ≡ₚ seq 0 (length hypotheses)
  /\ (forall r idx,
        RankingAgent.ranked_indices (Reference.final_wins llm (length hypotheses)) !! r
          = Some idx ->
        RankingAgent._rank_by_pairwise_comparison llm hypotheses !! r
        = Some (<["total_comparisons" := VInt (Z.of_nat (length hypotheses - 1))]>
                (<["wins" := VInt (Z.of_nat
                                     (Reference.final_wins llm (length hypotheses) !!! idx))]>
                (<["rank" := VInt (Z.of_nat (r + 1))]> (hypotheses !!! idx)))))
  /\ (forall r1 r2 a b,
        (r1 < r2)%nat ->
        RankingAgent.ranked_indices (Reference.final_wins llm (length hypotheses)) !! r1
          = Some a ->
        RankingAgent.ranked_indices (Reference.final_wins llm (length hypotheses)) !! r2
          = Some b ->
        (Reference.final_wins llm (length hypotheses) !!! b
         <= Reference.final_wins llm (length hypotheses) !!! a)%nat)
  /\ (forall i j,
        (i < j < length hypotheses)%nat ->
        Reference.final_wins llm (length hypotheses) !!! i
        = Reference.final_wins llm (length hypotheses) !!! j ->
        exists ri rj,
          (ri < rj)%nat
          /\ RankingAgent.ranked_indices (Reference.final_wins llm (length hypotheses)) !! ri
             = Some i
          /\ RankingAgent.ranked_indices (Reference.final_wins llm (length hypotheses)) !! rj
             = Some j
          /\ (RankingAgent._rank_by_pairwise_comparison llm hypotheses !! ri)
               ≫= (fun h : hypothesis => h !! "rank") = Some (VInt (Z.of_nat (ri + 1)))
          /\ (RankingAgent._rank_by_pairwise_comparison llm hypotheses !! rj)
               ≫= (fun h : hypothesis => h !! "rank") = Some (VInt (Z.of_nat (rj + 1)))).
Proof.
  set (n := length hypotheses).
  destruct (run_tournament_facts llm n) as (Hlen & Hp & Hcalls & Hsum).
  assert (Hperm : RankingAgent.ranked_indices (Reference.final_wins llm n) ≡ₚ seq 0 n).
  { rewrite ranked_indices_Permutation. by rewrite Hlen. }
  split; [|split; [|split; [|split; [|split]]]].
  - unfold RankingAgent._rank_by_pairwise_comparison. cbn zeta.
    rewrite length_imap. fold n. fold (Reference.final_wins llm n).
    by rewrite Hperm, length_seq.
  - unfold RankingAgent._rank_by_pairwise_comparison. cbn zeta. fold n.
    fold (Reference.final_wins llm n).
    rewrite (ranks_of_imap _ _ 1%nat) by (intros r idx; apply ranked_record_rank).
    by rewrite Hperm, length_seq.
  - exact Hperm.
  - intros r idx Hr. rewrite (rank_by_pairwise_lookup llm hypotheses r idx Hr). fold n.
    f_equal. unfold RankingAgent.ranked_record.
    rewrite (involved_count llm n idx).
    + reflexivity.
    + apply ranked_indices_lt in Hr. by rewrite Hlen in Hr.
  - intros r1 r2 a b Hlt Ha Hb.
    apply (sorted_descending (fun k => Reference.final_wins llm n !!! k)
             (seq 0 (length (Reference.final_wins llm n))) a b).
    apply before_lookup. by exists r1, r2.
  - intros i j Hij Heq.
    assert (B : Reference.before i j
                  (RankingAgent.ranked_indices (Reference.final_wins llm n))).
    { apply sorted_stable.
      - apply before_lookup. exists i, j. rewrite Hlen.
        split; [lia|]. split; apply lookup_seq; lia.
      - rewrite Heq. apply Nat.ltb_irrefl. }
    apply before_lookup in B as (ri & rj & Hlt & Hi & Hj).
    exists ri, rj. split; [done|]. split; [done|]. split; [done|].
    rewrite (rank_by_pairwise_lookup llm hypotheses ri i Hi).
    rewrite (rank_by_pairwise_lookup llm hypotheses rj j Hj).
    cbn. by rewrite !ranked_record_rank.
Qed.

Lemma pairwise_ranks_contiguous_and_stable_witness :
  exists ri rj,
    (ri < rj)%nat
    /\ RankingAgent.ranked_indices
         (Reference.final_wins
            (fun k => match k with
                      | 1%nat => "Hypothesis 2 is superior."
                      | _ => "Both are equally good."
                      end) 3) !! ri = Some 0%nat
    /\ RankingAgent.ranked_indices
         (Reference.final_wins
            (fun k => match k with
                      | 1%nat => "Hypothesis 2 is superior."
                      | _ => "Both are equally good."
                      end) 3) !! rj = Some 1%nat.
Proof.
  destruct (proj2 (proj2 (proj2 (proj2 (proj2
              (pairwise_ranks_contiguous_and_stable
                 (fun k => match k with
                           | 1%nat => "Hypothesis 2 is superior."
                           | _ => "Both are equally good."
                           end)
                 [{["statement" := VStr "A"]}; {["statement" := VStr "B"]};
                  {["statement" := VStr "C"]}])))))
              0%nat 1%nat)
    as (ri & rj & H1 & H2 & H3 & _).
  - simpl. lia.
  - vm_compute. reflexivity.
  - exists ri, rj. split; [exact H1|]. split; [exact H2|exact H3].
Defined.


(** ** Evolution *)

Section StringOrder.
Lemma string_compare_le_trans (a b c : string) :
  String.compare a b <> Gt -> String.compare b c <> Gt -> String.compare a c <> Gt.
Proof.
  revert b c. induction a as [|x a IH]; intros [|y b] [|z c]; simpl; try done.
  unfold Ascii.compare.
  destruct (N.compare_spec (N_of_ascii x) (N_of_ascii y)) as [E1|L1|G1],
           (N.compare_spec (N_of_ascii y) (N_of_ascii z)) as [E2|L2|G2];
    intros H1 H2; try congruence.
  - rewrite E1, E2, N.compare_refl. by apply (IH b c).
  - assert (E : (N_of_ascii x ?= N_of_ascii z)%N = Lt) by (apply N.compare_lt_iff; lia).
    by rewrite E.
  - assert (E : (N_of_ascii x ?= N_of_ascii z)%N = Lt) by (apply N.compare_lt_iff; lia).
    by rewrite E.
  - assert (E : (N_of_ascii x ?= N_of_ascii z)%N = Lt) by (apply N.compare_lt_iff; lia).
    by rewrite E.
Qed.

Lemma string_ltb_asym (a b : string) : String.ltb a b = true -> String.ltb b a = false.
Proof.
  unfold String.ltb. rewrite (String.compare_antisym a b).
  by destruct (String.compare b a).
Qed.

Lemma string_ltb_trans (a b c : string) :
  String.ltb b a = false -> String.ltb c b = false -> String.ltb c a = false.
Proof.
  unfold String.ltb. intros H1 H2.
  pose proof (string_compare_le_trans a b c) as H.
  rewrite (String.compare_antisym a b), (String.compare_antisym b c),
    (String.compare_antisym a c) in H.
  destruct (String.compare b a), (String.compare c b), (String.compare c a);
    simpl in *; try done; exfalso; apply H; done.
Qed.
End StringOrder.

Section SortedExt.
Context {A : Type} (lt lt' : A -> A -> bool).

Lemma insert_sorted_ext (x : A) (l : list A) :
  (forall y, y ∈ l -> lt y x = lt' y x) ->
  insert_sorted lt x l = insert_sorted lt' x l.
Proof.
  induction l as [|y l IH]; intros H; [done|]. simpl.
  rewrite (H y) by apply list_elem_of_here.
  rewrite IH; [done|]. intros z Hz. by apply H, list_elem_of_further.
Qed.

(** Two orders that agree on the elements of a list sort it alike. *)
Lemma sorted_ext (l : list A) :
  (forall a b, a ∈ l -> b ∈ l -> lt a b = lt' a b) ->
  sorted lt l = sorted lt' l.
Proof.
  induction l as [|x l IH]; intros H; [done|]. simpl.
  rewrite <- IH.
  - apply insert_sorted_ext. intros y Hy. rewrite sorted_elem_of in Hy.
    apply H; [by apply list_elem_of_further|apply list_elem_of_here].
  - intros a b Ha Hb. by apply H; apply list_elem_of_further.
Qed.
End SortedExt.

Section Evolution.
Import PyStr EvolutionAgent Reference.

Lemma Qltb_asym (x y : Q) : Qltb x y = true -> Qltb y x = false.
Proof.
  unfold Qltb. intros H. apply negb_true_iff in H. apply negb_false_iff.
  apply Qle_bool_iff. apply Qlt_le_weak, Qnot_le_lt.
  intros Hle. apply Qle_bool_iff in Hle. congruence.
Qed.

Lemma Qltb_trans (x y z : Q) : Qltb y x = false -> Qltb z y = false -> Qltb z x = false.
Proof.
  unfold Qltb. intros H1 H2. apply negb_false_iff in H1, H2. apply negb_false_iff.
  apply Qle_bool_iff in H1, H2. apply Qle_bool_iff. by apply (Qle_trans _ y).
Qed.

Lemma key_lt_asym (a b : option Q) : key_lt a b = true -> key_lt b a = false.
Proof. destruct a as [x|], b as [y|]; simpl; try done. apply Qltb_asym. Qed.

Lemma key_lt_trans (a b c : option Q) :
  key_lt b a = false -> key_lt c b = false -> key_lt c a = false.
Proof. destruct a as [x|], b as [y|], c as [z|]; simpl; try done. apply Qltb_trans. Qed.

Lemma by_rank_numbers (a b : hypothesis) :
  numeric_or_absent a "rank" = true -> numeric_or_absent b "rank" = true ->
  by_rank a b = key_lt (number_of a) (number_of b).
Proof.
  unfold by_rank, number_of, rank_of, numeric_or_absent.
  by destruct (a !! "rank") as [[]|], (b !! "rank") as [[]|].
Qed.

Lemma by_rank_texts (a b : hypothesis) :
  is_text a "rank" = true -> is_text b "rank" = true ->
  by_rank a b = String.ltb (text_of a) (text_of b).
Proof.
  unfold by_rank, text_of, rank_of, is_text.
  by destruct (a !! "rank") as [[]|], (b !! "rank") as [[]|].
Qed.

Lemma rank_lt_by_rank (a b : hypothesis) : rank_lt a b = by_rank a b.
Proof.
  unfold rank_lt, by_rank, rank_key, rank_of, key_before.
  by destruct (a !! "rank") as [[]|], (b !! "rank") as [[]|].
Qed.

Lemma comparable_kinds (a b : hypothesis) :
  comparable a b
  = (numeric_or_absent a "rank" && numeric_or_absent b "rank")
    || (is_text a "rank" && is_text b "rank").
Proof.
  unfold comparable, rank_key, key_before, numeric_or_absent, is_text.
  by destruct (a !! "rank") as [[]|], (b !! "rank") as [[]|].
Qed.

Lemma number_not_text (h : hypothesis) :
  numeric_or_absent h "rank" = true -> is_text h "rank" = false.
Proof. unfold numeric_or_absent, is_text. by destruct (h !! "rank") as [[]|]. Qed.

Lemma check_keys_spec (l : list hypothesis) :
  check_keys l
  = if forallb (fun h => numeric_or_absent h "rank") l
       || forallb (fun h => is_text h "rank") l
    then Ok tt else Raise TypeError.
Proof.
  unfold check_keys.
  assert (E : forallb (fun a => forallb (comparable a) l) l
              = forallb (fun h => numeric_or_absent h "rank") l
                || forallb (fun h => is_text h "rank") l).
  { apply eq_true_iff_eq. rewrite orb_true_iff, !List.forallb_forall. split.
    - intros H. destruct l as [|h0 l']; [by left; intros x []|].
      pose proof (H h0 (or_introl eq_refl)) as H0.
      rewrite List.forallb_forall in H0.
      destruct (numeric_or_absent h0 "rank") eqn:En.
      + left. intros b Hb. specialize (H0 b Hb).
        rewrite comparable_kinds, En, (number_not_text h0 En) in H0.
        by destruct (numeric_or_absent b "rank").
      + right. intros b Hb. specialize (H0 b Hb).
        rewrite comparable_kinds, En in H0. simpl in H0.
        by apply andb_true_iff in H0 as [_ ?].
    - intros [Hn|Ht] a Ha; apply List.forallb_forall; intros b Hb;
        rewrite comparable_kinds.
      + by rewrite (Hn a Ha), (Hn b Hb).
      + rewrite (Ht a Ha), (Ht b Hb). apply orb_true_r. }
  by rewrite E.
Qed.

(** The sort returns exactly on ranks that can be ordered. *)
Lemma sort_by_rank_spec (ranked : list hypothesis) :
  sort_by_rank ranked
  = if ranks_ordered ranked then Ok (sorted by_rank ranked) else Raise TypeError.
Proof.
  unfold sort_by_rank, ranks_ordered. rewrite check_keys_spec.
  rewrite (sorted_ext rank_lt by_rank) by (intros; apply rank_lt_by_rank).
  destruct (length ranked <=? 1)%nat; simpl; [done|].
  by destruct (forallb (fun h => numeric_or_absent h "rank") ranked
               || forallb (fun h => is_text h "rank") ranked).
Qed.

(** On ranks that can be ordered, no record of the sorted list is ranked
    strictly before one placed ahead of it. *)
Lemma sorted_by_rank_ordered (ranked : list hypothesis) :
  ranks_ordered ranked = true ->
  forall a b, before a b (sorted by_rank ranked) -> by_rank b a = false.
Proof.
  unfold ranks_ordered. rewrite !orb_true_iff, !List.forallb_forall.
  intros [[Hlen|Hn]|Ht] a b Hab.
  - apply Nat.leb_le in Hlen. apply before_lookup in Hab as (i & j & Hij & _ & Hj).
    apply lookup_lt_Some in Hj. rewrite sorted_length in Hj. lia.
  - assert (Ha : a ∈ ranked /\ b ∈ ranked).
    { apply before_lookup in Hab as (i & j & _ & Hi & Hj).
      split; apply (sorted_elem_of by_rank); by eapply list_elem_of_lookup_2. }
    destruct Ha as [Ha Hb]. apply list_elem_of_In in Ha, Hb.
    rewrite by_rank_numbers by auto.
    rewrite (sorted_ext by_rank (fun a b => key_lt (number_of a) (number_of b))) in Hab.
    + revert Hab. apply (sorted_ordered (fun a b => key_lt (number_of a) (number_of b))).
      * intros x y. apply key_lt_asym.
      * intros x y z. apply key_lt_trans.
    + intros x y Hx Hy. apply list_elem_of_In in Hx, Hy. apply by_rank_numbers; auto.
  - assert (Ha : a ∈ ranked /\ b ∈ ranked).
    { apply before_lookup in Hab as (i & j & _ & Hi & Hj).
      split; apply (sorted_elem_of by_rank); by eapply list_elem_of_lookup_2. }
    destruct Ha as [Ha Hb]. apply list_elem_of_In in Ha, Hb.
    rewrite by_rank_texts by auto.
    rewrite (sorted_ext by_rank (fun a b => String.ltb (text_of a) (text_of b))) in Hab.
    + revert Hab. apply (sorted_ordered (fun a b => String.ltb (text_of a) (text_of b))).
      * intros x y. apply string_ltb_asym.
      * intros x y z. apply string_ltb_trans.
    + intros x y Hx Hy. apply list_elem_of_In in Hx, Hy. apply by_rank_texts; auto.
Qed.

Lemma has_getitem (h : hypothesis) (k : string) :
  has h k = true -> getitem h k = Ok (get h k VNone).
Proof. unfold has, getitem, get. by destruct (h !! k). Qed.

Lemma has_false_getitem (h : hypothesis) (k : string) :
  has h k = false -> getitem h k = Raise (KeyError k).
Proof. unfold has, getitem. by destruct (h !! k). Qed.

(** The review is measured, and cut when it is long: this succeeds
    exactly on a [usable_review]. *)
Lemma review_check_spec (h : hypothesis) :
  (n <-- py_len (get h "review" (VStr "")) ;;
   (if (1000 <? n)%nat
    then match get h "review" (VStr "") with VStr _ => Ok tt | _ => Raise TypeError end
    else Ok tt))
  = if usable_review h then Ok tt else Raise TypeError.
Proof.
  unfold usable_review, get.
  destruct (h !! "review") as [[| | | |s|l|d]|]; simpl; try done.
  - by destruct (1000 <? String.length s)%nat.
  - destruct (1000 <? length l)%nat eqn:E.
    + apply Nat.ltb_lt in E. by rewrite (proj2 (Nat.leb_gt _ _) E).
    + apply Nat.ltb_ge in E. by rewrite (proj2 (Nat.leb_le _ _) E).
  - destruct (1000 <? size d)%nat eqn:E.
    + apply Nat.ltb_lt in E. by rewrite (proj2 (Nat.leb_gt _ _) E).
    + apply Nat.ltb_ge in E. by rewrite (proj2 (Nat.leb_le _ _) E).
Qed.

(** The refinement prompt is built exactly from the records that are
    [refinable]. *)
Lemma individual_prompt_spec (h : hypothesis) :
  (refinable h = true /\ individual_prompt h = Ok tt)
  \/ (refinable h = false /\ exists e, individual_prompt h = Raise e).
Proof.
  assert (E : individual_prompt h
              = (_ <-- (n <-- py_len (get h "review" (VStr "")) ;;
                        (if (1000 <? n)%nat
                         then match get h "review" (VStr "") with
                              | VStr _ => Ok tt
                              | _ => Raise TypeError
                              end
                         else Ok tt)) ;;
                 _ <-- getitem h "statement" ;;
                 _ <-- getitem h "rationale" ;;
                 _ <-- getitem h "evidence" ;;
                 _ <-- getitem h "assumptions" ;;
                 _ <-- getitem h "validation" ;;
                 Ok tt)).
  { unfold individual_prompt. cbn zeta.
    by destruct (py_len (get h "review" (VStr ""))). }
  rewrite E, review_check_spec. unfold refinable.
  destruct (has h "statement") eqn:Hs;
    [rewrite (has_getitem _ _ Hs)|rewrite (has_false_getitem _ _ Hs)];
  (destruct (has h "rationale") eqn:Hr;
    [rewrite (has_getitem _ _ Hr)|rewrite (has_false_getitem _ _ Hr)]);
  (destruct (has h "evidence") eqn:He;
    [rewrite (has_getitem _ _ He)|rewrite (has_false_getitem _ _ He)]);
  (destruct (has h "assumptions") eqn:Ha;
    [rewrite (has_getitem _ _ Ha)|rewrite (has_false_getitem _ _ Ha)]);
  (destruct (has h "validation") eqn:Hv;
    [rewrite (has_getitem _ _ Hv)|rewrite (has_false_getitem _ _ Hv)]);
  destruct (usable_review h); cbn [bind andb]; eauto.
Qed.

(** The combination prompt is built exactly from two records that are
    [combinable]. *)
Lemma hybrid_prompt_spec (hyp1 hyp2 : hypothesis) :
  (combinable hyp1 && combinable hyp2 = true
   /\ hybrid_prompt hyp1 hyp2 = Ok tt
   /\ getitem hyp1 "statement" = Ok (get hyp1 "statement" VNone)
   /\ getitem hyp2 "statement" = Ok (get hyp2 "statement" VNone))
  \/ (combinable hyp1 && combinable hyp2 = false
      /\ exists e, hybrid_prompt hyp1 hyp2 = Raise e).
Proof.
  unfold hybrid_prompt, combinable, has, getitem, get.
  destruct (hyp1 !! "statement") as [s1|]; [|right; split; [done|by eexists]].
  destruct (hyp1 !! "rationale") as [[| | | |r1|l1|d1]|];
    cbn [bind py_slice_to andb default];
    try (right; split; [done|by eexists]);
    (destruct (hyp2 !! "statement") as [s2|];
       [|right; split; [done|by eexists]]);
    (destruct (hyp2 !! "rationale") as [[| | | |r2|l2|d2]|];
       cbn [bind py_slice_to andb default];
       try (right; split; [done|by eexists]);
       left; done).
Qed.

Section WithService.
Variable llm : nat -> string.

Lemma evolve_each_Ok (idx : nat) (top : list hypothesis) :
  forallb refinable top = true ->
  evolve_each llm idx top
  = Ok (imap (fun i h => individual_variant (llm (idx + i)) h) top).
Proof.
  revert idx. induction top as [|h top IH]; intros idx Hall; [done|].
  cbn [forallb] in Hall. apply andb_true_iff in Hall as [Hh Hall].
  cbn [evolve_each]. unfold evolve_individual.
  destruct (individual_prompt_spec h) as [[_ ->]|[Hf _]]; [|congruence].
  cbn [bind]. rewrite (IH (S idx) Hall).
  cbn [bind]. rewrite imap_cons, Nat.add_0_r.
  apply (f_equal Ok), (f_equal (cons _)).
  apply imap_ext. intros i x _. cbv beta.
  by replace (S idx + i)%nat with (idx + S i)%nat by lia.
Qed.

Lemma evolve_each_raises (idx : nat) (top : list hypothesis) :
  forallb refinable top = false -> exists e, evolve_each llm idx top = Raise e.
Proof.
  revert idx. induction top as [|h top IH]; intros idx Hall; [done|].
  cbn [forallb] in Hall. cbn [evolve_each]. unfold evolve_individual.
  destruct (individual_prompt_spec h) as [[Hh ->]|[Hf [e ->]]]; [|by exists e].
  rewrite Hh in Hall. cbn [bind].
  destruct (IH (S idx) Hall) as [e ->]. by exists e.
Qed.

Lemma combine_Ok (idx : nat) (hyp1 hyp2 : hypothesis) :
  combinable hyp1 && combinable hyp2 = true ->
  combine llm idx hyp1 hyp2 = Ok (combination_variant (llm idx) hyp1 hyp2).
Proof.
  intros H. unfold combine.
  destruct (hybrid_prompt_spec hyp1 hyp2) as [(_ & -> & -> & ->)|[Hf _]]; [done|congruence].
Qed.

Lemma combine_raises (idx : nat) (hyp1 hyp2 : hypothesis) :
  combinable hyp1 && combinable hyp2 = false ->
  exists e, combine llm idx hyp1 hyp2 = Raise e.
Proof.
  intros H. unfold combine.
  destruct (hybrid_prompt_spec hyp1 hyp2) as [(Ht & _)|[_ [e ->]]]; [congruence|by exists e].
Qed.

Lemma top_hypotheses_length (ranked : list hypothesis) :
  length (top_hypotheses ranked) = min 3 (length ranked).
Proof. unfold top_hypotheses. rewrite length_take, sorted_length. lia. Qed.

(** The two parents are there, and fit, exactly when the list has two
    records or more and the first two of the sorted list fit. *)
Lemma top_two (ranked : list hypothesis) :
  match top_hypotheses ranked with
  | hyp1 :: hyp2 :: _ =>
      (2 <=? length ranked)%nat = true
      /\ (length ranked <? 2)%nat || forallb combinable (take 2 (top_hypotheses ranked))
         = combinable hyp1 && combinable hyp2
  | _ => (2 <=? length ranked)%nat = false /\ (length ranked <? 2)%nat = true
  end.
Proof.
  pose proof (top_hypotheses_length ranked) as Hlen.
  destruct (top_hypotheses ranked) as [|h1 [|h2 rest]]; cbn [length] in Hlen.
  - split; [apply Nat.leb_gt|apply Nat.ltb_lt]; lia.
  - split; [apply Nat.leb_gt|apply Nat.ltb_lt]; lia.
  - split; [apply Nat.leb_le; lia|].
    rewrite (proj2 (Nat.ltb_ge _ _)) by lia.
    cbn. by rewrite andb_true_r.
Qed.

Lemma process_Ok (ranked : list hypothesis) :
  evolvable ranked = true ->
  process llm ranked
  = Ok (imap (fun i h => individual_variant (llm i) h) (top_hypotheses ranked)
        ++ match top_hypotheses ranked with
           | hyp1 :: hyp2 :: _ =>
               [combination_variant (llm (length (top_hypotheses ranked))) hyp1 hyp2]
           | _ => []
           end).
Proof.
  unfold evolvable. rewrite !andb_true_iff. intros [[Hr Hf] Hc].
  unfold process. rewrite sort_by_rank_spec, Hr. cbn [bind].
  rewrite sorted_length. fold (top_hypotheses ranked).
  rewrite (evolve_each_Ok 0 _ Hf). cbn [bind Nat.add].
  pose proof (top_two ranked) as Ht.
  destruct (top_hypotheses ranked) as [|h1 [|h2 rest]] eqn:Et.
  - done.
  - by rewrite app_nil_r.
  - destruct Ht as [_ Ht]. rewrite Ht in Hc. by rewrite (combine_Ok _ h1 h2 Hc).
Qed.

Lemma process_raises (ranked : list hypothesis) :
  evolvable ranked = false -> exists e, process llm ranked = Raise e.
Proof.
  unfold evolvable. intros Hev.
  unfold process. rewrite sort_by_rank_spec.
  destruct (ranks_ordered ranked); [|by exists TypeError].
  cbn [bind]. rewrite sorted_length. fold (top_hypotheses ranked).
  destruct (forallb refinable (top_hypotheses ranked)) eqn:Hf.
  - rewrite (evolve_each_Ok 0 _ Hf). cbn [bind Nat.add].
    pose proof (top_two ranked) as Ht. cbn [andb] in Hev.
    destruct (top_hypotheses ranked) as [|h1 [|h2 rest]] eqn:Et.
    + destruct Ht as [_ Ht]. by rewrite Ht in Hev.
    + destruct Ht as [_ Ht]. by rewrite Ht in Hev.
    + destruct Ht as [_ Ht]. rewrite Ht in Hev.
      destruct (combine_raises (length (h1 :: h2 :: rest)) h1 h2 Hev) as [e ->].
      by exists e.
  - destruct (evolve_each_raises 0 _ Hf) as [e ->]. by exists e.
Qed.

Lemma process_not_sorted (ranked : list hypothesis) :
  ranks_ordered ranked = false -> process llm ranked = Raise TypeError.
Proof.
  intros Hr. unfold process. by rewrite sort_by_rank_spec, Hr.
Qed.

Lemma count_if_imap_none {A B} (f : B -> bool) (g : nat -> A -> B) (l : list A) :
  (forall i x, f (g i x) = false) -> count_if f (imap g l) = 0%nat.
Proof.
  revert g. induction l as [|x l IH]; intros g Hg; [done|].
  rewrite imap_cons. cbn [count_if]. rewrite Hg.
  rewrite IH; [done|]. intros i y. apply Hg.
Qed.

Lemma individual_not_combination (text : string) (h : hypothesis) :
  is_combination (individual_variant text h) = false.
Proof. unfold is_combination, individual_variant. by rewrite lookup_insert_eq. Qed.

Lemma combination_is_combination (text : string) (hyp1 hyp2 : hypothesis) :
  is_combination (combination_variant text hyp1 hyp2) = true.
Proof.
  unfold is_combination, combination_variant.
  by rewrite lookup_insert_ne, lookup_insert_eq by done.
Qed.
End WithService.
End Evolution.


(** C6, as the code has it.  Take any list of [n] hypothesis records whose
    rank, where there is one, is not a list.  The evolution pass returns
    exactly when the list is [Reference.evolvable]: the ranks can be
    ordered (at most one record, or every rank a number or missing, or
    every rank a text); each of the first [min 3 n] records in rank order
    has the five fields and a review the prompt can take; and, when
    [n >= 2], the first two have a rationale that can be sliced.  When the
    ranks cannot be ordered it raises [TypeError].  When it returns, it has
    sorted the input by rank (stable; records without a rank after every
    number), refined each of the first [min 3 n] records into one
    individual variant, and, when [n >= 2], appended exactly one
    combination variant built from the first two.  The combination carries
    a [parent_hypotheses] list of exactly two entries: the statements of
    the top-1 and top-2 hypotheses.  No record has an id. *)
Theorem evolution_variants (llm : nat -> string) (ranked : list hypothesis) :
  Forall (fun h => Reference.plain_rank h = true) ranked ->
  (Reference.evolvable ranked = true
   <-> exists evolved, EvolutionAgent.process llm ranked = Ok evolved)
  /\ (Reference.ranks_ordered ranked = false ->
      EvolutionAgent.process llm ranked = Raise TypeError)
  /\ forall evolved,
    EvolutionAgent.process llm ranked = Ok evolved ->
    sorted Reference.by_rank ranked ≡ₚ ranked
    /\ (forall a b, Reference.before a b (sorted Reference.by_rank ranked) ->
                    Reference.by_rank b a = false)
    /\ length evolved
       = (min 3 (length ranked) + if (2 <=? length ranked)%nat then 1 else 0)%nat
    /\ (forall i h,
          (i < min 3 (length ranked))%nat ->
          sorted Reference.by_rank ranked !! i = Some h ->
          evolved !! i = Some (Reference.individual_variant (llm i) h)
          /\ Reference.is_combination (Reference.individual_variant (llm i) h) = false)
    /\ Reference.count_if Reference.is_combination evolved
       = (if (2 <=? length ranked)%nat then 1 else 0)%nat
    /\ (forall hyp1 hyp2,
          sorted Reference.by_rank ranked !! 0%nat = Some hyp1 ->
          sorted Reference.by_rank ranked !! 1%nat = Some hyp2 ->
          exists hybrid s1 s2,
            evolved !! min 3 (length ranked) = Some hybrid
            /\ Reference.is_combination hybrid = true
            /\ hyp1 !! "statement" = Some s1
            /\ hyp2 !! "statement" = Some s2
            /\ hybrid !! "parent_hypotheses" = Some (VList [s1; s2])).
Proof.
  intros _.
  assert (Hiff : Reference.evolvable ranked = true
                 <-> exists evolved, EvolutionAgent.process llm ranked = Ok evolved).
  { split.
    - intros H. eexists. by apply process_Ok.
    - intros [evolved He]. destruct (Reference.evolvable ranked) eqn:Hev; [done|].
      destruct (process_raises llm ranked Hev) as [e He']. congruence. }
  split; [exact Hiff|]. split; [apply process_not_sorted|].
  intros evolved He.
  assert (Hev : Reference.evolvable ranked = true) by (apply Hiff; eauto).
  rewrite (process_Ok llm ranked Hev) in He. injection He as <-.
  pose proof (top_hypotheses_length ranked) as Hlen.
  pose proof (top_two ranked) as Htwo.
  unfold Reference.evolvable in Hev. rewrite !andb_true_iff in Hev.
  destruct Hev as [[Hr Hf] Hc].
  split; [apply sorted_Permutation|]. split; [by apply sorted_by_rank_ordered|].
  split; [|split; [|split]].
  - rewrite length_app, length_imap, Hlen.
    destruct (Reference.top_hypotheses ranked) as [|h1 [|h2 rest]];
      destruct Htwo as [Hshape _]; by rewrite Hshape.
  - intros i h Hi Hh. split; [|apply individual_not_combination].
    assert (Ht : Reference.top_hypotheses ranked !! i = Some h).
    { unfold Reference.top_hypotheses. by rewrite lookup_take_lt. }
    rewrite lookup_app_l by (rewrite length_imap, Hlen; lia).
    by rewrite list_lookup_imap, Ht.
  - rewrite count_if_app, count_if_imap_none
      by (intros i x; apply individual_not_combination).
    destruct (Reference.top_hypotheses ranked) as [|h1 [|h2 rest]];
      destruct Htwo as [Hshape _]; rewrite Hshape; try done.
    cbn [Reference.count_if]. by rewrite combination_is_combination.
  - intros hyp1 hyp2 H0 H1.
    assert (Hn : (2 <= length ranked)%nat).
    { apply lookup_lt_Some in H1. by rewrite sorted_length in H1. }
    assert (Ht0 : Reference.top_hypotheses ranked !! 0%nat = Some hyp1).
    { unfold Reference.top_hypotheses. rewrite lookup_take_lt by lia. done. }
    assert (Ht1 : Reference.top_hypotheses ranked !! 1%nat = Some hyp2).
    { unfold Reference.top_hypotheses. rewrite lookup_take_lt by lia. done. }
    rewrite lookup_app_r by (rewrite length_imap, Hlen; lia).
    rewrite length_imap, Hlen, Nat.sub_diag.
    destruct (Reference.top_hypotheses ranked) as [|h1 [|h2 rest]]; try done.
    injection Ht0 as ->. injection Ht1 as ->.
    destruct Htwo as [_ Htwo]. rewrite Htwo in Hc.
    apply andb_true_iff in Hc as [Hc1 Hc2].
    unfold Reference.combinable, Reference.has in Hc1, Hc2.
    destruct (hyp1 !! "statement") as [s1|] eqn:E1; [|done].
    destruct (hyp2 !! "statement") as [s2|] eqn:E2; [|done].
    eexists _, s1, s2. split; [reflexivity|].
    split; [apply combination_is_combination|]. split; [done|]. split; [done|].
    unfold Reference.combination_variant, get. by rewrite lookup_insert_eq, E1, E2.
Qed.

Lemma evolution_variants_witness :
  exists evolved,
    EvolutionAgent.process Examples.steady_service
      [Examples.draft "Naps restore attention." "Sleep pressure." 2;
       Examples.draft "Caffeine shortens reaction time." "Adenosine." 1] = Ok evolved
    /\ length evolved = 3%nat.
Proof.
  destruct (evolution_variants Examples.steady_service
              [Examples.draft "Naps restore attention." "Sleep pressure." 2;
               Examples.draft "Caffeine shortens reaction time." "Adenosine." 1])
    as ((Hok & _) & _ & Hall).
  - apply Forall_cons. split; [vm_compute; reflexivity|].
    apply Forall_cons. split; [vm_compute; reflexivity|]. apply Forall_nil. exact I.
  - destruct Hok as [evolved He]; [vm_compute; reflexivity|].
    exists evolved. split; [exact He|].
    destruct (Hall evolved He) as (_ & _ & Hlen & _). exact Hlen.
Defined.

(** C6 as worded fails: no record carries an id, and what the combination
    keeps of its parents is their statement text, which does not identify
    them.  Here three different records share one statement: the two parent
    entries are equal, and they match the third record as well. *)
Lemma evolution_parents_are_statements :
  exists evolved hybrid,
    EvolutionAgent.process Examples.steady_service
      [Examples.draft "Caffeine helps." "Adenosine." 1;
       Examples.draft "Caffeine helps." "Dopamine." 2;
       Examples.draft "Caffeine helps." "Placebo." 3] = Ok evolved
    /\ evolved !! 3%nat = Some hybrid
    /\ hybrid !! "parent_ids" = None
    /\ hybrid !! "parent_hypotheses" = Some (VList [VStr "Caffeine helps."; VStr "Caffeine helps."])
    /\ Examples.draft "Caffeine helps." "Adenosine." 1
       <> Examples.draft "Caffeine helps." "Dopamine." 2
    /\ Examples.draft "Caffeine helps." "Placebo." 3 !! "statement"
       = Some (VStr "Caffeine helps.")
    /\ Forall (fun r : hypothesis => r !! "id" = None) evolved.
Proof.
  assert (Hfit : Reference.evolvable
                   [Examples.draft "Caffeine helps." "Adenosine." 1;
                    Examples.draft "Caffeine helps." "Dopamine." 2;
                    Examples.draft "Caffeine helps." "Placebo." 3] = true)
    by (vm_compute; reflexivity).
  assert (Htop : Reference.top_hypotheses
                   [Examples.draft "Caffeine helps." "Adenosine." 1;
                    Examples.draft "Caffeine helps." "Dopamine." 2;
                    Examples.draft "Caffeine helps." "Placebo." 3]
                 = [Examples.draft "Caffeine helps." "Adenosine." 1;
                    Examples.draft "Caffeine helps." "Dopamine." 2;
                    Examples.draft "Caffeine helps." "Placebo." 3]).
  { unfold Reference.top_hypotheses. cbn [sorted insert_sorted length].
    assert (E32 : Reference.by_rank (Examples.draft "Caffeine helps." "Placebo." 3)
                    (Examples.draft "Caffeine helps." "Dopamine." 2) = false)
      by (vm_compute; reflexivity).
    assert (E21 : Reference.by_rank (Examples.draft "Caffeine helps." "Dopamine." 2)
                    (Examples.draft "Caffeine helps." "Adenosine." 1) = false)
      by (vm_compute; reflexivity).
    rewrite E32. cbn [insert_sorted]. rewrite E21. reflexivity. }
  eexists _, _. split; [apply (process_Ok _ _ Hfit)|]. rewrite Htop.
  split; [reflexivity|]. cbn [length].
  split.
  { unfold Reference.combination_variant. rewrite !lookup_insert_ne by done.
    vm_compute. reflexivity. }
  split.
  { unfold Reference.combination_variant. rewrite lookup_insert_eq.
    vm_compute. reflexivity. }
  split.
  { intros E.
    assert (F : Examples.draft "Caffeine helps." "Adenosine." 1 !! "rationale"
                = Examples.draft "Caffeine helps." "Dopamine." 2 !! "rationale")
      by (by rewrite E).
    vm_compute in F. discriminate. }
  split; [vm_compute; reflexivity|].
  cbv [imap compose app].
  repeat (apply Forall_cons; split;
          [unfold Reference.individual_variant, Reference.combination_variant;
           rewrite !lookup_insert_ne by done; vm_compute; reflexivity|]).
  apply Forall_nil. exact I.
Qed.

(** * Further properties of the agents *)

(** ** Substrings *)

Section Substrings.
Import PyStr.

Lemma append_nil_r (s : string) : s +:+ "" = s.
Proof.
  induction s as [|c s IH]; [done|].
  change (String c (s +:+ "") = String c s). by rewrite IH.
Qed.

Lemma append_cons (c : ascii) (s t : string) : String c s +:+ t = String c (s +:+ t).
Proof. reflexivity. Qed.

Lemma length_append (s t : string) :
  String.length (s +:+ t) = (String.length s + String.length t)%nat.
Proof.
  induction s as [|c s IH]; [done|].
  rewrite append_cons. simpl. by rewrite IH.
Qed.

Lemma prefix_iff (p s : string) :
  String.prefix p s = true <-> exists b, s = p +:+ b.
Proof.
  revert s. induction p as [|c p IH]; intros s.
  - split; [intros _; by exists s|]. intros _. by destruct s.
  - destruct s as [|d s].
    + split; [done|]. intros [b Hb]. by rewrite append_cons in Hb.
    + simpl. destruct (Ascii.ascii_dec c d) as [->|Hne].
      * rewrite IH. split; intros [b Hb]; exists b.
        -- by rewrite append_cons, Hb.
        -- rewrite append_cons in Hb. by injection Hb.
      * split; [done|]. intros [b Hb]. rewrite append_cons in Hb. by injection Hb.
Qed.

(** [pat in s] holds exactly when [s] is some text, [pat], some text. *)
Lemma contains_iff (p s : string) :
  contains p s = true <-> exists a b, s = a +:+ p +:+ b.
Proof.
  induction s as [|d s IH]; cbn [contains]; rewrite orb_true_iff, prefix_iff.
  - split.
    + intros [[b Hb]|H]; [|done]. by exists "", b.
    + intros (a & b & H). left. destruct a; [by exists b|by rewrite append_cons in H].
  - rewrite IH. split.
    + intros [[b Hb]|(a & b & H)]; [by exists "", b|].
      exists (String d a), b. by rewrite append_cons, H.
    + intros (a & b & H). destruct a as [|c a].
      * left. by exists b.
      * right. exists a, b. rewrite append_cons in H. by injection H.
Qed.

Lemma contains_app_r (p q s : string) :
  contains (p +:+ q) s = true -> contains q s = true.
Proof.
  rewrite !contains_iff. intros (a & b & ->).
  exists (a +:+ p), b. by rewrite !append_assoc.
Qed.

Lemma contains_in_suffix (p pre t : string) :
  contains p t = true -> contains p (pre +:+ t) = true.
Proof.
  rewrite !contains_iff. intros (a & b & ->).
  exists (pre +:+ a), b. by rewrite !append_assoc.
Qed.

Lemma contains_false_count (pat s : string) (skip : nat) :
  contains pat s = false -> count_from pat s skip = 0%nat.
Proof.
  revert skip. induction s as [|c s IH]; intros skip; [done|].
  cbn [contains count_from]. intros [Hp Hs]%orb_false_iff.
  destruct skip; [|by apply IH]. rewrite Hp. by apply IH.
Qed.
End Substrings.

(** ** Splitting at a one-character separator *)

Section SplitJoin.
Import PyStr.

Lemma rev_app_append (s acc : string) : String.rev_app s acc = String.rev s +:+ acc.
Proof.
  revert acc. induction s as [|c s IH]; intros acc; [done|].
  unfold String.rev. cbn [String.rev_app].
  rewrite (IH (String c acc)), (IH (String c "")). by rewrite append_assoc.
Qed.

Lemma rev_cons (c : ascii) (s : string) : String.rev (String c s) = String.rev s +:+ String c "".
Proof. unfold String.rev at 1. cbn [String.rev_app]. apply rev_app_append. Qed.

Lemma length_rev (s : string) : String.length (String.rev s) = String.length s.
Proof.
  induction s as [|c s IH]; [done|].
  rewrite rev_cons, length_append, IH. simpl. lia.
Qed.

Lemma split_from_cons (sep s : string) (skip : nat) (cur : string) :
  exists x l, split_from sep s skip cur = x :: l.
Proof.
  revert skip cur. induction s as [|c s IH]; intros skip cur; [by eexists _, _|].
  cbn [split_from]. destruct skip; [|apply IH].
  destruct (String.prefix sep (String c s)); [by eexists _, _|apply IH].
Qed.

Lemma join_cons (sep x : string) (l : list string) :
  l <> [] -> join sep (x :: l) = x +:+ sep +:+ join sep l.
Proof. by destruct l. Qed.

(** Joining the pieces of a split gives the text back. *)
Lemma join_split_from (c : ascii) (s cur : string) :
  join (String c "") (split_from (String c "") s 0 cur) = String.rev cur +:+ s.
Proof.
  revert cur. induction s as [|d s IH]; intros cur.
  - cbn [split_from join]. by rewrite append_nil_r.
  - cbn [split_from]. cbn [String.prefix String.length Nat.sub].
    destruct (Ascii.ascii_dec c d) as [->|Hne].
    + assert (P : String.prefix "" s = true) by (by destruct s). rewrite P.
      destruct (split_from_cons (String d "") s 0 "") as (x & l & E).
      rewrite join_cons by (by rewrite E). rewrite IH. reflexivity.
    + rewrite IH, rev_cons, append_assoc. reflexivity.
Qed.

Lemma join_split (c : ascii) (s : string) :
  join (String c "") (split s (String c "")) = s.
Proof. unfold split. by rewrite join_split_from. Qed.

Lemma join_drop_suffix (sep : string) (k : nat) (l : list string) :
  exists pre, join sep l = pre +:+ join sep (drop k l).
Proof.
  revert l. induction k as [|k IH]; intros l; [by exists ""|].
  destruct l as [|x l]; [by exists ""|].
  destruct (IH l) as [pre Hpre]. cbn [drop].
  destruct l as [|y l].
  - exists x. rewrite drop_nil. cbn [join]. by rewrite append_nil_r.
  - exists (x +:+ sep +:+ pre). rewrite join_cons by done.
    rewrite Hpre. by rewrite !append_assoc.
Qed.

(** The last sentences of a text are a suffix of the text. *)
Lemma last_sentences_suffix (text : string) :
  exists pre, text = pre +:+ join "." (last_n 3 (split text ".")).
Proof.
  unfold last_n.
  destruct (join_drop_suffix "." (length (split text ".") - 3) (split text ".")) as [pre H].
  exists pre. rewrite <- H. symmetry. apply (join_split "."%char).
Qed.
End SplitJoin.

(** ** Ranking: the winner of a comparison *)

Section Winner.
Import PyStr RankingAgent.

Lemma no_mention_no_pattern (text tail : string) (id : nat) :
  contains "hypothesis" (lower text) = false ->
  contains (("hypothesis " +:+ pretty id) +:+ tail) (lower text) = false.
Proof.
  intros H. apply not_true_iff_false. intros E.
  apply contains_app_l in E.
  change ("hypothesis " +:+ pretty id) with ("hypothesis" +:+ (" " +:+ pretty id)) in E.
  apply contains_app_l in E. congruence.
Qed.
End Winner.

(** X1.  The verdict of a comparison is the first identifier, the second, or
    0 for a tie.  A text that says "hypothesis 1 is superior" (or
    "stronger") is a win for 1 whatever else it says.  A text that never
    mentions the word "hypothesis" is a tie. *)
Theorem determine_winner_verdict (text : string) :
  (RankingAgent._determine_winner text 1 2 = 1%nat
   \/ RankingAgent._determine_winner text 1 2 = 2%nat
   \/ RankingAgent._determine_winner text 1 2 = 0%nat)
  /\ (PyStr.contains "hypothesis 1 is superior" (PyStr.lower text)
      || PyStr.contains "hypothesis 1 is stronger" (PyStr.lower text) = true ->
      RankingAgent._determine_winner text 1 2 = 1%nat)
  /\ (PyStr.contains "hypothesis" (PyStr.lower text) = false ->
      RankingAgent._determine_winner text 1 2 = 0%nat).
Proof.
  split; [apply determine_winner_cases|]. split.
  - intros H. unfold RankingAgent._determine_winner. cbv zeta.
    change (("hypothesis " +:+ pretty 1%nat) +:+ " is superior") with "hypothesis 1 is superior".
    change (("hypothesis " +:+ pretty 1%nat) +:+ " is stronger") with "hypothesis 1 is stronger".
    change ("hypothesis " +:+ pretty 1%nat +:+ " is superior") with "hypothesis 1 is superior".
    change ("hypothesis " +:+ pretty 1%nat +:+ " is stronger") with "hypothesis 1 is stronger".
    by rewrite H.
  - intros H. unfold RankingAgent._determine_winner. cbv zeta.
    rewrite !(no_mention_no_pattern text _ _ H).
    unfold PyStr.count. rewrite !contains_false_count by (by apply no_mention_no_pattern).
    cbn [orb Nat.add Nat.ltb Nat.leb].
    destruct (last_sentences_suffix text) as [pre Hpre].
    set (last := PyStr.join "." (PyStr.last_n 3 (PyStr.split text "."))) in *.
    assert (N : forall id : nat, PyStr.contains ("hypothesis " +:+ pretty id) (PyStr.lower last)
                           = false).
    { intros id. apply not_true_iff_false. intros E.
      change ("hypothesis " +:+ pretty id) with ("hypothesis" +:+ (" " +:+ pretty id)) in E.
      apply contains_app_l in E.
      apply (contains_in_suffix _ (PyStr.lower pre)) in E.
      rewrite <- lower_app, <- Hpre in E. congruence. }
    by rewrite !N.
Qed.

Lemma determine_winner_verdict_witness :
  RankingAgent._determine_winner
    "Hypothesis 2 is superior on novelty, yet overall Hypothesis 1 is superior." 1 2 = 1%nat
  /\ RankingAgent._determine_winner "The service is unavailable." 1 2 = 0%nat.
Proof.
  split.
  - apply (proj1 (proj2 (determine_winner_verdict
      "Hypothesis 2 is superior on novelty, yet overall Hypothesis 1 is superior."))).
    reflexivity.
  - apply (proj2 (proj2 (determine_winner_verdict "The service is unavailable."))).
    reflexivity.
Defined.

(** ** Ranking: more on the pairwise tournament *)

Section TournamentBounds.
Import RankingAgent Reference.
Variable llm : nat -> string.

Lemma sorted_unchanged {A} (lt : A -> A -> bool) (l : list A) :
  (forall a b, lt a b = false) -> sorted lt l = l.
Proof.
  intros H. induction l as [|x l IH]; [done|].
  cbn [sorted]. rewrite IH. destruct l as [|y l]; [done|].
  cbn [insert_sorted]. by rewrite H.
Qed.

Lemma replicate_zero_total (n k : nat) : replicate n 0%nat !!! k = 0%nat.
Proof.
  revert k. induction n as [|n IH]; intros k; [done|].
  destruct k as [|k]; [done|]. apply IH.
Qed.

Lemma all_ties_fold (ps : list (nat * nat)) (t : tournament) :
  (forall k, _determine_winner (llm k) 1 2 = 0%nat) ->
  wins (foldl (compare_pair llm) t ps) = wins t.
Proof.
  intros Hties. revert t. induction ps as [|[i j] ps IH]; intros t; [done|].
  cbn [foldl]. rewrite IH. unfold compare_pair. cbn [wins]. by rewrite Hties.
Qed.

Lemma all_ties_wins (n : nat) :
  (forall k, _determine_winner (llm k) 1 2 = 0%nat) ->
  final_wins llm n = replicate n 0%nat.
Proof. intros H. unfold final_wins, run_tournament. by rewrite all_ties_fold. Qed.

(** A hypothesis cannot have won more comparisons than it took part in. *)
Lemma wins_bounded_fold (n : nat) (ps : list (nat * nat)) (t : tournament) :
  (forall i j, (i, j) ∈ ps -> (i < n)%nat /\ (j < n)%nat) ->
  length (wins t) = n ->
  (forall idx, (wins t !!! idx <= count_if (involves idx) (comparisons t))%nat) ->
  forall idx,
    (wins (foldl (compare_pair llm) t ps) !!! idx
     <= count_if (involves idx) (comparisons (foldl (compare_pair llm) t ps)))%nat.
Proof.
  revert t. induction ps as [|[i j] ps IH]; intros t Hr Hlen Hinv; [done|].
  cbn [foldl]. destruct (Hr i j) as [Hi Hj]; [left|].
  destruct (compare_pair_cases llm t i j) as (Hc & _ & Hw). cbn zeta in Hc, Hw.
  remember (compare_pair llm t (i, j)) as t1 eqn:Et1.
  apply IH.
  - intros i' j' H'. apply Hr. by right.
  - destruct Hw as [[_ Ew]|[[_ Ew]|[_ Ew]]]; rewrite Ew; by rewrite ?length_alter.
  - intros idx. rewrite Hc, count_if_snoc. unfold involves at 2.
    cbn [hypothesis1_idx hypothesis2_idx]. specialize (Hinv idx).
    destruct Hw as [[_ Ew]|[[_ Ew]|[_ Ew]]]; rewrite Ew.
    + destruct (decide (i = idx)) as [->|Hne].
      * rewrite list_lookup_total_alter_eq by lia. rewrite Nat.eqb_refl. simpl. lia.
      * rewrite list_lookup_total_alter_ne by done. lia.
    + destruct (decide (j = idx)) as [->|Hne].
      * rewrite list_lookup_total_alter_eq by lia. rewrite Nat.eqb_refl, orb_true_r. lia.
      * rewrite list_lookup_total_alter_ne by done. lia.
    + lia.
Qed.

Lemma wins_bounded (n idx : nat) :
  (idx < n)%nat -> (final_wins llm n !!! idx <= n - 1)%nat.
Proof.
  intros Hidx. rewrite <- (involved_count llm n idx Hidx), count_if_filter.
  unfold final_wins, run_tournament. apply (wins_bounded_fold n).
  - intros i j H. apply pairs_in_range in H. lia.
  - apply length_replicate.
  - intros k. cbn [wins comparisons count_if]. by rewrite replicate_zero_total.
Qed.
End TournamentBounds.

(** X2.  When no comparison names a winner, the pairwise strategy returns the
    hypotheses in input order: the record at position [i] is the input
    hypothesis [i] with rank [i + 1], no win and [n - 1] comparisons. *)
Theorem pairwise_all_ties_keep_input_order (llm : nat -> string)
    (hypotheses : list hypothesis) :
  (forall k, RankingAgent._determine_winner (llm k) 1 2 = 0%nat) ->
  length (RankingAgent._rank_by_pairwise_comparison llm hypotheses) = length hypotheses
  /\ forall i h,
       hypotheses !! i = Some h ->
       RankingAgent._rank_by_pairwise_comparison llm hypotheses !! i
       = Some (<["total_comparisons" := VInt (Z.of_nat (length hypotheses - 1))]>
               (<["wins" := VInt 0]>
               (<["rank" := VInt (Z.of_nat (i + 1))]> h))).
Proof.
  intros Hties.
  destruct (run_tournament_facts llm (length hypotheses)) as (Hwlen & _).
  assert (Hperm : RankingAgent.ranked_indices (Reference.final_wins llm (length hypotheses))
                  = seq 0 (length hypotheses)).
  { rewrite (all_ties_wins llm _ Hties). unfold RankingAgent.ranked_indices.
    rewrite sorted_unchanged; [by rewrite length_replicate|].
    intros a b. apply Nat.ltb_ge. by rewrite !replicate_zero_total. }
  split.
  { unfold RankingAgent._rank_by_pairwise_comparison. cbn zeta. rewrite length_imap.
    fold (Reference.final_wins llm (length hypotheses)). by rewrite Hperm, length_seq. }
  intros i h Hi.
  assert (Hlt : (i < length hypotheses)%nat) by (by eapply lookup_lt_Some).
  rewrite (rank_by_pairwise_lookup llm hypotheses i i)
    by (rewrite Hperm; by rewrite lookup_seq_lt).
  unfold RankingAgent.ranked_record.
  rewrite (involved_count llm _ i Hlt).
  fold (Reference.final_wins llm (length hypotheses)).
  rewrite (all_ties_wins llm _ Hties), replicate_zero_total.
  by rewrite (list_lookup_total_correct _ _ _ Hi).
Qed.

Lemma pairwise_all_ties_keep_input_order_witness :
  length (RankingAgent._rank_by_pairwise_comparison (fun _ => "No verdict.")
            [{["statement" := VStr "A"]}; {["statement" := VStr "B"]}]) = 2%nat.
Proof.
  apply (pairwise_all_ties_keep_input_order (fun _ => "No verdict.")
           [{["statement" := VStr "A"]}; {["statement" := VStr "B"]}]).
  intros k. reflexivity.
Defined.

(** X3.  No hypothesis is credited with more wins than the [n - 1]
    comparisons it takes part in, and the wins add up to at most the
    n(n-1)/2 comparisons made. *)
Theorem pairwise_wins_bounded (llm : nat -> string) (n idx : nat) :
  (idx < n)%nat ->
  (Reference.final_wins llm n !!! idx <= n - 1)%nat
  /\ (sum_list (Reference.final_wins llm n) <= n * (n - 1) / 2)%nat.
Proof.
  intros Hidx. split; [by apply wins_bounded|].
  destruct (run_tournament_facts llm n) as (_ & Hp & _ & Hsum).
  rewrite Hsum.
  assert (L : (Reference.count_if Reference.decisive
                 (RankingAgent.comparisons (RankingAgent.run_tournament llm n))
               <= length (RankingAgent.comparisons (RankingAgent.run_tournament llm n)))%nat).
  { generalize (RankingAgent.comparisons (RankingAgent.run_tournament llm n)).
    intros l. induction l as [|c l IH]; [done|].
    cbn [Reference.count_if length]. destruct (Reference.decisive c); lia. }
  assert (E : length (RankingAgent.comparisons (RankingAgent.run_tournament llm n))
              = length (RankingAgent.pairs n)).
  { by rewrite <- Hp, length_map. }
  pose proof (pairs_length n) as Hpl.
  assert (Hhalf : length (RankingAgent.pairs n) = (n * (n - 1) / 2)%nat).
  { rewrite <- Hpl. rewrite Nat.mul_comm, Nat.div_mul by done. done. }
  lia.
Qed.

Lemma pairwise_wins_bounded_witness :
  (Reference.final_wins (fun _ => "Hypothesis 1 is superior.") 3 !!! 0%nat <= 2)%nat.
Proof.
  apply (pairwise_wins_bounded (fun _ => "Hypothesis 1 is superior.") 3 0). lia.
Defined.

(** ** Ranking: more on the scoring strategy *)

Section ScoringOrder.
Import RankingAgent Reference Reference2.

Lemma Ok_inj {A} (a b : A) : Ok a = Ok b -> a = b.
Proof. by intros [= ->]. Qed.

Lemma ranks_of_enumerate {A} (f : nat -> A -> hypothesis) (l : list A) (k : nat) :
  (forall r x, f r x !! "rank" = Some (VInt (Z.of_nat (r + k)))) ->
  omap (fun h : hypothesis => h !! "rank") (imap f l)
  = map (fun r => VInt (Z.of_nat r)) (seq k (length l)).
Proof.
  revert f k. induction l as [|x l IH]; intros f k Hf; [done|].
  rewrite imap_cons. cbn [omap list_omap length seq map].
  rewrite (Hf 0%nat x). cbn [Nat.add]. f_equal.
  apply (IH (fun r => f (S r)) (S k)).
  intros r y. rewrite Hf. do 3 f_equal. lia.
Qed.

Lemma ten_shadowed (label : string) :
  label +:+ pretty 10%nat = (label +:+ pretty 1%nat) +:+ "0".
Proof. by rewrite append_assoc. Qed.

Lemma colon_never_ten (evaluation criterion : string) (n : nat) :
  least (colon_occurs evaluation criterion) = Some n -> (1 <= n <= 9)%nat.
Proof.
  intros (Hr & Hn & Hb)%least_Some.
  destruct (decide (n = 10%nat)) as [->|]; [|lia].
  assert (H1 : colon_occurs evaluation criterion 1 = true).
  { unfold colon_occurs, matches, colon_pattern in *.
    rewrite <- append_assoc, ten_shadowed, lower_app in Hn.
    apply contains_app_l in Hn. by rewrite <- append_assoc. }
  rewrite (Hb 1%nat) in H1 by lia. done.
Qed.

Lemma dash_never_ten (evaluation criterion : string) (n : nat) :
  least (dash_occurs evaluation criterion) = Some n -> (1 <= n <= 9)%nat.
Proof.
  intros (Hr & Hn & Hb)%least_Some.
  destruct (decide (n = 10%nat)) as [->|]; [|lia].
  assert (H1 : dash_occurs evaluation criterion 1 = true).
  { unfold dash_occurs, matches, dash_pattern in *.
    rewrite <- append_assoc, ten_shadowed, lower_app in Hn.
    apply contains_app_l in Hn. by rewrite <- append_assoc. }
  rewrite (Hb 1%nat) in H1 by lia. done.
Qed.

Lemma first_score_range (evaluation criterion : string) (n : nat) :
  first_score evaluation criterion = Some n -> (1 <= n <= 9)%nat.
Proof.
  unfold first_score.
  destruct (least (colon_occurs evaluation criterion)) as [m|] eqn:E.
  - intros [= <-]. by eapply colon_never_ten.
  - apply dash_never_ten.
Qed.

Lemma found_scores_range (evaluation : string) (ks : list string) :
  Forall (fun v => (1 <= v <= 9)%Z) (found_scores evaluation ks).
Proof.
  induction ks as [|k ks IH]; [constructor|].
  rewrite found_scores_cons.
  destruct (first_score evaluation k) as [n|] eqn:E; [|done].
  apply Forall_cons. split; [|done]. apply first_score_range in E. lia.
Qed.

Lemma sum_range (l : list Z) :
  Forall (fun v => (1 <= v <= 9)%Z) l ->
  (Z.of_nat (length l) <= foldr Z.add 0 l <= 9 * Z.of_nat (length l))%Z.
Proof. induction 1 as [|v l Hv _ IH]; simpl; lia. Qed.

Lemma mean_range (l : list Z) :
  l <> [] -> Forall (fun v => (1 <= v <= 9)%Z) l -> (1 <= mean l)%Q /\ (mean l <= 9)%Q.
Proof.
  intros Hne Hall. pose proof (sum_range l Hall) as [H1 H2].
  assert (Hlen : (0 < length l)%nat) by (destruct l; [done|simpl; lia]).
  unfold mean, truediv. rewrite Qred_correct. unfold Qle. cbn [Qnum Qden].
  assert (P : Z.pos (Pos.of_nat (length l)) = Z.of_nat (length l)) by lia.
  rewrite P. lia.
Qed.

Section WithService.
Variable llm : nat -> string.

Lemma score_hypothesis_record (idx : nat) (h : hypothesis) :
  sliceable_review h = true ->
  score_hypothesis llm idx h = Ok (scored_record (llm idx) h).
Proof.
  intros Hs. unfold score_hypothesis, scoring_prompt, get.
  rewrite extract_scores_total.
  assert (P : exists v, py_slice_to (default (VStr "No review available") (h !! "review")) 500
                        = Ok v).
  { unfold sliceable_review in Hs.
    destruct (h !! "review") as [[]|]; simpl; try done; eauto. }
  destruct P as [v ->]. reflexivity.
Qed.

Lemma score_all_records (idx : nat) (hypotheses : list hypothesis) :
  Forall (fun h => sliceable_review h = true) hypotheses ->
  score_all llm idx hypotheses
  = Ok (imap (fun i h => scored_record (llm (idx + i)) h) hypotheses).
Proof.
  revert idx. induction hypotheses as [|h hs IH]; intros idx Hall; [done|].
  apply Forall_cons in Hall as [Hh Hall].
  cbn [score_all]. rewrite (score_hypothesis_record idx h Hh), (IH (S idx) Hall).
  cbn [bind]. rewrite imap_cons, Nat.add_0_r.
  apply (f_equal Ok), (f_equal (cons _)).
  apply imap_ext. intros i x _. cbv beta.
  by replace (S idx + i)%nat with (idx + S i)%nat by lia.
Qed.
End WithService.
End ScoringOrder.

(** X4.  No criterion ever receives the score 10, nor 0: whatever the
    evaluation text, every extracted score lies between 1 and 9 and belongs
    to one of the five criteria, because a text that contains "c: 10" also
    contains "c: 1", which is tried first.  The overall score is therefore
    the integer 0 (nothing found) or a number between 1 and 9. *)
Theorem extracted_scores_between_1_and_9 (evaluation : string) :
  exists scores,
    RankingAgent._extract_scores evaluation = Ok scores
    /\ (forall criterion score,
          scores !! criterion = Some score ->
          criterion ∈ RankingAgent.criteria /\ (1 <= score <= 9)%Z)
    /\ (RankingAgent.overall_score scores = VInt 0
        \/ exists q, RankingAgent.overall_score scores = VNum q /\ (1 <= q)%Q /\ (q <= 9)%Q).
Proof.
  exists (Reference.scores_of evaluation ∅ RankingAgent.criteria).
  split; [apply extract_scores_total|]. split.
  - intros criterion score. rewrite scores_of_lookup by apply criteria_NoDup.
    destruct (decide (criterion ∈ RankingAgent.criteria)) as [Hc|Hc];
      [|by rewrite lookup_empty].
    destruct (Reference.first_score evaluation criterion) as [n|] eqn:E;
      [|by rewrite lookup_empty].
    intros [= <-]. split; [done|]. apply first_score_range in E. lia.
  - rewrite overall_score_mean.
    pose proof (found_scores_range evaluation RankingAgent.criteria) as Hall.
    destruct (Reference.found_scores evaluation RankingAgent.criteria) as [|v l] eqn:E;
      [by left|].
    right. eexists. split; [reflexivity|]. by apply mean_range.
Qed.

Lemma extracted_scores_between_1_and_9_witness :
  exists scores,
    RankingAgent._extract_scores "Novelty: 10/10. Testability - 10." = Ok scores
    /\ (forall criterion score,
          scores !! criterion = Some score ->
          criterion ∈ RankingAgent.criteria /\ (1 <= score <= 9)%Z).
Proof.
  destruct (extracted_scores_between_1_and_9 "Novelty: 10/10. Testability - 10.")
    as (scores & H1 & H2 & _).
  exists scores. split; [exact H1|exact H2].
Defined.

(** X5.  When every review can be sliced, the scoring strategy scores the
    hypotheses in input order, one service call each, keeping all their
    fields; it returns them sorted by overall score, highest first, two
    records with the same score keeping their input order; and the ranks of
    the returned list are 1, 2, ..., n. *)
Theorem scoring_ranks_follow_scores (llm : nat -> string) (hypotheses : list hypothesis) :
  Forall (fun h => Reference.sliceable_review h = true) hypotheses ->
  exists scored,
    RankingAgent.score_all llm 0 hypotheses = Ok scored
    /\ (forall i h, hypotheses !! i = Some h ->
                    scored !! i = Some (Reference2.scored_record (llm i) h))
    /\ sorted Reference2.by_score scored ≡ₚ scored
    /\ (forall a b, Reference.before a b (sorted Reference2.by_score scored) ->
                    (RankingAgent.score_key b <= RankingAgent.score_key a)%Q)
    /\ (forall a b, Reference.before a b scored ->
                    (RankingAgent.score_key b <= RankingAgent.score_key a)%Q ->
                    Reference.before a b (sorted Reference2.by_score scored))
    /\ RankingAgent._rank_by_scoring llm hypotheses
       = Ok (imap (fun rank h => <["rank" := VInt (Z.of_nat (rank + 1))]> h)
                  (sorted Reference2.by_score scored))
    /\ (forall ranked,
          RankingAgent._rank_by_scoring llm hypotheses = Ok ranked ->
          omap (fun h : hypothesis => h !! "rank") ranked
          = map (fun r => VInt (Z.of_nat r)) (seq 1 (length hypotheses))).
Proof.
  intros Hall. eexists. split; [by apply score_all_records|].
  split; [|split; [|split; [|split; [|split]]]].
  - intros i h Hi. by rewrite list_lookup_imap, Hi.
  - apply sorted_Permutation.
  - intros a b Hab.
    apply (sorted_ordered Reference2.by_score) in Hab.
    + unfold Reference2.by_score, Qltb in Hab. apply negb_false_iff in Hab.
      by apply Qle_bool_iff.
    + intros x y. apply Qltb_asym.
    + intros x y z H1 H2. unfold Reference2.by_score in *.
      by apply (Qltb_trans _ (RankingAgent.score_key y)).
  - intros a b Hab Hle. apply sorted_stable; [done|].
    unfold Reference2.by_score, Qltb. apply negb_false_iff. by apply Qle_bool_iff.
  - unfold RankingAgent._rank_by_scoring. by rewrite score_all_records.
  - intros ranked. unfold RankingAgent._rank_by_scoring. rewrite score_all_records by done.
    cbn [bind]. intros E. apply Ok_inj in E. rewrite <- E.
    rewrite (ranks_of_enumerate _ _ 1%nat).
    + by rewrite sorted_length, length_imap.
    + intros r idx. by rewrite lookup_insert_eq.
Qed.

Lemma scoring_ranks_follow_scores_witness :
  exists scored,
    RankingAgent.score_all (fun _ => "Novelty: 4. Relevance: 6.") 0
      [{["statement" := VStr "A"]}; {["statement" := VStr "B"]}] = Ok scored
    /\ sorted Reference2.by_score scored ≡ₚ scored.
Proof.
  destruct (scoring_ranks_follow_scores (fun _ => "Novelty: 4. Relevance: 6.")
              [{["statement" := VStr "A"]}; {["statement" := VStr "B"]}])
    as (scored & H1 & _ & H3 & _).
  - repeat constructor.
  - exists scored. split; [exact H1|exact H3].
Defined.

(** ** Proximity: the score and the filter *)

Section ProximityScore.
Import PyStr ProximityAgent Reference Reference2.

Lemma template_never_ten (label evaluation : string) (n : nat) :
  first_match evaluation (fun i => label +:+ pretty i) = Some n -> (1 <= n <= 9)%nat.
Proof.
  unfold first_match.
  intros (Hr & Hn & Hb)%(least_Some
    (fun i => contains (lower (label +:+ pretty i)) (lower evaluation))).
  destruct (decide (n = 10%nat)) as [->|]; [|lia].
  rewrite ten_shadowed, lower_app in Hn. apply contains_app_l in Hn.
  rewrite (Hb 1%nat) in Hn by lia. done.
Qed.

Lemma scan_patterns_deciding (evaluation : string) :
  scan_patterns evaluation score_patterns 5 = deciding_score evaluation.
Proof.
  unfold scan_patterns, score_patterns, deciding_score. cbn [foldl].
  repeat match goal with
         | |- context [first_match evaluation ?t] => destruct (first_match evaluation t)
         end; reflexivity.
Qed.

Lemma deciding_score_range (evaluation : string) :
  deciding_score evaluation = 5%Q
  \/ exists i, (1 <= i <= 9)%nat /\ deciding_score evaluation = inject_Z (Z.of_nat i).
Proof.
  unfold deciding_score.
  destruct (first_match evaluation (fun i => "overall score: " +:+ pretty i)) as [i|] eqn:E4.
  { right. exists i. split; [by eapply template_never_ten|done]. }
  destruct (first_match evaluation (fun i => "proximity score: " +:+ pretty i))
    as [i|] eqn:E3.
  { right. exists i. split; [by eapply template_never_ten|done]. }
  destruct (first_match evaluation (fun i => "overall proximity score of " +:+ pretty i))
    as [i|] eqn:E2.
  { right. exists i. split; [by eapply template_never_ten|done]. }
  destruct (first_match evaluation (fun i => "overall proximity score: " +:+ pretty i))
    as [i|] eqn:E1.
  { right. exists i. split; [by eapply template_never_ten|done]. }
  by left.
Qed.

Section WithService.
Variable llm : nat -> string.

Lemma evaluate_all_aborts (idx : nat) (pre post : list hypothesis) (h : hypothesis)
    (e : error) :
  Forall (fun h => fit_for_proximity h = true) pre ->
  proximity_prompt h = Raise e ->
  evaluate_all llm idx (pre ++ h :: post) = Raise e.
Proof.
  revert idx. induction pre as [|p pre IH]; intros idx Hpre Hh.
  - cbn [app evaluate_all]. unfold evaluate. by rewrite Hh.
  - apply Forall_cons in Hpre as [Hp Hpre].
    cbn [app evaluate_all]. rewrite (evaluate_Ok llm idx p Hp). cbn [bind].
    by rewrite (IH (S idx) Hpre Hh).
Qed.
End WithService.

Lemma score_at_least_mono (t1 t2 : Q) (h : hypothesis) :
  (t1 <= t2)%Q -> score_at_least t2 h = true -> score_at_least t1 h = true.
Proof.
  unfold score_at_least. intros Ht.
  destruct (as_number (get h "proximity_score" (VInt 0))) as [s|]; [|done].
  rewrite !Qle_bool_iff. intros H. by apply (Qle_trans _ t2).
Qed.

Lemma list_filter_filter {A} (f g : A -> bool) (l : list A) :
  (forall x, g x = true -> f x = true) ->
  List.filter g (List.filter f l) = List.filter g l.
Proof.
  intros H. induction l as [|x l IH]; [done|]. cbn [List.filter].
  destruct (f x) eqn:Ef.
  - cbn [List.filter]. by rewrite IH.
  - rewrite IH. destruct (g x) eqn:Eg; [|done]. rewrite (H x Eg) in Ef. done.
Qed.

Lemma Forall_list_filter {A} (P : A -> Prop) (f : A -> bool) (l : list A) :
  Forall P l -> Forall P (List.filter f l).
Proof.
  induction 1 as [|x l Hx _ IH]; [constructor|]. cbn [List.filter].
  destruct (f x); [by apply Forall_cons|done].
Qed.

Lemma filter_relevant_aborts (pre post : list hypothesis) (r : hypothesis) (threshold : Q) :
  Forall (fun r => is_Some (as_number (get r "proximity_score" (VInt 0)))) pre ->
  as_number (get r "proximity_score" (VInt 0)) = None ->
  filter_relevant_hypotheses (pre ++ r :: post) threshold = Raise TypeError.
Proof.
  intros Hpre Hr. induction Hpre as [|p pre [s Hp] _ IH].
  - cbn [app filter_relevant_hypotheses]. unfold passes. by rewrite Hr.
  - cbn [app filter_relevant_hypotheses]. unfold passes at 1. rewrite Hp. cbn [bind].
    by rewrite IH.
Qed.
End ProximityScore.

(** X6.  The proximity score is decided by the last template of the list
    that occurs in the text ("overall score: n" before "proximity score: n"
    before "overall proximity score of n" before "overall proximity score:
    n"), because the [break] leaves the inner loop only; it is 5 when no
    template occurs, and otherwise an integer between 1 and 9, never 10. *)
Theorem proximity_score_last_template_wins (evaluation : string) :
  fst (ProximityAgent._extract_proximity_info evaluation) = Reference2.deciding_score evaluation
  /\ (fst (ProximityAgent._extract_proximity_info evaluation) = 5%Q
      \/ exists i, (1 <= i <= 9)%nat
                   /\ fst (ProximityAgent._extract_proximity_info evaluation)
                      = inject_Z (Z.of_nat i)).
Proof.
  assert (E : fst (ProximityAgent._extract_proximity_info evaluation)
              = Reference2.deciding_score evaluation).
  { unfold ProximityAgent._extract_proximity_info. cbn [fst].
    apply scan_patterns_deciding. }
  split; [exact E|]. rewrite E. apply deciding_score_range.
Qed.

(** X7.  Proximity evaluation stops at the first hypothesis it cannot build
    a prompt for and returns nothing, not even the records evaluated before
    it: a missing statement raises [KeyError('statement')], a rationale that
    is [None] raises [TypeError]. *)
Theorem proximity_process_aborts (llm : nat -> string) (pre post : list hypothesis)
    (h : hypothesis) :
  Forall (fun h => Reference.fit_for_proximity h = true) pre ->
  (h !! "statement" = None ->
   ProximityAgent.process llm (pre ++ h :: post) = Raise (KeyError "statement"))
  /\ (is_Some (h !! "statement") -> h !! "rationale" = Some VNone ->
      ProximityAgent.process llm (pre ++ h :: post) = Raise TypeError).
Proof.
  intros Hpre. split.
  - intros Hs. apply evaluate_all_aborts; [done|].
    unfold ProximityAgent.proximity_prompt, getitem. by rewrite Hs.
  - intros [v Hs] Hr. apply evaluate_all_aborts; [done|].
    unfold ProximityAgent.proximity_prompt, getitem, get. by rewrite Hs, Hr.
Qed.

Lemma proximity_process_aborts_witness :
  ProximityAgent.process (fun _ => "Overall score: 9.")
    ([{["statement" := VStr "Caffeine shortens reaction time."]}]
     ++ {["hypothesis" := VStr "Naps restore attention."]} :: [])
  = Raise (KeyError "statement").
Proof.
  apply (proj1 (proximity_process_aborts (fun _ => "Overall score: 9.")
                  [{["statement" := VStr "Caffeine shortens reaction time."]}] []
                  {["hypothesis" := VStr "Naps restore attention."]}
                  ltac:(repeat constructor))).
  reflexivity.
Defined.

(** X8.  On records whose score is a number, filtering is monotone and
    composes: raising the threshold keeps a sub-list of what the lower
    threshold keeps, filtering the kept records again at the higher
    threshold gives the same list as filtering the input at it, and
    filtering twice at one threshold changes nothing. *)
Theorem filter_relevant_composes (evaluated : list hypothesis) (t1 t2 : Q) :
  Forall (fun r => is_Some (as_number (get r "proximity_score" (VInt 0)))) evaluated ->
  (t1 <= t2)%Q ->
  exists kept1 kept2,
    ProximityAgent.filter_relevant_hypotheses evaluated t1 = Ok kept1
    /\ ProximityAgent.filter_relevant_hypotheses evaluated t2 = Ok kept2
    /\ ProximityAgent.filter_relevant_hypotheses kept1 t2 = Ok kept2
    /\ ProximityAgent.filter_relevant_hypotheses kept1 t1 = Ok kept1
    /\ sublist kept2 kept1 /\ sublist kept1 evaluated.
Proof.
  intros Hnum Ht.
  exists (List.filter (Reference.score_at_least t1) evaluated),
         (List.filter (Reference.score_at_least t2) evaluated).
  pose proof (Forall_list_filter _ (Reference.score_at_least t1) _ Hnum) as Hnum1.
  split; [by apply filter_relevant_numeric|].
  split; [by apply filter_relevant_numeric|]. split.
  { rewrite filter_relevant_numeric by done. f_equal.
    apply list_filter_filter. intros x. by apply score_at_least_mono. }
  split.
  { rewrite filter_relevant_numeric by done. f_equal. by apply list_filter_filter. }
  split; [|apply list_filter_sublist].
  rewrite <- (list_filter_filter (Reference.score_at_least t1) (Reference.score_at_least t2))
    by (intros x; by apply score_at_least_mono).
  apply list_filter_sublist.
Qed.

Lemma filter_relevant_composes_witness :
  exists kept1 kept2,
    ProximityAgent.filter_relevant_hypotheses
      [{["proximity_score" := VNum 7]}; {["proximity_score" := VNum 3]}] 5 = Ok kept1
    /\ ProximityAgent.filter_relevant_hypotheses
         [{["proximity_score" := VNum 7]}; {["proximity_score" := VNum 3]}] 8 = Ok kept2
    /\ ProximityAgent.filter_relevant_hypotheses kept1 8 = Ok kept2.
Proof.
  destruct (filter_relevant_composes
              [{["proximity_score" := VNum 7]}; {["proximity_score" := VNum 3]}] 5 8)
    as (k1 & k2 & H1 & H2 & H3 & _).
  - repeat constructor; by eexists.
  - unfold Qle. simpl. lia.
  - exists k1, k2. split; [exact H1|]. split; [exact H2|exact H3].
Defined.

(** X9.  The filter raises [TypeError] at the first record whose
    [proximity_score] is not a number (for instance [None] or a string),
    whatever the later records hold, and a record without the key is
    compared as score 0: it is kept exactly when the threshold is at most
    0. *)
Theorem filter_relevant_edge_cases (pre post : list hypothesis) (r : hypothesis)
    (threshold : Q) :
  Forall (fun r => is_Some (as_number (get r "proximity_score" (VInt 0)))) pre ->
  (as_number (get r "proximity_score" (VInt 0)) = None ->
   ProximityAgent.filter_relevant_hypotheses (pre ++ r :: post) threshold = Raise TypeError)
  /\ (r !! "proximity_score" = None ->
      ProximityAgent.passes threshold r = Ok (Qle_bool threshold 0)).
Proof.
  intros Hpre. split.
  - intros Hr. by apply filter_relevant_aborts.
  - intros Hr. unfold ProximityAgent.passes, get. by rewrite Hr.
Qed.

Lemma filter_relevant_edge_cases_witness :
  ProximityAgent.filter_relevant_hypotheses
    ([{["proximity_score" := VNum 7]}] ++ {["proximity_score" := VNone]} :: []) 5
  = Raise TypeError.
Proof.
  apply (proj1 (filter_relevant_edge_cases [{["proximity_score" := VNum 7]}] []
                  {["proximity_score" := VNone]} 5
                  ltac:(repeat constructor; by eexists))).
  reflexivity.
Defined.

(** ** The records of the generation parser *)

Ltac in_list := repeat first [apply list_elem_of_here | apply list_elem_of_further].

Section GenerationRecords.
Import PyStr GenerationAgent Reference Reference2.

Lemma text_record_empty (keys : list string) : text_record keys ∅.
Proof. intros k v. by rewrite lookup_empty. Qed.

Lemma text_record_insert (keys : list string) (h : hypothesis) (k s : string) :
  k ∈ keys -> text_record keys h -> text_record keys (<[k := VStr s]> h).
Proof.
  intros Hk Hh k' v. destruct (decide (k' = k)) as [->|Hne].
  - rewrite lookup_insert_eq. intros [= <-]. split; [done|by eexists].
  - rewrite lookup_insert_ne by done. apply Hh.
Qed.

Lemma new_hypothesis_text (section : string) :
  text_record generation_keys (new_hypothesis section).
Proof.
  unfold new_hypothesis, generation_keys.
  repeat (apply text_record_insert;
          [in_list|]).
  apply text_record_empty.
Qed.

Lemma truthy_insert (d : hypothesis) (k : string) (v : value) :
  truthy (<[k := v]> d) = true.
Proof.
  unfold truthy. apply negb_true_iff, Nat.eqb_neq.
  intros H%map_size_empty_iff. by apply insert_non_empty in H.
Qed.

Lemma truthy_non_empty (d : hypothesis) : truthy d = true -> d <> ∅.
Proof. intros H ->. unfold truthy in H. by rewrite map_size_empty in H. Qed.

Lemma parse_section_records (p : parser) (section : string) :
  Forall (text_record generation_keys) (hypotheses p) ->
  Forall (fun h => h <> ∅) (hypotheses p) ->
  text_record generation_keys (current_hypothesis p) ->
  Forall (text_record generation_keys) (hypotheses (parse_section p section))
  /\ Forall (fun h => h <> ∅) (hypotheses (parse_section p section))
  /\ text_record generation_keys (current_hypothesis (parse_section p section)).
Proof.
  intros Ht Hn Hc. unfold parse_section.
  destruct (contains "Hypothesis" section
            && negb (has_key (current_hypothesis p) "hypothesis")).
  { cbn [hypotheses current_hypothesis]. split; [|split; [|apply new_hypothesis_text]].
    - destruct (truthy (current_hypothesis p)); [|done].
      apply Forall_app. split; [done|]. by apply Forall_singleton.
    - destruct (truthy (current_hypothesis p)) eqn:E; [|done].
      apply Forall_app. split; [done|]. apply Forall_singleton. by apply truthy_non_empty. }
  repeat match goal with
         | |- context [if ?c then _ else _] => destruct c
         end;
    cbn [hypotheses current_hypothesis]; (split; [done|split; [done|]]); try done;
    (apply text_record_insert; [|done]); unfold generation_keys;
    in_list.
Qed.

Lemma parse_sections_records (sections : list string) (p : parser) :
  Forall (text_record generation_keys) (hypotheses p) ->
  Forall (fun h => h <> ∅) (hypotheses p) ->
  text_record generation_keys (current_hypothesis p) ->
  Forall (text_record generation_keys) (hypotheses (foldl parse_section p sections))
  /\ Forall (fun h => h <> ∅) (hypotheses (foldl parse_section p sections))
  /\ text_record generation_keys (current_hypothesis (foldl parse_section p sections)).
Proof.
  revert p. induction sections as [|s sections IH]; intros p Ht Hn Hc; [done|].
  cbn [foldl]. destruct (parse_section_records p s Ht Hn Hc) as (H1 & H2 & H3).
  by apply IH.
Qed.

Lemma parse_hypotheses_records (response : string) :
  Forall (text_record generation_keys) (_parse_hypotheses response)
  /\ Forall (fun h => h <> ∅) (_parse_hypotheses response).
Proof.
  unfold _parse_hypotheses.
  destruct (parse_sections_records (split response blank_line)
              {| hypotheses := []; current_hypothesis := ∅ |})
    as (H1 & H2 & H3); [constructor|constructor|apply text_record_empty|].
  destruct (truthy _) eqn:E; [|done]. split.
  - apply Forall_app. split; [done|]. by apply Forall_singleton.
  - apply Forall_app. split; [done|]. apply Forall_singleton. by apply truthy_non_empty.
Qed.

Lemma parse_section_quiet (p : parser) (section : string) :
  mentions_keyword section = false -> parse_section p section = p.
Proof.
  unfold mentions_keyword. rewrite !orb_false_iff.
  intros (((((H1 & H2) & H3) & H4) & H5) & H6).
  unfold parse_section. by rewrite H1, H2, H3, H4, H5, H6.
Qed.

Lemma parse_section_truthy (p : parser) (section : string) :
  truthy (current_hypothesis p) = true \/ mentions_keyword section = true ->
  truthy (current_hypothesis (parse_section p section)) = true.
Proof.
  intros H. unfold parse_section, mentions_keyword in *.
  destruct (has_key (current_hypothesis p) "hypothesis") eqn:Ek.
  - rewrite andb_false_r.
    repeat match goal with
           | |- context [if ?c then _ else _] => destruct c
           end; cbn [current_hypothesis]; try apply truthy_insert.
    by apply (has_key_truthy _ "hypothesis").
  - destruct (contains "Hypothesis" section);
      [cbn [andb negb current_hypothesis]; apply truthy_insert|].
    destruct (contains "Rationale" section);
      [cbn [andb negb current_hypothesis]; apply truthy_insert|].
    destruct (contains "Evidence" section);
      [cbn [andb negb current_hypothesis]; apply truthy_insert|].
    destruct (contains "Assumptions" section);
      [cbn [andb negb current_hypothesis]; apply truthy_insert|].
    destruct (contains "Validation" section);
      [cbn [andb negb orb current_hypothesis]; apply truthy_insert|].
    destruct (contains "Testing" section);
      [cbn [andb negb orb current_hypothesis]; apply truthy_insert|].
    cbn [andb orb]. by destruct H as [H|H].
Qed.

Lemma parse_sections_truthy (sections : list string) (p : parser) :
  truthy (current_hypothesis p) = true
  \/ Exists (fun s => mentions_keyword s = true) sections ->
  truthy (current_hypothesis (foldl parse_section p sections)) = true.
Proof.
  revert p. induction sections as [|s sections IH]; intros p H; cbn [foldl].
  - destruct H as [H|H]; [done|]. by apply Exists_nil in H.
  - apply IH. destruct H as [H|H].
    + left. apply parse_section_truthy. by left.
    + apply Exists_cons in H as [H|H]; [|by right].
      left. apply parse_section_truthy. by right.
Qed.

Lemma parse_sections_quiet (sections : list string) (p : parser) :
  Forall (fun s => mentions_keyword s = false) sections ->
  foldl parse_section p sections = p.
Proof.
  induction 1 as [|s sections Hs _ IH]; [done|].
  cbn [foldl]. by rewrite (parse_section_quiet p s Hs).
Qed.
End GenerationRecords.

(** X10.  Every record the generation parser returns is non-empty, has
    keys among 'hypothesis', 'rationale', 'evidence', 'assumptions' and
    'validation' only, and holds text under each of them; the parser returns
    no record exactly when no section of the response contains one of the
    case-sensitive words "Hypothesis", "Rationale", "Evidence",
    "Assumptions", "Validation", "Testing". *)
Theorem generation_records_are_text (response : string) :
  Forall (Reference2.text_record Reference2.generation_keys)
         (GenerationAgent._parse_hypotheses response)
  /\ Forall (fun h => h <> ∅) (GenerationAgent._parse_hypotheses response)
  /\ (GenerationAgent._parse_hypotheses response = []
      <-> Forall (fun s => Reference2.mentions_keyword s = false)
                 (PyStr.split response blank_line)).
Proof.
  destruct (parse_hypotheses_records response) as [H1 H2].
  split; [done|]. split; [done|]. clear H1 H2.
  unfold GenerationAgent._parse_hypotheses. split.
  - intros H. apply Forall_forall. intros s Hs.
    destruct (Reference2.mentions_keyword s) eqn:E; [|done].
    rewrite (parse_sections_truthy (PyStr.split response blank_line)) in H.
    + by destruct (GenerationAgent.hypotheses _).
    + right. apply Exists_exists. by exists s.
  - intros H. by rewrite (parse_sections_quiet _ _ H).
Qed.

Lemma generation_records_are_text_witness :
  GenerationAgent._parse_hypotheses "hypothesis 1: naps restore attention." = [].
Proof.
  apply (proj2 (proj2 (generation_records_are_text "hypothesis 1: naps restore attention."))).
  assert (E : PyStr.split "hypothesis 1: naps restore attention." blank_line
              = ["hypothesis 1: naps restore attention."]) by (vm_compute; reflexivity).
  rewrite E. apply Forall_singleton. vm_compute. reflexivity.
Defined.

(** ** The evolution parser *)

Section EvolvedParser.
Import PyStr EvolutionAgent Reference2.

Lemma lookup_foldl_delete (keys : list string) (m : hypothesis) (k : string) :
  foldl (fun h key => delete key h) m keys !! k
  = if decide (k ∈ keys) then None else m !! k.
Proof.
  revert m. induction keys as [|key keys IH]; intros m; cbn [foldl].
  - rewrite decide_False; [done|]. apply not_elem_of_nil.
  - rewrite IH. destruct (decide (k ∈ keys)) as [Hin|Hin].
    + rewrite decide_True; [done|]. by right.
    + destruct (decide (k = key)) as [->|Hne].
      * rewrite lookup_delete_eq, decide_True; [done|by left].
      * rewrite lookup_delete_ne by done. rewrite decide_False; [done|].
        rewrite elem_of_cons. by intros [?|?].
Qed.

Lemma parse_section_other (h : hypothesis) (section k : string) :
  k ∉ evolved_fields -> parse_section h section !! k = h !! k.
Proof.
  intros Hk. unfold parse_section.
  repeat match goal with
         | |- context [if ?c then _ else _] => destruct c
         end; try done;
    (rewrite lookup_insert_ne; [done|]); intros <-; apply Hk; unfold evolved_fields; in_list.
Qed.

Lemma parse_section_text (h : hypothesis) (section f : string) :
  (exists s, h !! f = Some (VStr s)) ->
  exists s, parse_section h section !! f = Some (VStr s).
Proof.
  intros Hs. unfold parse_section.
  repeat match goal with
         | |- context [if ?c then _ else _] => destruct c
         end; try done;
    match goal with
    | |- context [<[?key := _]> _] =>
        destruct (decide (f = key)) as [->|Hne];
        [rewrite lookup_insert_eq; by eexists|by rewrite lookup_insert_ne]
    end.
Qed.

Lemma parse_section_unnamed (h : hypothesis) (section f : string) :
  names_field f section = false -> parse_section h section !! f = h !! f.
Proof.
  unfold names_field, parse_section. intros Hf.
  repeat match goal with
         | |- context [if ?c then _ else _] => destruct c eqn:?
         end; try done;
    match goal with
    | |- context [<[?key := _]> _] =>
        destruct (decide (f = key)) as [->|Hne];
        [congruence|by rewrite lookup_insert_ne]
    end.
Qed.

Lemma parse_sections_other (sections : list string) (h : hypothesis) (k : string) :
  k ∉ evolved_fields -> foldl parse_section h sections !! k = h !! k.
Proof.
  intros Hk. revert h. induction sections as [|s sections IH]; intros h; [done|].
  cbn [foldl]. by rewrite IH, parse_section_other.
Qed.

Lemma parse_sections_text (sections : list string) (h : hypothesis) (f : string) :
  (exists s, h !! f = Some (VStr s)) ->
  exists s, foldl parse_section h sections !! f = Some (VStr s).
Proof.
  revert h. induction sections as [|s sections IH]; intros h Hs; [done|].
  cbn [foldl]. by apply IH, parse_section_text.
Qed.

Lemma parse_sections_unnamed (sections : list string) (h : hypothesis) (f : string) :
  Forall (fun section => names_field f section = false) sections ->
  foldl parse_section h sections !! f = h !! f.
Proof.
  intros Hall. revert h. induction Hall as [|s sections Hs _ IH]; intros h; [done|].
  cbn [foldl]. by rewrite IH, parse_section_unnamed.
Qed.

Lemma blank_field (evolution_text f : string) :
  f ∈ evolved_fields -> blank_hypothesis evolution_text !! f = Some (VStr "").
Proof.
  unfold evolved_fields, blank_hypothesis. rewrite !elem_of_cons, elem_of_nil.
  intros [->|[->|[->|[->|[->|[]]]]]];
    repeat first [by rewrite lookup_insert_eq | rewrite lookup_insert_ne by done].
Qed.

Lemma blank_text (evolution_text : string) :
  blank_hypothesis evolution_text !! "evolution_text" = Some (VStr evolution_text).
Proof.
  unfold blank_hypothesis.
  repeat first [by rewrite lookup_insert_eq | rewrite lookup_insert_ne by done].
Qed.

Lemma blank_other (evolution_text k : string) :
  k ∉ evolved_fields -> k <> "evolution_text" -> blank_hypothesis evolution_text !! k = None.
Proof.
  unfold evolved_fields, blank_hypothesis. rewrite !not_elem_of_cons.
  intros (? & ? & ? & ? & ? & _) ?.
  by rewrite !lookup_insert_ne, lookup_empty by done.
Qed.

Lemma not_scoring_key (k : string) :
  k ∈ evolved_fields \/ k = "evolution_text" -> k ∉ scoring_keys.
Proof.
  unfold evolved_fields, scoring_keys. intros H Hin.
  rewrite !elem_of_cons, elem_of_nil in H. rewrite !elem_of_cons, elem_of_nil in Hin.
  destruct H as [[->|[->|[->|[->|[->|[]]]]]]| ->];
    destruct Hin as [?|[?|[?|[?|[?|[?|[?|[]]]]]]]]; done.
Qed.

Lemma text_not_field : "evolution_text" ∉ evolved_fields.
Proof.
  unfold evolved_fields. rewrite !not_elem_of_cons.
  repeat split; try done. apply not_elem_of_nil.
Qed.

Lemma scoring_key_not_field (k : string) :
  k ∈ scoring_keys -> (k ∉ evolved_fields) /\ k <> "evolution_text".
Proof.
  intros Hk. split.
  - intros Hf. by apply (not_scoring_key k); [left|].
  - intros ->. by apply (not_scoring_key "evolution_text"); [right|].
Qed.

(** The record the section loop starts from. *)
Lemma start_lookup (evolution_text : string) (original : option hypothesis) (k : string) :
  (match original with
   | Some o =>
       if (size o =? 0)%nat then blank_hypothesis evolution_text
       else foldl (fun h key => delete key h) (blank_hypothesis evolution_text ∪ o)
                  scoring_keys
   | None => blank_hypothesis evolution_text
   end) !! k
  = if decide (k ∈ scoring_keys) then None
    else match blank_hypothesis evolution_text !! k with
         | Some v => Some v
         | None => original ≫= (.!! k)
         end.
Proof.
  assert (Hblank : k ∈ scoring_keys -> blank_hypothesis evolution_text !! k = None).
  { intros [H1 H2]%scoring_key_not_field. by apply blank_other. }
  destruct original as [o|]; cbn [mbind option_bind].
  - destruct (Nat.eqb_spec (size o) 0) as [E|E].
    + apply map_size_empty_iff in E as ->. rewrite lookup_empty.
      destruct (decide (k ∈ scoring_keys)) as [Hk|Hk]; [by apply Hblank|].
      by destruct (blank_hypothesis evolution_text !! k).
    + rewrite lookup_foldl_delete. destruct (decide (k ∈ scoring_keys)); [done|].
      rewrite lookup_union. destruct (blank_hypothesis evolution_text !! k) eqn:Eb.
      * by destruct (o !! k).
      * by destruct (o !! k).
  - destruct (decide (k ∈ scoring_keys)) as [Hk|Hk]; [by apply Hblank|].
    by destruct (blank_hypothesis evolution_text !! k).
Qed.
End EvolvedParser.

(** X11.  Whatever the response and the original record, the parsed
    evolution has the five fields, all text, and the response itself under
    'evolution_text'; it has none of the review and scoring keys ('review',
    'assessment_summary', 'rank', 'scores', 'evaluation', 'overall_score',
    'wins'); every other key of the original is inherited unchanged.  The
    values the original has for the five fields are never inherited: a
    field that no section of the response names is the empty text. *)
Theorem parsed_evolution_fields (evolution_text : string) (original : option hypothesis) :
  (forall f, f ∈ Reference2.evolved_fields ->
     exists s, EvolutionAgent._parse_evolved_hypothesis evolution_text original !! f
               = Some (VStr s))
  /\ EvolutionAgent._parse_evolved_hypothesis evolution_text original !! "evolution_text"
     = Some (VStr evolution_text)
  /\ (forall k, k ∈ EvolutionAgent.scoring_keys ->
        EvolutionAgent._parse_evolved_hypothesis evolution_text original !! k = None)
  /\ (forall o k, original = Some o ->
        k ∉ Reference2.evolved_fields -> k <> "evolution_text" ->
        k ∉ EvolutionAgent.scoring_keys ->
        EvolutionAgent._parse_evolved_hypothesis evolution_text original !! k = o !! k)
  /\ (forall f, f ∈ Reference2.evolved_fields ->
        Forall (fun section => Reference2.names_field f section = false)
               (PyStr.split evolution_text blank_line) ->
        EvolutionAgent._parse_evolved_hypothesis evolution_text original !! f
        = Some (VStr "")).
Proof.
  unfold EvolutionAgent._parse_evolved_hypothesis. cbv zeta.
  split; [|split; [|split; [|split]]].
  - intros f Hf. apply parse_sections_text. exists "".
    rewrite start_lookup, decide_False by (apply not_scoring_key; by left).
    by rewrite (blank_field _ f Hf).
  - rewrite parse_sections_other by apply text_not_field.
    rewrite start_lookup, decide_False by (apply not_scoring_key; by right).
    by rewrite blank_text.
  - intros k Hk. destruct (scoring_key_not_field k Hk) as [H1 H2].
    rewrite parse_sections_other by done.
    by rewrite start_lookup, decide_True.
  - intros o k E H1 H2 H3. rewrite parse_sections_other by done.
    rewrite start_lookup, decide_False by done.
    rewrite blank_other by done. by rewrite E.
  - intros f Hf Hall. rewrite parse_sections_unnamed by done.
    rewrite start_lookup, decide_False by (apply not_scoring_key; by left).
    by rewrite (blank_field _ f Hf).
Qed.

Lemma parsed_evolution_fields_witness :
  EvolutionAgent._parse_evolved_hypothesis "Rationale: a sharper argument."
    (Some (<["statement" := VStr "Naps restore attention."]>
           (<["source" := VStr "pilot study"]> ∅))) !! "statement"
  = Some (VStr "")
  /\ EvolutionAgent._parse_evolved_hypothesis "Rationale: a sharper argument."
       (Some (<["statement" := VStr "Naps restore attention."]>
              (<["source" := VStr "pilot study"]> ∅))) !! "source"
     = Some (VStr "pilot study").
Proof.
  destruct (parsed_evolution_fields "Rationale: a sharper argument."
              (Some (<["statement" := VStr "Naps restore attention."]>
                     (<["source" := VStr "pilot study"]> ∅))))
    as (_ & _ & _ & H4 & H5).
  split.
  - apply H5; [unfold Reference2.evolved_fields; in_list|].
    assert (E : PyStr.split "Rationale: a sharper argument." blank_line
                = ["Rationale: a sharper argument."]) by (vm_compute; reflexivity).
    rewrite E. apply Forall_singleton. vm_compute. reflexivity.
  - rewrite (H4 _ "source" eq_refl).
    + by rewrite lookup_insert_ne, lookup_insert_eq.
    + unfold Reference2.evolved_fields. rewrite !not_elem_of_cons.
      repeat split; try done. apply not_elem_of_nil.
    + done.
    + unfold EvolutionAgent.scoring_keys. rewrite !not_elem_of_cons.
      repeat split; try done. apply not_elem_of_nil.
Defined.

(** ** The review pass *)

Section Review.
Import PyStr ReflectionAgent ReflectionReview Reference Reference2.

Lemma review_prompt_first_missing (h : hypothesis) :
  review_prompt h
  = match first_missing h with
    | Some k => Raise (KeyError k)
    | None => Ok tt
    end.
Proof.
  unfold review_prompt, first_missing, evolved_fields, getitem, has. cbn [find].
  destruct (h !! "statement"); [|done].
  destruct (h !! "rationale"); [|done].
  destruct (h !! "evidence"); [|done].
  destruct (h !! "assumptions"); [|done].
  by destruct (h !! "validation").
Qed.

Section WithService.
Variable llm : nat -> string.

Lemma review_one_Ok (idx : nat) (h : hypothesis) :
  first_missing h = None -> review_one llm idx h = Ok (reviewed_record (llm idx) h).
Proof.
  intros H. unfold review_one. by rewrite review_prompt_first_missing, H.
Qed.

Lemma review_all_Ok (idx : nat) (hypotheses : list hypothesis) :
  Forall (fun h => first_missing h = None) hypotheses ->
  review_all llm idx hypotheses
  = Ok (imap (fun i h => reviewed_record (llm (idx + i)%nat) h) hypotheses).
Proof.
  intros Hall. revert idx. induction Hall as [|h l Hh _ IH]; intros idx; [done|].
  cbn [review_all]. rewrite (review_one_Ok idx h Hh), (IH (S idx)). cbn [bind].
  rewrite imap_cons, Nat.add_0_r. apply (f_equal Ok), (f_equal (cons _)).
  apply imap_ext. intros i x _. cbv beta.
  by replace (S idx + i)%nat with (idx + S i)%nat by lia.
Qed.

Lemma review_all_aborts (idx : nat) (pre post : list hypothesis) (h : hypothesis)
    (k : string) :
  Forall (fun h => first_missing h = None) pre ->
  first_missing h = Some k ->
  review_all llm idx (pre ++ h :: post) = Raise (KeyError k).
Proof.
  intros Hpre Hk. revert idx. induction Hpre as [|p pre Hp _ IH]; intros idx.
  - cbn [app review_all]. unfold review_one.
    by rewrite review_prompt_first_missing, Hk.
  - cbn [app review_all]. rewrite (review_one_Ok idx p Hp). cbn [bind].
    by rewrite IH.
Qed.
End WithService.

Lemma term_count_positive (terms : list string) (review term : string) :
  term ∈ terms -> contains term (lower review) = true ->
  (1 <= term_count terms review)%nat.
Proof.
  intros Hin Hc. unfold term_count.
  assert (H : term ∈ filter (fun t => contains t (lower review) = true) terms)
    by (by apply list_elem_of_filter).
  destruct (filter _ terms); [by apply elem_of_nil in H|simpl; lia].
Qed.

Lemma truediv_strict (a b : nat) :
  (0 < a)%nat -> (a < b)%nat ->
  (0 < truediv (Z.of_nat a) b)%Q /\ (truediv (Z.of_nat a) b < 1)%Q.
Proof.
  intros Ha Hab. unfold truediv. rewrite Qred_correct.
  unfold Qlt. simpl. lia.
Qed.

Lemma shadowed_term_score (review prefix term : string) :
  term ∈ positive_terms -> prefix +:+ term ∈ negative_terms ->
  contains (prefix +:+ term) (lower review) = true ->
  (0 < _estimate_score review)%Q /\ (_estimate_score review < 1)%Q.
Proof.
  intros Hp Hn Hc. rewrite estimate_score_unfold. cbv zeta.
  pose proof (term_count_positive _ _ _ Hn Hc) as Hneg.
  pose proof (term_count_positive _ _ _ Hp (contains_app_r _ _ _ Hc)) as Hpos.
  destruct (Nat.eqb_spec (term_count positive_terms review
                          + term_count negative_terms review) 0) as [E|E]; [lia|].
  apply truediv_strict; lia.
Qed.

Lemma summary_valid (review : string) :
  _extract_assessment_summary review !! "valid"
  = Some (VBool (negb (contains "invalid" (lower review))
                 && negb (contains "implausible" (lower review)))).
Proof. unfold _extract_assessment_summary. by rewrite lookup_insert_eq. Qed.
End Review.

(** X12.  The review pass either reviews every record or returns nothing:
    when each record has the five fields, record [i] comes back with the
    [i]-th answer under 'review' and its assessment under
    'assessment_summary'; at the first record that lacks one of 'statement',
    'rationale', 'evidence', 'assumptions', 'validation' the pass raises
    [KeyError] for the first of these keys that is missing, and the reviews
    made before it are lost. *)
Theorem review_pass_reviews_all_or_aborts (llm : nat -> string) (pre post : list hypothesis)
    (h : hypothesis) (k : string) :
  Forall (fun h => Reference2.first_missing h = None) pre ->
  ReflectionReview.process llm pre
  = Ok (imap (fun i h => Reference2.reviewed_record (llm i) h) pre)
  /\ (Reference2.first_missing h = Some k ->
      ReflectionReview.process llm (pre ++ h :: post) = Raise (KeyError k)).
Proof.
  intros Hpre. unfold ReflectionReview.process. split.
  - by rewrite review_all_Ok.
  - intros Hk. by apply review_all_aborts.
Qed.

Lemma review_pass_reviews_all_or_aborts_witness :
  ReflectionReview.process (fun _ => "Plausible and novel.")
    ([Examples.draft "Caffeine shortens reaction time." "Adenosine." 1]
     ++ {["statement" := VStr "Naps restore attention."]} :: [])
  = Raise (KeyError "rationale").
Proof.
  apply (proj2 (review_pass_reviews_all_or_aborts (fun _ => "Plausible and novel.")
                  [Examples.draft "Caffeine shortens reaction time." "Adenosine." 1] []
                  {["statement" := VStr "Naps restore attention."]} "rationale"
                  ltac:(repeat constructor))).
  reflexivity.
Defined.

(** X13.  The lexicon of the quality estimate shadows itself: "invalid",
    "implausible" and "inconsistent" each contain a positive term, so a
    review with one of them counts at least one positive and one negative
    term and scores strictly between 0 and 1.  Hence a review the summary
    flags as not valid never scores 0, and a review that scores 0 is always
    flagged valid. *)
Theorem negative_verdict_never_scores_zero (review : string) :
  (forall term, term ∈ ["invalid"; "implausible"; "inconsistent"] ->
     PyStr.contains term (PyStr.lower review) = true ->
     (0 < ReflectionAgent._estimate_score review)%Q
     /\ (ReflectionAgent._estimate_score review < 1)%Q)
  /\ (ReflectionReview._extract_assessment_summary review !! "valid" = Some (VBool false) ->
      (0 < ReflectionAgent._estimate_score review)%Q
      /\ (ReflectionAgent._estimate_score review < 1)%Q)
  /\ ((ReflectionAgent._estimate_score review == 0)%Q ->
      ReflectionReview._extract_assessment_summary review !! "valid" = Some (VBool true)).
Proof.
  assert (H1 : forall term, term ∈ ["invalid"; "implausible"; "inconsistent"] ->
     PyStr.contains term (PyStr.lower review) = true ->
     (0 < ReflectionAgent._estimate_score review)%Q
     /\ (ReflectionAgent._estimate_score review < 1)%Q).
  { intros term Hin Hc. rewrite !elem_of_cons, elem_of_nil in Hin.
    destruct Hin as [->|[->|[->|[]]]].
    - apply (shadowed_term_score review "in" "valid"); [| |done];
        unfold ReflectionAgent.positive_terms, ReflectionAgent.negative_terms; in_list.
    - apply (shadowed_term_score review "im" "plausible"); [| |done];
        unfold ReflectionAgent.positive_terms, ReflectionAgent.negative_terms; in_list.
    - apply (shadowed_term_score review "in" "consistent"); [| |done];
        unfold ReflectionAgent.positive_terms, ReflectionAgent.negative_terms; in_list. }
  assert (H2 : ReflectionReview._extract_assessment_summary review !! "valid"
               = Some (VBool false) ->
      (0 < ReflectionAgent._estimate_score review)%Q
      /\ (ReflectionAgent._estimate_score review < 1)%Q).
  { rewrite summary_valid. intros [= H].
    destruct (PyStr.contains "invalid" (PyStr.lower review)) eqn:E1.
    - apply (H1 "invalid"); [in_list|done].
    - destruct (PyStr.contains "implausible" (PyStr.lower review)) eqn:E2; [|done].
      apply (H1 "implausible"); [in_list|done]. }
  split; [exact H1|]. split; [exact H2|].
  intros Hz. rewrite summary_valid in *.
  destruct (negb _ && negb _); [done|].
  destruct (H2 eq_refl) as [Hpos _]. rewrite Hz in Hpos. by apply Qlt_irrefl in Hpos.
Qed.

Lemma negative_verdict_never_scores_zero_witness :
  (0 < ReflectionAgent._estimate_score "The premise is invalid.")%Q
  /\ (ReflectionAgent._estimate_score "The premise is invalid." < 1)%Q.
Proof.
  apply (proj1 (proj2 (negative_verdict_never_scores_zero "The premise is invalid."))).
  vm_compute. reflexivity.
Defined.

(** ** Generated records in the later passes *)

Section Pipeline.
Import PyStr GenerationAgent Reference Reference2.

Lemma text_record_lacks (keys : list string) (h : hypothesis) (k : string) :
  text_record keys h -> k ∉ keys -> h !! k = None.
Proof.
  intros H Hk. destruct (h !! k) as [v|] eqn:E; [|done].
  by destruct (H k v E) as [Hin _].
Qed.

Lemma generation_record_lacks (h : hypothesis) :
  text_record generation_keys h ->
  h !! "statement" = None /\ h !! "review" = None /\ h !! "rank" = None.
Proof.
  intros H. repeat split; apply (text_record_lacks generation_keys); try done;
    unfold generation_keys; rewrite !not_elem_of_cons;
    repeat split; try done; apply not_elem_of_nil.
Qed.

Lemma final_parser_inv (response : string) :
  parser_inv (foldl parse_section {| hypotheses := []; current_hypothesis := ∅ |}
                    (split response blank_line)).
Proof. apply parse_sections_inv, initial_parser_inv. Qed.

Lemma parse_hypotheses_length (response : string) :
  (length (_parse_hypotheses response) <= 2)%nat.
Proof.
  destruct (final_parser_inv response) as (_ & Hlen & _).
  unfold _parse_hypotheses. destruct (truthy _); [rewrite length_app; simpl|]; lia.
Qed.

(** The shapes of the parser's result. *)
Lemma parse_hypotheses_shape (response : string) :
  _parse_hypotheses response = []
  \/ (exists c, _parse_hypotheses response = [c])
  \/ (exists f c, _parse_hypotheses response = [f; c]
                  /\ has_key f "hypothesis" = false /\ has_key c "hypothesis" = true).
Proof.
  destruct (final_parser_inv response) as (Hall & Hlen & Hnone).
  unfold _parse_hypotheses.
  destruct (hypotheses _) as [|f [|f' l]] eqn:Eh; [| |simpl in Hlen; lia].
  - destruct (truthy _); [right; left; by eexists|by left].
  - apply Forall_cons in Hall as [Hf _].
    destruct (has_key (current_hypothesis _) "hypothesis") eqn:Ek.
    + rewrite (has_key_truthy _ _ Ek). right. right. by eexists _, _.
    + by specialize (Hnone eq_refl).
Qed.

Section WithService.
Variable llm : nat -> string.

Lemma ranked_pairwise_records (hyps : list hypothesis) (r : hypothesis) :
  r ∈ RankingAgent._rank_by_pairwise_comparison llm hyps ->
  exists rank idx,
    (idx < length hyps)%nat
    /\ r = RankingAgent.ranked_record hyps
             (RankingAgent.run_tournament llm (length hyps)) rank idx.
Proof.
  unfold RankingAgent._rank_by_pairwise_comparison. cbv zeta.
  intros (rank & idx & -> & Hi)%elem_of_lookup_imap.
  exists rank, idx. split; [|done].
  apply ranked_indices_lt in Hi.
  destruct (run_tournament_facts llm (length hyps)) as (Hl & _).
  unfold final_wins in Hl. by rewrite Hl in Hi.
Qed.

Lemma ranked_pairwise_length (hyps : list hypothesis) :
  length (RankingAgent._rank_by_pairwise_comparison llm hyps) = length hyps.
Proof.
  unfold RankingAgent._rank_by_pairwise_comparison. cbv zeta.
  rewrite length_imap, ranked_indices_Permutation, length_seq.
  by destruct (run_tournament_facts llm (length hyps)) as (Hl & _).
Qed.

Lemma ranks_ordered_ranked (ranked : list hypothesis) :
  Forall (fun r => exists z, r !! "rank" = Some (VInt z)) ranked ->
  ranks_ordered ranked = true.
Proof.
  intros H. unfold ranks_ordered.
  assert (E : forallb (fun h => numeric_or_absent h "rank") ranked = true).
  { apply List.forallb_forall. intros r Hr%list_elem_of_In.
    rewrite Forall_forall in H. destruct (H r Hr) as [z Hz].
    unfold numeric_or_absent. by rewrite Hz. }
  by rewrite E, orb_true_r.
Qed.

Lemma individual_prompt_no_statement (h : hypothesis) :
  h !! "statement" = None -> h !! "review" = None ->
  EvolutionAgent.individual_prompt h = Raise (KeyError "statement").
Proof.
  intros Hs Hr. unfold EvolutionAgent.individual_prompt, get, getitem.
  by rewrite Hr, Hs.
Qed.

Lemma evolution_aborts (ranked : list hypothesis) :
  ranked <> [] ->
  Forall (fun r => r !! "statement" = None /\ r !! "review" = None
                   /\ exists z, r !! "rank" = Some (VInt z)) ranked ->
  EvolutionAgent.process llm ranked = Raise (KeyError "statement").
Proof.
  intros Hne Hall.
  assert (Hs : EvolutionAgent.sort_by_rank ranked = Ok (sorted by_rank ranked)).
  { rewrite sort_by_rank_spec, ranks_ordered_ranked; [done|].
    eapply Forall_impl; [exact Hall|]. by intros r (_ & _ & Hz). }
  unfold EvolutionAgent.process. rewrite Hs. cbn [bind]. cbv zeta.
  assert (Hall' : Forall (fun r => r !! "statement" = None /\ r !! "review" = None
                   /\ exists z, r !! "rank" = Some (VInt z)) (sorted by_rank ranked))
    by (by rewrite sorted_Permutation).
  pose proof (sorted_length by_rank ranked) as Hlen.
  destruct (sorted by_rank ranked) as [|h rest].
  { destruct ranked; [done|simpl in Hlen; lia]. }
  apply Forall_cons in Hall' as [(Hst & Hrev & _) _].
  cbn [length]. replace (min 3 (S (length rest))) with (S (min 2 (length rest))) by lia.
  cbn [take EvolutionAgent.evolve_each]. unfold EvolutionAgent.evolve_individual.
  by rewrite (individual_prompt_no_statement h Hst Hrev).
Qed.
End WithService.

Section Validation.
Variable validate_hypothesis : string -> bool * list string.

Lemma validate_raise (e : error) (hypotheses : list hypothesis) :
  foldl (fun acc h => valid <-- acc ;; Main.validate_one validate_hypothesis valid h)
        (Raise e) hypotheses = Raise e.
Proof. induction hypotheses as [|h l IH]; [done|]. cbn [foldl bind]. exact IH. Qed.

Lemma validate_all_fragment (h : hypothesis) (rest : list hypothesis) :
  has_key h "hypothesis" = false ->
  Main.validate_all validate_hypothesis (h :: rest) = Raise (KeyError "hypothesis").
Proof.
  intros Hk.
  assert (E : Main.validate_one validate_hypothesis [] h = Raise (KeyError "hypothesis")).
  { unfold Main.validate_one, getitem. unfold has_key in Hk.
    by destruct (h !! "hypothesis"). }
  unfold Main.validate_all. cbn [foldl bind]. rewrite E. apply validate_raise.
Qed.
End Validation.
End Pipeline.

(** X14.  The records of the generation parser carry the statement under
    'hypothesis', while the review, proximity, evolution and report passes
    subscript 'statement'.  So on any non-empty result of the parser the
    review pass, the proximity pass and the report each raise
    [KeyError('statement')]; ranking succeeds (it reads 'hypothesis' first)
    and returns as many records, and the evolution pass raises
    [KeyError('statement')] on what ranking returns. *)
Theorem generated_records_stop_later_passes (llm : nat -> string) (response : string) :
  GenerationAgent._parse_hypotheses response <> [] ->
  ReflectionReview.process llm (GenerationAgent._parse_hypotheses response)
  = Raise (KeyError "statement")
  /\ ProximityAgent.process llm (GenerationAgent._parse_hypotheses response)
     = Raise (KeyError "statement")
  /\ (forall timestamp research_goal output_format,
        MetaReviewReport.process llm timestamp (GenerationAgent._parse_hypotheses response)
          research_goal output_format
        = Raise (KeyError "statement"))
  /\ exists ranked,
       RankingAgent.process llm (GenerationAgent._parse_hypotheses response) = Ok ranked
       /\ length ranked = length (GenerationAgent._parse_hypotheses response)
       /\ forall llm', EvolutionAgent.process llm' ranked = Raise (KeyError "statement").
Proof.
  intros Hne.
  destruct (parse_hypotheses_records response) as [Htext _].
  pose proof (parse_hypotheses_length response) as Hlen.
  destruct (GenerationAgent._parse_hypotheses response) as [|h rest] eqn:E; [done|].
  pose proof Htext as Hall. apply Forall_cons in Htext as [Hh _].
  destruct (generation_record_lacks h Hh) as (Hs & _ & _).
  split; [|split; [|split]].
  - apply (review_all_aborts llm 0 [] rest h); [constructor|].
    unfold Reference2.first_missing, Reference.has. cbn [find Reference2.evolved_fields].
    by rewrite Hs.
  - apply (evaluate_all_aborts llm 0 [] rest h); [constructor|].
    unfold ProximityAgent.proximity_prompt, getitem. by rewrite Hs.
  - intros timestamp research_goal output_format.
    unfold MetaReviewReport.process. cbn [MetaReviewReport.summaries].
    unfold MetaReviewReport.summary_fields at 1, getitem. by rewrite Hs.
  - exists (RankingAgent._rank_by_pairwise_comparison llm (h :: rest)).
    split; [|split].
    + unfold RankingAgent.process.
      destruct (Nat.leb_spec (length (h :: rest)) 5) as [_|Hgt]; [done|lia].
    + apply ranked_pairwise_length.
    + intros llm'. apply evolution_aborts.
      * intros Hnil. pose proof (ranked_pairwise_length llm (h :: rest)) as Hl.
        by rewrite Hnil in Hl.
      * apply Forall_forall. intros r (rank & idx & Hidx & ->)%ranked_pairwise_records.
        destruct (lookup_lt_is_Some_2 (h :: rest) idx Hidx) as [g Hg].
        rewrite Forall_forall in Hall.
        destruct (generation_record_lacks g) as (Hgs & Hgr & _).
        { apply Hall. by eapply list_elem_of_lookup_2. }
        unfold RankingAgent.ranked_record.
        rewrite (list_lookup_total_correct _ _ _ Hg).
        rewrite !lookup_insert_ne by done. split; [done|]. split; [done|].
        rewrite lookup_insert_eq. by eexists.
Qed.

Lemma generated_records_stop_later_passes_witness :
  ProximityAgent.process (fun _ => "Overall score: 9.")
    (GenerationAgent._parse_hypotheses "Hypothesis 1: naps restore attention.")
  = Raise (KeyError "statement").
Proof.
  apply (generated_records_stop_later_passes (fun _ => "Overall score: 9.")
           "Hypothesis 1: naps restore attention.").
  intros H. apply (f_equal length) in H. vm_compute in H. discriminate H.
Defined.

(** X15.  [generate_hypotheses] of the main class refuses an unset goal
    with [ValueError] and otherwise returns at most one record, whatever
    [count] is: a record that comes back has its text under 'hypothesis', was
    judged valid, and has its 'validation' text replaced by the verdict
    dictionary.  When the first parsed record is a fragment without the
    'hypothesis' key the call raises [KeyError('hypothesis')]. *)
Theorem main_generate_returns_at_most_one (llm : nat -> string)
    (validate_hypothesis : string -> bool * list string) (research_goal : string)
    (count : Z) :
  Main.generate_hypotheses llm validate_hypothesis "" count = Raise ValueError
  /\ (research_goal <> "" ->
      (forall h rest,
         GenerationAgent._parse_hypotheses (llm 0%nat) = h :: rest ->
         GenerationAgent.has_key h "hypothesis" = false ->
         Main.generate_hypotheses llm validate_hypothesis research_goal count
         = Raise (KeyError "hypothesis"))
      /\ (Main.generate_hypotheses llm validate_hypothesis research_goal count
          = Raise (KeyError "hypothesis")
          \/ exists valid,
               Main.generate_hypotheses llm validate_hypothesis research_goal count = Ok valid
               /\ (length valid <= 1)%nat
               /\ Forall (fun h => exists s issues,
                            validate_hypothesis s = (true, issues)
                            /\ h !! "hypothesis" = Some (VStr s)
                            /\ h !! "validation"
                               = Some (VDict (<["is_valid" := VBool true]>
                                              (<["issues" := VList (VStr <$> issues)]> ∅))))
                         valid)).
Proof.
  split; [done|]. intros Hgoal.
  assert (Hgen : Main.generate_hypotheses llm validate_hypothesis research_goal count
                 = Main.validate_all validate_hypothesis
                     (GenerationAgent._parse_hypotheses (llm 0%nat))).
  { unfold Main.generate_hypotheses.
    destruct (String.eqb_spec research_goal ""); [done|done]. }
  rewrite Hgen. split.
  { intros h rest -> Hk. by apply validate_all_fragment. }
  destruct (parse_hypotheses_records (llm 0%nat)) as [Htext _].
  destruct (parse_hypotheses_shape (llm 0%nat)) as [E|[[c E]|(f & c & E & Hf & _)]];
    rewrite E in *.
  - right. exists []. split; [done|]. split; [simpl; lia|constructor].
  - destruct (GenerationAgent.has_key c "hypothesis") eqn:Hk;
      [|left; by apply validate_all_fragment].
    right. apply Forall_cons in Htext as [Htext _].
    unfold GenerationAgent.has_key in Hk.
    destruct (c !! "hypothesis") as [v|] eqn:Ec; [|done].
    destruct (Htext _ _ Ec) as [_ [s ->]].
    unfold Main.validate_all. cbn [foldl bind]. unfold Main.validate_one, getitem.
    rewrite Ec. cbn [bind].
    destruct (validate_hypothesis s) as [[|] issues] eqn:Ev.
    + eexists. split; [done|]. split; [simpl; lia|].
      apply Forall_singleton. exists s, issues. split; [done|].
      split; [by rewrite lookup_insert_ne|by rewrite lookup_insert_eq].
    + exists []. split; [done|]. split; [simpl; lia|constructor].
  - left. by apply validate_all_fragment.
Qed.

Lemma main_generate_returns_at_most_one_witness :
  Main.generate_hypotheses
    (fun _ => "Rationale: caffeine blocks adenosine." +:+ blank_line
              +:+ "Hypothesis: caffeine shortens reaction time.")
    (fun s => (true, [])) "Does caffeine help?" 5
  = Raise (KeyError "hypothesis")
  \/ exists valid,
       Main.generate_hypotheses
         (fun _ => "Rationale: caffeine blocks adenosine." +:+ blank_line
                   +:+ "Hypothesis: caffeine shortens reaction time.")
         (fun s => (true, [])) "Does caffeine help?" 5 = Ok valid
       /\ (length valid <= 1)%nat
       /\ Forall (fun h => exists s issues,
                    (true, @nil string) = (true, issues)
                    /\ h !! "hypothesis" = Some (VStr s)
                    /\ h !! "validation"
                       = Some (VDict (<["is_valid" := VBool true]>
                                      (<["issues" := VList (VStr <$> issues)]> ∅))))
                 valid.
Proof.
  apply (proj2 (main_generate_returns_at_most_one
                  (fun _ => "Rationale: caffeine blocks adenosine." +:+ blank_line
                            +:+ "Hypothesis: caffeine shortens reaction time.")
                  (fun s => (true, [])) "Does caffeine help?" 5)).
  done.
Defined.

(** ** The report and its summary *)

Section Stripping.
Import PyStr.

Lemma rev_append (s t : string) : String.rev (s +:+ t) = String.rev t +:+ String.rev s.
Proof.
  induction s as [|c s IH].
  - change ("" +:+ t) with t. by rewrite append_nil_r.
  - rewrite append_cons, !rev_cons, IH. by rewrite append_assoc.
Qed.

Lemma rev_involutive (s : string) : String.rev (String.rev s) = s.
Proof.
  induction s as [|c s IH]; [done|].
  by rewrite rev_cons, rev_append, IH.
Qed.

Lemma lstrip_length (s : string) : (String.length (lstrip s) <= String.length s)%nat.
Proof.
  induction s as [|c s IH]; [done|]. cbn [lstrip].
  destruct (is_space c); simpl; lia.
Qed.

Lemma strip_length (s : string) : (String.length (strip s) <= String.length s)%nat.
Proof.
  unfold strip. rewrite length_rev.
  pose proof (lstrip_length (String.rev (lstrip s))) as H1.
  rewrite length_rev in H1. pose proof (lstrip_length s). lia.
Qed.

Lemma lstrip_head (s : string) :
  lstrip s = "" \/ exists c s', lstrip s = String c s' /\ is_space c = false.
Proof.
  induction s as [|c s IH]; [by left|]. cbn [lstrip].
  destruct (is_space c) eqn:E; [done|]. right. by exists c, s.
Qed.

Lemma lstrip_fixed (c : ascii) (s : string) :
  is_space c = false -> lstrip (String c s) = String c s.
Proof. intros H. cbn [lstrip]. by rewrite H. Qed.

Lemma lstrip_idempotent (s : string) : lstrip (lstrip s) = lstrip s.
Proof.
  destruct (lstrip_head s) as [->|(c & s' & -> & Hc)]; [done|].
  by apply lstrip_fixed.
Qed.

Lemma lstrip_suffix (s : string) : exists pre, s = pre +:+ lstrip s.
Proof.
  induction s as [|c s [pre IH]]; [by exists ""|]. cbn [lstrip].
  destruct (is_space c); [|by exists ""].
  exists (String c pre). by rewrite append_cons, <- IH.
Qed.

Lemma strip_lstrip_fixed (s : string) : lstrip (strip s) = strip s.
Proof.
  unfold strip.
  destruct (lstrip_suffix (String.rev (lstrip s))) as [pre Hpre].
  destruct (lstrip (String.rev (lstrip s))) as [|c b] eqn:Eb; [done|].
  apply (f_equal String.rev) in Hpre.
  rewrite rev_involutive, rev_append in Hpre.
  destruct (String.rev (String c b)) as [|d r] eqn:Er.
  { apply (f_equal String.length) in Er. rewrite length_rev in Er. done. }
  rewrite append_cons in Hpre.
  destruct (lstrip_head s) as [E|(d' & s' & E & Hd)]; rewrite E in Hpre; [done|].
  injection Hpre as -> _. by apply lstrip_fixed.
Qed.

Lemma strip_idempotent (s : string) : strip (strip s) = strip s.
Proof.
  unfold strip at 1. rewrite strip_lstrip_fixed.
  unfold strip. by rewrite rev_involutive, lstrip_idempotent.
Qed.

Lemma length_substring_0 (n : nat) (s : string) :
  String.length (String.substring 0 n s) = min n (String.length s).
Proof.
  revert s. induction n as [|n IH]; intros [|c s]; simpl; try done.
  by rewrite IH.
Qed.

Lemma substring_0_prefix (n : nat) (s : string) :
  String.prefix (String.substring 0 n s) s = true.
Proof.
  revert s. induction n as [|n IH]; intros [|c s]; simpl; try done.
  destruct (ascii_dec c c); [apply IH|done].
Qed.
End Stripping.

Section Report.
Import PyStr MetaReviewAgent MetaReviewReport Reference.

Lemma first_title_Some (lines : list string) (title : string) :
  first_title lines = Some title ->
  exists line, line ∈ lines /\ title = strip line /\ title <> ""
               /\ (String.length line < 100)%nat.
Proof.
  induction lines as [|l0 lines IH]; [done|]. cbn [first_title].
  destruct (negb (String.eqb (strip l0) "")) eqn:E1; cbn [andb].
  - destruct (negb (startswith l0 "#")) eqn:E2; cbn [andb].
    + destruct (Nat.ltb_spec (String.length l0) 100) as [E3|E3].
      * intros [= <-]. exists l0. split; [by left|]. split; [done|]. split; [|done].
        apply negb_true_iff in E1. by apply String.eqb_neq in E1.
      * intros (line & Hin & H)%IH. exists line. split; [by right|done].
    + intros (line & Hin & H)%IH. exists line. split; [by right|done].
  - intros (line & Hin & H)%IH. exists line. split; [by right|done].
Qed.

Lemma extract_title_facts (report : string) :
  _extract_title report <> ""
  /\ (String.length (_extract_title report) < 100)%nat
  /\ strip (_extract_title report) = _extract_title report.
Proof.
  unfold _extract_title. cbv zeta.
  destruct (first_title (take 10 (split report nl))) as [title|] eqn:E.
  - apply first_title_Some in E as (line & _ & -> & Hne & Hlen).
    split; [done|]. split; [|apply strip_idempotent].
    pose proof (strip_length line). lia.
  - split; [done|]. split; [simpl; lia|]. vm_compute. reflexivity.
Qed.

(** The fields of a summary can be read exactly from the records that
    are [reportable]. *)
Lemma summary_fields_spec (h : hypothesis) :
  (Reference2.reportable h = true /\ summary_fields h = Ok tt)
  \/ (Reference2.reportable h = false /\ exists e, summary_fields h = Raise e).
Proof.
  unfold Reference2.reportable, Reference.has_statement, summary_fields, getitem, get.
  destruct (h !! "statement") as [v|]; [|right; split; [done|by eexists]].
  cbn [bind andb].
  destruct (h !! "rationale") as [[| | | |s|l|d]|];
    cbn [default from_option id py_slice_to bind];
    first [by left | right; split; [done|by eexists]].
Qed.

Lemma summaries_reportable (final_hypotheses : list hypothesis) :
  Forall (fun h => Reference2.reportable h = true) final_hypotheses ->
  summaries final_hypotheses = Ok tt.
Proof.
  induction 1 as [|h l Hh _ IH]; [done|]. cbn [summaries].
  destruct (summary_fields_spec h) as [[_ ->]|[? _]]; [done|congruence].
Qed.

Lemma summaries_returns (final_hypotheses : list hypothesis) :
  summaries final_hypotheses = Ok tt ->
  Forall (fun h => Reference2.reportable h = true) final_hypotheses.
Proof.
  induction final_hypotheses as [|h l IH]; [constructor|]. cbn [summaries].
  destruct (summary_fields_spec h) as [[Hr ->]|[_ [e ->]]]; [|done]. cbn [bind].
  intros H. apply Forall_cons. split; [done|by apply IH].
Qed.
End Report.

(** X16.  The title extracted from a report is never empty, is shorter than
    100 characters and has no white space at either end, whatever the
    report. *)
Theorem extracted_title_is_short_and_trimmed (report : string) :
  MetaReviewAgent._extract_title report <> ""
  /\ (String.length (MetaReviewAgent._extract_title report) < 100)%nat
  /\ PyStr.strip (MetaReviewAgent._extract_title report)
     = MetaReviewAgent._extract_title report
  /\ PyStr.lstrip (MetaReviewAgent._extract_title report)
     = MetaReviewAgent._extract_title report.
Proof.
  destruct (extract_title_facts report) as (H1 & H2 & H3).
  split; [done|]. split; [done|]. split; [done|].
  rewrite <- H3. apply strip_lstrip_fixed.
Qed.

(** X17.  The report pass returns a package exactly when every final
    hypothesis is [Reference2.reportable]: it has a 'statement', and its
    'rationale' is a text or a list, or is missing.  The package then counts
    the hypotheses, carries the goal, the report and the format as given,
    and an executive summary can always be made from it: none of its
    subscripts fails. *)
Theorem report_package_feeds_summary (llm llm' : nat -> string) (timestamp : string)
    (final_hypotheses : list hypothesis) (research_goal output_format : string)
    (max_length : Z) :
  (Forall (fun h => Reference2.reportable h = true) final_hypotheses
   <-> exists package,
         MetaReviewReport.process llm timestamp final_hypotheses research_goal output_format
         = Ok package)
  /\ (forall package,
        MetaReviewReport.process llm timestamp final_hypotheses research_goal output_format
        = Ok package ->
        package !! "hypothesis_count" = Some (VInt (Z.of_nat (length final_hypotheses)))
        /\ package !! "research_goal" = Some (VStr research_goal)
        /\ package !! "report" = Some (VStr (llm 0%nat))
        /\ package !! "format" = Some (VStr output_format)
        /\ package !! "title" = Some (VStr (MetaReviewAgent._extract_title (llm 0%nat)))
        /\ exists summary,
             MetaReviewReport.create_executive_summary llm' package max_length = Ok summary).
Proof.
  split.
  - split.
    + intros H. unfold MetaReviewReport.process.
      rewrite (summaries_reportable _ H). by eexists.
    + intros [package H]. unfold MetaReviewReport.process in H.
      destruct (MetaReviewReport.summaries final_hypotheses) as [[]|e] eqn:E; [|done].
      by apply summaries_returns.
  - intros package. unfold MetaReviewReport.process.
    destruct (MetaReviewReport.summaries final_hypotheses) as [[]|e]; [|done].
    cbn [bind]. intros [= <-].
    split; [by rewrite !lookup_insert_ne, lookup_insert_eq by done|].
    split; [by rewrite !lookup_insert_ne, lookup_insert_eq by done|].
    split; [by rewrite !lookup_insert_ne, lookup_insert_eq by done|].
    split; [by rewrite !lookup_insert_ne, lookup_insert_eq by done|].
    split; [by rewrite lookup_insert_eq|].
    unfold MetaReviewReport.create_executive_summary, MetaReviewReport.summary_prompt, getitem.
    rewrite lookup_insert_ne, lookup_insert_eq by done. cbn [bind].
    rewrite lookup_insert_eq. cbn [bind].
    rewrite !lookup_insert_ne, lookup_insert_eq by done. cbn [bind py_slice_to].
    by eexists.
Qed.

Lemma report_package_feeds_summary_witness :
  exists package,
    MetaReviewReport.process (fun _ => "Caffeine and attention") "2024-01-01 00:00:00"
      [Examples.draft "Caffeine shortens reaction time." "Adenosine." 1]
      "To test caffeine" "research_brief"
    = Ok package.
Proof.
  apply (proj1 (proj1 (report_package_feeds_summary
                         (fun _ => "Caffeine and attention") (fun _ => "Short.")
                         "2024-01-01 00:00:00"
                         [Examples.draft "Caffeine shortens reaction time." "Adenosine." 1]
                         "To test caffeine" "research_brief" 500))).
  apply Forall_cons. split; [vm_compute; reflexivity|]. apply Forall_nil. exact I.
Defined.

(** X18.  When the summary prompt can be built, the executive summary is the
    answer itself if it has at most [max_length] characters; otherwise it is
    cut and ends in "...".  With [max_length >= 3] the result then has
    exactly [max_length] characters, so the bound holds; with
    [max_length < 3] the slice bound is negative, counts from the end, and
    the result is longer than [max_length]. *)
Theorem executive_summary_length (llm : nat -> string) (report_package : hypothesis)
    (max_length : Z) :
  MetaReviewReport.summary_prompt report_package = Ok tt ->
  exists summary,
    MetaReviewReport.create_executive_summary llm report_package max_length = Ok summary
    /\ ((Z.of_nat (String.length (llm 0%nat)) <= max_length)%Z -> summary = llm 0%nat)
    /\ ((max_length < Z.of_nat (String.length (llm 0%nat)))%Z ->
        exists kept, summary = kept +:+ "..." /\ String.prefix kept (llm 0%nat) = true)
    /\ ((3 <= max_length)%Z -> (max_length < Z.of_nat (String.length (llm 0%nat)))%Z ->
        Z.of_nat (String.length summary) = max_length)
    /\ ((max_length < 3)%Z -> (max_length < Z.of_nat (String.length (llm 0%nat)))%Z ->
        (max_length < Z.of_nat (String.length summary))%Z).
Proof.
  intros Hp. unfold MetaReviewReport.create_executive_summary. rewrite Hp. cbn [bind].
  eexists. split; [done|].
  destruct (Z.ltb_spec max_length (Z.of_nat (String.length (llm 0%nat)))) as [Hlt|Hge].
  - split; [lia|]. split.
    { intros _. eexists. split; [done|]. unfold MetaReviewReport.slice_to.
      destruct (0 <=? max_length - 3)%Z; apply substring_0_prefix. }
    split.
    + intros H3 _. rewrite length_append. unfold MetaReviewReport.slice_to.
      destruct (Z.leb_spec 0 (max_length - 3)) as [_|?]; [|lia].
      rewrite length_substring_0. simpl. lia.
    + intros H3 _. rewrite length_append. simpl. lia.
  - split; [done|]. split; [lia|]. split; lia.
Qed.

Lemma executive_summary_length_witness :
  exists summary,
    MetaReviewReport.create_executive_summary (fun _ => "abcd")
      (<["research_goal" := VStr "g"]> (<["title" := VStr "t"]> (<["report" := VStr "r"]> ∅)))
      0 = Ok summary
    /\ (0 < Z.of_nat (String.length summary))%Z.
Proof.
  destruct (executive_summary_length (fun _ => "abcd")
              (<["research_goal" := VStr "g"]>
               (<["title" := VStr "t"]> (<["report" := VStr "r"]> ∅))) 0)
    as (summary & H1 & _ & _ & _ & H5).
  - reflexivity.
  - exists summary. split; [exact H1|]. apply H5; [lia|simpl; lia].
Defined.

(** ** The conversation of an agent *)

Section Conversation.
Import BaseAgent.
Variable invoke : list message -> string.

Lemma step_keeps_system (prompt : string) (a : agent) (c : call) :
  system_prompt a = prompt ->
  head (conversation_history a) = Some (SystemMessage prompt) ->
  exists a', step invoke a c = Some a'
             /\ system_prompt a' = prompt
             /\ head (conversation_history a') = Some (SystemMessage prompt).
Proof.
  intros Hs Hh. destruct (conversation_history a) as [|m rest] eqn:E; [done|].
  injection Hh as ->. destruct c as [query|text is_human|].
  - eexists. split; [done|]. cbn. by rewrite E.
  - eexists. split; [done|]. cbn. by rewrite E.
  - cbn. unfold clear_history. rewrite E. by eexists.
Qed.

Lemma run_keeps_system (prompt : string) (calls : list call) (a : agent) :
  system_prompt a = prompt ->
  head (conversation_history a) = Some (SystemMessage prompt) ->
  exists a', run invoke a calls = Some a'
             /\ system_prompt a' = prompt
             /\ head (conversation_history a') = Some (SystemMessage prompt).
Proof.
  revert a. induction calls as [|c calls IH]; intros a Hs Hh; [by exists a|].
  destruct (step_keeps_system prompt a c Hs Hh) as (a1 & E1 & Hs1 & Hh1).
  cbn [run]. rewrite E1. by apply IH.
Qed.
End Conversation.

(** X19.  Whatever an agent is asked and told after its construction, its
    history starts with the system message it was constructed with; so
    [clear_history] never fails on an index and always restores the state
    the agent had when it was constructed.  Each answer is invoked on the
    whole history, ending with the question. *)
Theorem clear_history_restores_initial_state (invoke : list BaseAgent.message -> string)
    (prompt : string) (calls : list BaseAgent.call) :
  exists a,
    BaseAgent.run invoke (BaseAgent.init prompt) calls = Some a
    /\ head (BaseAgent.conversation_history a) = Some (BaseAgent.SystemMessage prompt)
    /\ BaseAgent.clear_history a = Some (BaseAgent.init prompt)
    /\ forall query,
         snd (BaseAgent.get_response invoke a query)
         = invoke (BaseAgent.conversation_history a ++ [BaseAgent.HumanMessage query])
         /\ BaseAgent.conversation_history (fst (BaseAgent.get_response invoke a query))
            = BaseAgent.conversation_history a
              ++ [BaseAgent.HumanMessage query;
                  BaseAgent.AIMessage
                    (invoke (BaseAgent.conversation_history a
                             ++ [BaseAgent.HumanMessage query]))].
Proof.
  destruct (run_keeps_system invoke prompt calls (BaseAgent.init prompt))
    as (a & Hr & Hs & Hh); [done|done|].
  exists a. split; [done|]. split; [done|]. split.
  - unfold BaseAgent.clear_history, BaseAgent.init.
    destruct (BaseAgent.conversation_history a) as [|m rest]; [done|].
    injection Hh as ->. by rewrite Hs.
  - intros query. split; [done|]. cbn. by rewrite <- app_assoc.
Qed.

(** ** Validators *)

Section LetterCase.
Import PyStr Validators.

Lemma lower_char_idempotent (c : ascii) : lower_char (lower_char c) = lower_char c.
Proof. destruct c as [[] [] [] [] [] [] [] []]; vm_compute; reflexivity. Qed.

Lemma lower_char_space (c : ascii) : is_space (lower_char c) = is_space c.
Proof. destruct c as [[] [] [] [] [] [] [] []]; vm_compute; reflexivity. Qed.

Lemma lower_char_question (c : ascii) :
  (if ascii_dec "?" (lower_char c) then true else false)
  = (if ascii_dec "?" c then true else false).
Proof. destruct c as [[] [] [] [] [] [] [] []]; vm_compute; reflexivity. Qed.

Lemma lower_cons (c : ascii) (s : string) :
  lower (String c s) = String (lower_char c) (lower s).
Proof. reflexivity. Qed.

Lemma lower_idempotent (s : string) : lower (lower s) = lower s.
Proof.
  induction s as [|c s IH]; [done|].
  by rewrite !lower_cons, lower_char_idempotent, IH.
Qed.

Lemma length_lower (s : string) : String.length (lower s) = String.length s.
Proof. induction s as [|c s IH]; [done|]. rewrite lower_cons. simpl. by rewrite IH. Qed.

Lemma lstrip_lower (s : string) : lstrip (lower s) = lower (lstrip s).
Proof.
  induction s as [|c s IH]; [done|].
  rewrite lower_cons. cbn [lstrip]. rewrite lower_char_space.
  destruct (is_space c); [exact IH|by rewrite lower_cons].
Qed.

Lemma rev_lower (s : string) : String.rev (lower s) = lower (String.rev s).
Proof.
  induction s as [|c s IH]; [done|].
  by rewrite lower_cons, !rev_cons, lower_app, IH.
Qed.

Lemma strip_lower (s : string) : strip (lower s) = lower (strip s).
Proof. unfold strip. by rewrite lstrip_lower, rev_lower, lstrip_lower, rev_lower. Qed.

Lemma question_lower (s : string) : endswith (lower s) "?" = endswith s "?".
Proof.
  unfold endswith. rewrite rev_lower.
  change (String.rev "?") with "?".
  destruct (String.rev s) as [|c r]; [done|].
  rewrite lower_cons. cbn [String.prefix].
  pose proof (lower_char_question c) as H.
  destruct (ascii_dec "?" (lower_char c)), (ascii_dec "?" c); try done.
  by destruct r.
Qed.

Lemma validate_hypothesis_lower (hypothesis : string) :
  validate_hypothesis (lower hypothesis) = validate_hypothesis hypothesis.
Proof.
  unfold validate_hypothesis.
  by rewrite lower_idempotent, length_lower, strip_lower, question_lower.
Qed.

Lemma validate_research_goal_lower (goal : string) :
  validate_research_goal (lower goal) = validate_research_goal goal.
Proof.
  unfold validate_research_goal.
  by rewrite lower_idempotent, length_lower, strip_lower, question_lower.
Qed.
End LetterCase.

(** X20.  On ASCII texts both validators judge a text by its lower-case
    form alone: two ASCII texts that differ only in letter case get the same
    verdict and the same list of issues, and the main class accepts one as
    research goal exactly when it accepts the other. *)
Theorem validators_ignore_letter_case (text text' : string) :
  Reference2.is_ascii text = true ->
  Reference2.is_ascii text' = true ->
  PyStr.lower text = PyStr.lower text' ->
  Validators.validate_hypothesis text = Validators.validate_hypothesis text'
  /\ Validators.validate_research_goal text = Validators.validate_research_goal text'
  /\ forall s, (exists s1, Workflow.set_research_goal s text = Workflow.Done s1)
               <-> (exists s2, Workflow.set_research_goal s text' = Workflow.Done s2).
Proof.
  intros _ _ H.
  assert (H1 : Validators.validate_hypothesis text = Validators.validate_hypothesis text')
    by (by rewrite <- (validate_hypothesis_lower text), H, validate_hypothesis_lower).
  assert (H2 : Validators.validate_research_goal text
               = Validators.validate_research_goal text')
    by (by rewrite <- (validate_research_goal_lower text), H, validate_research_goal_lower).
  split; [done|]. split; [done|].
  intros s. unfold Workflow.set_research_goal. rewrite H2.
  destruct (Validators.validate_research_goal text') as [[|] issues]; cbn [negb].
  - split; intros _; by eexists.
  - split; by intros [? ?].
Qed.

Lemma validators_ignore_letter_case_witness :
  Validators.validate_research_goal "To Investigate Sleep"
  = Validators.validate_research_goal "to investigate sleep".
Proof.
  apply (validators_ignore_letter_case "To Investigate Sleep" "to investigate sleep").
  - vm_compute. reflexivity.
  - vm_compute. reflexivity.
  - vm_compute. reflexivity.
Defined.

(** ** The workflow of the main class *)

Section WorkflowFails.
Import PyStr Workflow.

Lemma no_review_hypothesis :
  getattr "ReflectionAgent" "review_hypothesis"
  = Raised (AttributeError "ReflectionAgent" "review_hypothesis").
Proof. vm_compute. reflexivity. Qed.

Lemma no_generate_report :
  getattr "MetaReviewAgent" "generate_report"
  = Raised (AttributeError "MetaReviewAgent" "generate_report").
Proof. vm_compute. reflexivity. Qed.

Lemma generate_outcomes (llm : nat -> string)
    (validate_hypothesis : string -> bool * list string) (research_goal : string)
    (count : Z) :
  Main.generate_hypotheses llm validate_hypothesis research_goal count = Raise ValueError
  \/ Main.generate_hypotheses llm validate_hypothesis research_goal count
     = Raise (KeyError "hypothesis")
  \/ Main.generate_hypotheses llm validate_hypothesis research_goal count = Ok []
  \/ exists h, Main.generate_hypotheses llm validate_hypothesis research_goal count
               = Ok [h].
Proof.
  unfold Main.generate_hypotheses.
  destruct (String.eqb research_goal ""); [by left|]. right.
  destruct (parse_hypotheses_records (llm 0%nat)) as [Htext _].
  destruct (parse_hypotheses_shape (llm 0%nat)) as [E|[[c E]|(f & c & E & Hf & _)]];
    rewrite E in *.
  - right. by left.
  - destruct (GenerationAgent.has_key c "hypothesis") eqn:Hk;
      [|left; by apply validate_all_fragment].
    right. apply Forall_cons in Htext as [Htext _].
    unfold GenerationAgent.has_key in Hk.
    destruct (c !! "hypothesis") as [v|] eqn:Ec; [|done].
    destruct (Htext _ _ Ec) as [_ [s ->]].
    unfold Main.validate_all. cbn [foldl bind]. unfold Main.validate_one, getitem.
    rewrite Ec. cbn [bind].
    destruct (validate_hypothesis s) as [[|] issues]; [right; by eexists|by left].
  - left. by apply validate_all_fragment.
Qed.

Lemma take_drop_length {A} (n : nat) (l : list A) :
  take n l ++ drop (length (take n l)) l = l.
Proof.
  rewrite length_take. destruct (Nat.le_gt_cases n (length l)) as [H|H].
  - rewrite Nat.min_l by done. apply take_drop.
  - rewrite Nat.min_r by lia. rewrite take_ge by lia.
    by rewrite drop_all, app_nil_r.
Qed.

Section WithServices.
Variable generation_llm ranking_llm : nat -> string.
Variable refine_body : nat -> nat -> hypothesis -> outcome hypothesis.
Variable report_body : state -> outcome hypothesis.
Variable save_results : state -> string -> outcome string.

Lemma refine_each_fails (i j : nat) (h : hypothesis) (rest : list hypothesis) :
  refine_each refine_body i j (h :: rest)
  = Raised (AttributeError "ReflectionAgent" "review_hypothesis").
Proof.
  cbn [refine_each]. unfold refine_one. by rewrite no_review_hypothesis.
Qed.

Lemma refine_cases (s : state) (iterations : Z) :
  ranked_hypotheses s <> [] ->
  ((0 < iterations)%Z ->
   refine_hypotheses refine_body s iterations
   = Raised (AttributeError "ReflectionAgent" "review_hypothesis"))
  /\ ((iterations <= 0)%Z -> refine_hypotheses refine_body s iterations = Done s).
Proof.
  intros Hne. unfold refine_hypotheses.
  destruct (ranked_hypotheses s) as [|h rest] eqn:E; [done|]. cbv zeta. split.
  - intros Hpos. destruct (Z.to_nat iterations) as [|n] eqn:En; [lia|].
    cbn [refine_loop take]. by rewrite refine_each_fails.
  - intros Hle. replace (Z.to_nat iterations) with 0%nat by lia.
    cbn [refine_loop and_then]. rewrite take_drop_length.
    destruct s. cbn in *. by rewrite E.
Qed.

Lemma report_cases (s : state) :
  generate_research_report report_body s
  = match ranked_hypotheses s with
    | [] => Raised (Error ValueError)
    | _ => Raised (AttributeError "MetaReviewAgent" "generate_report")
    end.
Proof.
  unfold generate_research_report.
  destruct (ranked_hypotheses s); [done|]. by rewrite no_generate_report.
Qed.
End WithServices.
End WorkflowFails.

(** X21.  The main class calls methods its agents do not have.  With ranked
    hypotheses at hand, [refine_hypotheses] with a positive number of
    iterations raises [AttributeError] for [review_hypothesis] before any
    hypothesis is refined, and with no iteration it leaves the state as it
    is; [generate_research_report] never produces a report: it raises
    [ValueError] without ranked hypotheses and [AttributeError] for
    [generate_report] with them.  This holds whatever the missing methods
    would do. *)
Theorem refinement_and_report_are_unreachable
    (refine_body : nat -> nat -> hypothesis -> Workflow.outcome hypothesis)
    (report_body : Workflow.state -> Workflow.outcome hypothesis)
    (s : Workflow.state) (iterations : Z) :
  (Workflow.ranked_hypotheses s <> [] -> (0 < iterations)%Z ->
   Workflow.refine_hypotheses refine_body s iterations
   = Workflow.Raised (Workflow.AttributeError "ReflectionAgent" "review_hypothesis"))
  /\ (Workflow.ranked_hypotheses s <> [] -> (iterations <= 0)%Z ->
      Workflow.refine_hypotheses refine_body s iterations = Workflow.Done s)
  /\ (Workflow.ranked_hypotheses s = [] ->
      Workflow.refine_hypotheses refine_body s iterations
      = Workflow.Raised (Workflow.Error ValueError)
      /\ Workflow.generate_research_report report_body s
         = Workflow.Raised (Workflow.Error ValueError))
  /\ (Workflow.ranked_hypotheses s <> [] ->
      Workflow.generate_research_report report_body s
      = Workflow.Raised (Workflow.AttributeError "MetaReviewAgent" "generate_report")).
Proof.
  split; [|split; [|split]].
  - intros Hne. by apply refine_cases.
  - intros Hne. by apply refine_cases.
  - intros E. unfold Workflow.refine_hypotheses. rewrite report_cases. by rewrite E.
  - intros Hne. rewrite report_cases. by destruct (Workflow.ranked_hypotheses s).
Qed.

Lemma refinement_and_report_are_unreachable_witness :
  Workflow.refine_hypotheses (fun _ _ h => Workflow.Done h)
    {| Workflow.research_goal := Some "To test caffeine";
       Workflow.hypotheses := [];
       Workflow.ranked_hypotheses := [{["hypothesis" := VStr "Caffeine helps."]}];
       Workflow.final_report := None |} 1
  = Workflow.Raised (Workflow.AttributeError "ReflectionAgent" "review_hypothesis").
Proof.
  apply (proj1 (refinement_and_report_are_unreachable
                  (fun _ _ h => Workflow.Done h) (fun _ => Workflow.Done ∅)
                  {| Workflow.research_goal := Some "To test caffeine";
                     Workflow.hypotheses := [];
                     Workflow.ranked_hypotheses := [{["hypothesis" := VStr "Caffeine helps."]}];
                     Workflow.final_report := None |} 1)).
  - done.
  - lia.
Defined.

(** X22.  [run_full_workflow] never returns a result, whatever the goal, the
    number of iterations, the answers of the language model and the state it
    starts from: it raises [ValidationError] for a goal the validator
    rejects, and otherwise [KeyError('hypothesis')] or [ValueError] from
    generation and ranking, or [AttributeError] for [review_hypothesis]
    (iterations > 0) or [generate_report] (no iteration). *)
Theorem run_full_workflow_never_returns (generation_llm ranking_llm : nat -> string)
    (refine_body : nat -> nat -> hypothesis -> Workflow.outcome hypothesis)
    (report_body : Workflow.state -> Workflow.outcome hypothesis)
    (save_results : Workflow.state -> string -> Workflow.outcome string)
    (s : Workflow.state) (goal : string) (iterations : Z) (output_dir : option string) :
  exists f,
    Workflow.run_full_workflow generation_llm ranking_llm refine_body report_body
      save_results s goal iterations output_dir = Workflow.Raised f
    /\ ((exists message, f = Workflow.ValidationError message
                         /\ fst (Validators.validate_research_goal goal) = false)
        \/ f = Workflow.Error (KeyError "hypothesis")
        \/ f = Workflow.Error ValueError
        \/ (f = Workflow.AttributeError "ReflectionAgent" "review_hypothesis"
            /\ (0 < iterations)%Z)
        \/ (f = Workflow.AttributeError "MetaReviewAgent" "generate_report"
            /\ (iterations <= 0)%Z)).
Proof.
  unfold Workflow.run_full_workflow, Workflow.set_research_goal.
  destruct (Validators.validate_research_goal goal) as [[|] issues]; cbn [negb fst];
    [|eexists; split; [done|]; left; by eexists].
  cbn [Workflow.and_then]. unfold Workflow.generate_hypotheses.
  cbn [Workflow.research_goal default from_option id].
  destruct (generate_outcomes generation_llm Validators.validate_hypothesis goal 7)
    as [E|[E|[E|[h E]]]]; rewrite E; cbn [Workflow.lift Workflow.and_then].
  - eexists. split; [done|]. right. right. by left.
  - eexists. split; [done|]. right. by left.
  - eexists. split; [done|]. right. right. by left.
  - unfold Workflow.rank_hypotheses. cbn [Workflow.hypotheses].
    assert (Er : RankingAgent.process ranking_llm [h]
                 = Ok (RankingAgent._rank_by_pairwise_comparison ranking_llm [h])) by done.
    rewrite Er. cbn [Workflow.lift Workflow.and_then].
    pose proof (ranked_pairwise_length ranking_llm [h]) as Hlen.
    destruct (RankingAgent._rank_by_pairwise_comparison ranking_llm [h]) as [|r rest] eqn:Ep;
      [done|].
    match goal with
    | |- context [Workflow.refine_hypotheses _ ?st _] =>
        destruct (refine_cases refine_body st iterations) as [Hpos Hzero]; [done|]
    end.
    destruct (Z.lt_ge_cases 0 iterations) as [Hi|Hi].
    + rewrite (Hpos Hi). eexists. split; [done|]. right. right. right. by left.
    + rewrite (Hzero Hi). cbn [Workflow.and_then].
      rewrite report_cases. cbn [Workflow.ranked_hypotheses].
      eexists. split; [done|]. right. right. right. by right.
Qed.

(** ** The supervisor's reading of an analysis *)

Section Excerpts.
Import PyStr SupervisorAgent.

Lemma substring_infix (n m : nat) (s : string) :
  exists a b, s = a +:+ String.substring n m s +:+ b.
Proof.
  revert s. induction n as [|n IH]; intros s.
  - pose proof (substring_0_prefix m s) as H. apply prefix_iff in H as [b Hb].
    by exists "", b.
  - destruct s as [|c s]; [by exists "", ""|].
    destruct (IH s) as (a & b & E).
    exists (String c a), b. cbn [String.substring]. by rewrite append_cons, <- E.
Qed.

Lemma length_substring (n m : nat) (s : string) :
  String.length (String.substring n m s) = min m (String.length s - n).
Proof.
  revert s. induction n as [|n IH]; intros s.
  - rewrite length_substring_0. by rewrite Nat.sub_0_r.
  - destruct s as [|c s]; [simpl; lia|]. cbn [String.substring]. rewrite IH. simpl. lia.
Qed.

Lemma infix_trans (s a b t a' b' r : string) :
  s = a +:+ t +:+ b -> t = a' +:+ r +:+ b' ->
  s = (a +:+ a') +:+ r +:+ (b' +:+ b).
Proof. intros -> ->. by rewrite !append_assoc. Qed.

Lemma str_find_bound (pat s : string) (i : nat) :
  str_find pat s = Some i -> (i + String.length pat <= String.length s)%nat.
Proof.
  revert i. induction s as [|c s IH]; intros i; cbn [str_find].
  - destruct (String.prefix pat "") eqn:E; [|done]. intros [= <-].
    apply prefix_iff in E as [b Hb]. apply (f_equal String.length) in Hb.
    rewrite length_append in Hb. simpl in *. lia.
  - destruct (String.prefix pat (String c s)) eqn:E.
    + intros [= <-]. apply prefix_iff in E as [b Hb].
      apply (f_equal String.length) in Hb. rewrite length_append in Hb. lia.
    + destruct (str_find pat s) as [j|]; [|done]. intros [= <-].
      specialize (IH j eq_refl). simpl. lia.
Qed.

Lemma str_find_contains (pat s : string) :
  contains pat s = match str_find pat s with Some _ => true | None => false end.
Proof.
  induction s as [|c s IH]; cbn [contains str_find].
  - by destruct (String.prefix pat "").
  - destruct (String.prefix pat (String c s)); [done|]. cbn [orb].
    rewrite IH. by destruct (str_find pat s).
Qed.

(** The section after the cut at its last period. *)
Lemma cut_cases (section : string) :
  (if contains "." section
   then match str_rindex "." section with
        | Some last_period =>
            if (String.length section / 2 <? last_period)%nat
            then String.substring 0 (last_period + 1) section
            else section
        | None => section
        end
   else section) = section
  \/ exists last_period,
       (if contains "." section
        then match str_rindex "." section with
             | Some last_period =>
                 if (String.length section / 2 <? last_period)%nat
                 then String.substring 0 (last_period + 1) section
                 else section
             | None => section
             end
        else section) = String.substring 0 (last_period + 1) section.
Proof.
  destruct (contains "." section); [|by left].
  destruct (str_rindex "." section) as [lp|]; [|by left].
  destruct (String.length section / 2 <? lp)%nat; [right; by exists lp|by left].
Qed.

Lemma extracted_section_empty (text keyword : string) (max_chars : nat) :
  contains (lower keyword) (lower text) = false ->
  _extract_section text keyword max_chars = "".
Proof.
  rewrite str_find_contains. unfold _extract_section.
  by destruct (str_find (lower keyword) (lower text)).
Qed.

Lemma filter_stripped (keep : string -> bool) (l : list string) :
  Forall (fun d => keep d = true /\ strip d = d) (List.filter keep (map strip l)).
Proof.
  induction l as [|x l IH]; [constructor|]. cbn [map List.filter].
  destruct (keep (strip x)) eqn:E; [|done].
  apply Forall_cons. split; [|done]. split; [done|apply strip_idempotent].
Qed.

Lemma list_find_first {A} (f : A -> bool) (l : list A) (i : nat) (x : A) :
  l !! i = Some x -> f x = true ->
  (forall j y, (j < i)%nat -> l !! j = Some y -> f y = false) ->
  List.find f l = Some x.
Proof.
  revert i. induction l as [|y l IH]; intros i Hi Hx Hb; [done|].
  cbn [List.find]. destruct i as [|i].
  - injection Hi as ->. by rewrite Hx.
  - rewrite (Hb 0%nat y) by (done || lia). apply (IH i); [done|done|].
    intros j z Hj Hz. apply (Hb (S j)); [lia|done].
Qed.

Lemma list_find_none {A} (f : A -> bool) (l : list A) :
  Forall (fun x => f x = false) l -> List.find f l = None.
Proof. induction 1 as [|x l Hx _ IH]; [done|]. cbn [List.find]. by rewrite Hx. Qed.
End Excerpts.

(** X23.  The section extracted around a keyword is a contiguous excerpt of
    the text of at most [max_chars + 20] characters; it is empty when the
    keyword does not occur (in any letter case), and, for an ASCII text and
    keyword, not empty when a non-empty keyword occurs and [max_chars] is
    positive. *)
Theorem extracted_section_is_bounded_excerpt (text keyword : string) (max_chars : nat) :
  (exists before after,
     text = before +:+ SupervisorAgent._extract_section text keyword max_chars +:+ after)
  /\ (String.length (SupervisorAgent._extract_section text keyword max_chars)
      <= max_chars + 20)%nat
  /\ (PyStr.contains (PyStr.lower keyword) (PyStr.lower text) = false ->
      SupervisorAgent._extract_section text keyword max_chars = "")
  /\ (Reference2.is_ascii text = true -> Reference2.is_ascii keyword = true ->
      PyStr.contains (PyStr.lower keyword) (PyStr.lower text) = true ->
      keyword <> "" -> (0 < max_chars)%nat ->
      SupervisorAgent._extract_section text keyword max_chars <> "").
Proof.
  unfold SupervisorAgent._extract_section. rewrite str_find_contains.
  destruct (SupervisorAgent.str_find (PyStr.lower keyword) (PyStr.lower text))
    as [ki|] eqn:Ef.
  2:{ split; [by exists "", text|]. split; [simpl; lia|].
      split; done. }
  cbv zeta. apply str_find_bound in Ef. rewrite !length_lower in Ef.
  set (section := String.substring (ki - 20)
                    (min (String.length text) (ki + max_chars) - (ki - 20)) text).
  assert (Hlen : String.length section
                 = min (min (String.length text) (ki + max_chars) - (ki - 20))
                       (String.length text - (ki - 20)))
    by apply length_substring.
  destruct (substring_infix (ki - 20)
              (min (String.length text) (ki + max_chars) - (ki - 20)) text)
    as (a & b & Hab). fold section in Hab.
  destruct (cut_cases section) as [->|[lp ->]].
  - split; [by exists a, b|]. split; [lia|]. split; [done|].
    intros _ _ _ Hk Hm. intros E. rewrite E in Hlen. simpl in Hlen.
    assert (0 < String.length keyword)%nat by (destruct keyword; [done|simpl; lia]). lia.
  - destruct (substring_infix 0 (lp + 1) section) as (a' & b' & Hab').
    split; [eexists _, _; by eapply infix_trans|].
    split; [rewrite length_substring_0; lia|]. split; [done|].
    intros _ _ _ Hk Hm E. apply (f_equal String.length) in E.
    rewrite length_substring_0 in E. simpl in E.
    assert (0 < String.length keyword)%nat by (destruct keyword; [done|simpl; lia]). lia.
Qed.

Lemma extracted_section_is_bounded_excerpt_witness :
  SupervisorAgent._extract_section "Physics and chemistry." "Domain" 200 = "".
Proof.
  apply (proj1 (proj2 (proj2 (extracted_section_is_bounded_excerpt
                                "Physics and chemistry." "Domain" 200)))).
  vm_compute. reflexivity.
Defined.

(** X24.  In the analysis read from an answer, 'constraints' and
    'relevant_background' are always empty; the research type is the first
    of the list explanation, prediction, design, discovery, exploration,
    validation that occurs, not the first in the text; the scope is
    "narrow" as soon as one of narrow, focused, specific occurs, even beside
    broad, complex or wide; domains are non-empty trimmed entries and key
    concepts trimmed entries of more than two characters; and no key concept
    is found unless "concept" occurs, though the guard also accepts
    "key". *)
Theorem query_analysis_fields (analysis_text : string) :
  SupervisorAgent.constraints (SupervisorAgent._extract_query_analysis analysis_text) = []
  /\ SupervisorAgent.relevant_background
       (SupervisorAgent._extract_query_analysis analysis_text) = []
  /\ (forall i r_type,
        SupervisorAgent.research_types !! i = Some r_type ->
        PyStr.contains r_type (PyStr.lower analysis_text) = true ->
        (forall j r', (j < i)%nat -> SupervisorAgent.research_types !! j = Some r' ->
                      PyStr.contains r' (PyStr.lower analysis_text) = false) ->
        SupervisorAgent.research_type (SupervisorAgent._extract_query_analysis analysis_text)
        = r_type)
  /\ (Forall (fun r_type => PyStr.contains r_type (PyStr.lower analysis_text) = false)
             SupervisorAgent.research_types ->
      SupervisorAgent.research_type (SupervisorAgent._extract_query_analysis analysis_text)
      = "")
  /\ (PyStr.contains "narrow" (PyStr.lower analysis_text)
      || PyStr.contains "focused" (PyStr.lower analysis_text)
      || PyStr.contains "specific" (PyStr.lower analysis_text) = true ->
      SupervisorAgent.scope (SupervisorAgent._extract_query_analysis analysis_text)
      = "narrow")
  /\ (SupervisorAgent.scope (SupervisorAgent._extract_query_analysis analysis_text) = ""
      \/ SupervisorAgent.scope (SupervisorAgent._extract_query_analysis analysis_text)
         = "narrow"
      \/ SupervisorAgent.scope (SupervisorAgent._extract_query_analysis analysis_text)
         = "broad")
  /\ Forall (fun d => d <> "" /\ PyStr.strip d = d)
            (SupervisorAgent.domains (SupervisorAgent._extract_query_analysis analysis_text))
  /\ Forall (fun c => (2 < String.length c)%nat /\ PyStr.strip c = c)
            (SupervisorAgent.key_concepts
               (SupervisorAgent._extract_query_analysis analysis_text))
  /\ (PyStr.contains "concept" (PyStr.lower analysis_text) = false ->
      SupervisorAgent.key_concepts (SupervisorAgent._extract_query_analysis analysis_text)
      = []).
Proof.
  unfold SupervisorAgent._extract_query_analysis. cbv zeta.
  cbn [SupervisorAgent.constraints SupervisorAgent.relevant_background
       SupervisorAgent.research_type SupervisorAgent.scope SupervisorAgent.domains
       SupervisorAgent.key_concepts].
  split; [done|]. split; [done|]. split.
  { intros i r_type Hi Hc Hb. by rewrite (list_find_first _ _ i r_type). }
  split.
  { intros Hall. by rewrite list_find_none. }
  split.
  { unfold SupervisorAgent.scope_terms. cbn [List.find fst snd].
    destruct (PyStr.contains "narrow" (PyStr.lower analysis_text)); [done|].
    destruct (PyStr.contains "focused" (PyStr.lower analysis_text)); [done|].
    by destruct (PyStr.contains "specific" (PyStr.lower analysis_text)). }
  split.
  { unfold SupervisorAgent.scope_terms. cbn [List.find fst snd].
    repeat match goal with
           | |- context [if ?c then _ else _] => destruct c
           end; auto. }
  split.
  { destruct (PyStr.contains "domain" (PyStr.lower analysis_text)); [|constructor].
    eapply Forall_impl; [apply filter_stripped|].
    intros d [Hd Hs]. split; [|done]. unfold SupervisorAgent.non_empty in Hd.
    apply negb_true_iff in Hd. by apply String.eqb_neq in Hd. }
  split.
  { destruct (PyStr.contains "concept" (PyStr.lower analysis_text)
              || PyStr.contains "key" (PyStr.lower analysis_text)); [|constructor].
    eapply Forall_impl; [apply filter_stripped|].
    intros c [Hc Hs]. split; [|done]. apply andb_true_iff in Hc as [_ Hc].
    by apply Nat.ltb_lt in Hc. }
  intros Hc. rewrite Hc. cbn [orb].
  destruct (PyStr.contains "key" (PyStr.lower analysis_text)); [|done].
  rewrite (extracted_section_empty analysis_text "concept" 300 Hc).
  reflexivity.
Qed.

Lemma query_analysis_fields_witness :
  SupervisorAgent.scope
    (SupervisorAgent._extract_query_analysis "A broad question with a specific focus.")
  = "narrow".
Proof.
  apply (proj1 (proj2 (proj2 (proj2 (proj2 (query_analysis_fields
                  "A broad question with a specific focus.")))))).
  vm_compute. reflexivity.
Defined.

(** ** The supervisor's plans *)

Section Plans.
Import PyStr SupervisorAgent Reference2.

Lemma adjust_step_planned (plan_text : string) (limit : Z) (s : step) :
  (agent s = "Evolution" -> params s !! "iterations" = Some (VInt limit)) ->
  adjust_step (lower plan_text) s
  = Ok (if String.eqb (agent s) "Evolution"
        then set_iterations s (VInt (planned_iterations plan_text limit))
        else s).
Proof.
  intros Hs. unfold adjust_step, planned_iterations, asks_more, asks_fewer.
  destruct (String.eqb_spec (agent s) "Evolution") as [E|E]; [|done].
  unfold getitem. rewrite (Hs E).
  destruct (contains "additional iterations" (lower plan_text)
            || contains "more iterations" (lower plan_text)); [done|].
  destruct (contains "fewer iterations" (lower plan_text)
            || contains "reduce iterations" (lower plan_text)); [done|].
  unfold set_iterations. rewrite insert_id by auto. by destruct s.
Qed.

Lemma adjust_steps_planned (plan_text : string) (limit : Z) (sequence : list step) :
  Forall (fun s => agent s = "Evolution" -> params s !! "iterations" = Some (VInt limit))
         sequence ->
  adjust_steps (lower plan_text) sequence
  = Ok (map (fun s => if String.eqb (agent s) "Evolution"
                      then set_iterations s (VInt (planned_iterations plan_text limit))
                      else s) sequence).
Proof.
  induction 1 as [|s l Hs _ IH]; [done|].
  cbn [adjust_steps map]. by rewrite (adjust_step_planned plan_text limit s Hs), IH.
Qed.

Lemma adjust_steps_untouched (plan_text : string) (sequence : list step) :
  asks_more plan_text = false -> asks_fewer plan_text = false ->
  adjust_steps (lower plan_text) sequence = Ok sequence.
Proof.
  unfold asks_more, asks_fewer. intros Hm Hf.
  induction sequence as [|s l IH]; [done|]. cbn [adjust_steps].
  unfold adjust_step at 1. rewrite Hm, Hf, IH. by destruct (String.eqb (agent s) "Evolution").
Qed.

Lemma adjust_steps_type_error (plan_text : string) (sequence : list step) (v : value) :
  asks_more plan_text = true -> plus_one v = Raise TypeError ->
  Forall (fun s => agent s = "Evolution" -> params s !! "iterations" = Some v) sequence ->
  Exists (fun s => agent s = "Evolution") sequence ->
  adjust_steps (lower plan_text) sequence = Raise TypeError.
Proof.
  intros Hm Hp Hall Hex. unfold asks_more in Hm.
  induction Hall as [|s l Hs _ IH]; [by apply Exists_nil in Hex|].
  cbn [adjust_steps]. unfold adjust_step at 1, getitem.
  destruct (String.eqb_spec (agent s) "Evolution") as [E|E].
  - rewrite Hm, (Hs E). cbn [bind]. by rewrite Hp.
  - cbn [bind]. rewrite IH; [done|].
    apply Exists_cons in Hex as [Hex|Hex]; done.
Qed.

Lemma default_sequence_iterations (hypothesis_count output_format v : value) :
  Forall (fun s => agent s = "Evolution" -> params s !! "iterations" = Some v)
         (default_sequence hypothesis_count v output_format).
Proof.
  unfold default_sequence.
  repeat (apply Forall_cons; split; [cbn [agent params]; intros E; try discriminate E|]);
    [|constructor].
  by rewrite lookup_insert_eq.
Qed.

Lemma default_sequence_evolves (keep : step -> bool)
    (hypothesis_count output_format v : value) :
  (forall s, agent s = "Evolution" -> keep s = true) ->
  Exists (fun s => agent s = "Evolution")
         (List.filter keep (default_sequence hypothesis_count v output_format)).
Proof.
  intros Hkeep. apply Exists_exists.
  exists {| agent := "Evolution"; task := "improve_hypotheses";
            params := <["iterations" := v]> ∅ |}.
  split; [|done]. apply list_elem_of_In, filter_In. split; [|by apply Hkeep].
  unfold default_sequence. simpl. tauto.
Qed.

Lemma filter_all_kept {A} (l : list A) : List.filter (fun _ => true) l = l.
Proof. induction l as [|x l IH]; [done|]. cbn [List.filter]. by rewrite IH. Qed.

Lemma lookup_alter_step (heap : store) (l : nat) (old : list step)
    (f : list step -> list step) :
  heap !! l = Some old -> alter f l heap !! l = Some (f old).
Proof. intros H. unfold store in *. by rewrite lookup_alter_eq, H. Qed.
End Plans.

(** X25.  With an integer iteration limit (2 when the configuration has
    none) planning succeeds.  The planned steps are the seven default ones in
    order, without the proximity step exactly when the answer says "skip
    proximity evaluation" or "omit proximity"; the evolution step gets
    [limit + 1] iterations when the answer says "additional iterations" or
    "more iterations", which takes precedence, and [max(1, limit - 1)] when
    it says "fewer iterations" or "reduce iterations"; every other step is a
    default step unchanged.  A limit that is not a number raises
    [TypeError] when more iterations are asked for and goes unnoticed when
    none are mentioned. *)
Theorem planned_steps_follow_answer (plan_response timestamp research_query : string)
    (session_config : option (gmap string value)) (limit : Z) :
  (get (default ∅ session_config) "iteration_limit" (VInt 2) = VInt limit ->
   exists created,
     SupervisorAgent._create_research_plan plan_response timestamp research_query
       session_config = Ok created
     /\ map SupervisorAgent.agent (SupervisorAgent.steps (SupervisorAgent.plan created))
        = Reference2.planned_agents plan_response
     /\ Forall (fun s => SupervisorAgent.agent s = "Evolution" ->
                         SupervisorAgent.params s !! "iterations"
                         = Some (VInt (Reference2.planned_iterations plan_response limit)))
               (SupervisorAgent.steps (SupervisorAgent.plan created))
     /\ Forall (fun s => SupervisorAgent.agent s <> "Evolution" ->
                         s ∈ SupervisorAgent.default_sequence
                               (get (default ∅ session_config) "hypothesis_count" (VInt 3))
                               (VInt limit)
                               (get (default ∅ session_config) "output_format"
                                    (VStr "scientific_report")))
               (SupervisorAgent.steps (SupervisorAgent.plan created))
     /\ SupervisorAgent.status (SupervisorAgent.plan created) = "planned"
     /\ SupervisorAgent.reasoning (SupervisorAgent.plan created)
        = String.substring 0 500 plan_response)
  /\ (SupervisorAgent.plus_one (get (default ∅ session_config) "iteration_limit" (VInt 2))
      = Raise TypeError ->
      (Reference2.asks_more plan_response = true ->
       SupervisorAgent._create_research_plan plan_response timestamp research_query
         session_config = Raise TypeError)
      /\ (Reference2.asks_more plan_response = false ->
          Reference2.asks_fewer plan_response = false ->
          exists created,
            SupervisorAgent._create_research_plan plan_response timestamp research_query
              session_config = Ok created)).
Proof.
  split.
  - intros Hlimit. unfold SupervisorAgent._create_research_plan. cbv zeta. rewrite Hlimit.
    set (hc := get (default ∅ session_config) "hypothesis_count" (VInt 3)).
    set (fmt := get (default ∅ session_config) "output_format" (VStr "scientific_report")).
    unfold SupervisorAgent._extract_research_plan. cbv zeta.
    fold (Reference2.skips_proximity plan_response).
    set (sequence := if Reference2.skips_proximity plan_response then _ else _).
    assert (Hseq : Forall (fun s => SupervisorAgent.agent s = "Evolution" ->
                     SupervisorAgent.params s !! "iterations" = Some (VInt limit)) sequence).
    { unfold sequence. destruct (Reference2.skips_proximity plan_response);
        [apply Forall_list_filter|]; apply default_sequence_iterations. }
    assert (Hsub : forall s, s ∈ sequence ->
                     s ∈ SupervisorAgent.default_sequence hc (VInt limit) fmt).
    { unfold sequence. intros s.
      destruct (Reference2.skips_proximity plan_response); [|done].
      intros Hin. apply list_elem_of_In in Hin. apply filter_In in Hin as [Hin _].
      by apply list_elem_of_In. }
    assert (Hagents : map SupervisorAgent.agent sequence
                      = Reference2.planned_agents plan_response).
    { unfold sequence, Reference2.planned_agents.
      by destruct (Reference2.skips_proximity plan_response). }
    rewrite (adjust_steps_planned plan_response limit sequence Hseq). cbn [bind].
    eexists. split; [done|].
    cbn [SupervisorAgent.plan SupervisorAgent.steps SupervisorAgent.status
         SupervisorAgent.reasoning].
    split; [|split; [|split; [|done]]].
    + rewrite <- Hagents, map_map. apply map_ext. intros s.
      by destruct (String.eqb (SupervisorAgent.agent s) "Evolution").
    + apply Forall_forall. intros s' (s & -> & Hin)%list_elem_of_fmap.
      destruct (String.eqb_spec (SupervisorAgent.agent s) "Evolution") as [E|E]; [|done].
      intros _. cbn [SupervisorAgent.set_iterations SupervisorAgent.params].
      by rewrite lookup_insert_eq.
    + apply Forall_forall. intros s' (s & -> & Hin)%list_elem_of_fmap.
      destruct (String.eqb_spec (SupervisorAgent.agent s) "Evolution") as [E|E].
      * intros Hne. by cbn in Hne.
      * intros _. by apply Hsub.
  - intros Herr. unfold SupervisorAgent._create_research_plan. cbv zeta.
    set (hc := get (default ∅ session_config) "hypothesis_count" (VInt 3)).
    set (fmt := get (default ∅ session_config) "output_format" (VStr "scientific_report")).
    set (v := get (default ∅ session_config) "iteration_limit" (VInt 2)) in *.
    unfold SupervisorAgent._extract_research_plan. cbv zeta. split.
    + intros Hm.
      rewrite (adjust_steps_type_error plan_response _ v Hm Herr); [done| |].
      * destruct (PyStr.contains "skip proximity evaluation" (PyStr.lower plan_response)
                  || PyStr.contains "omit proximity" (PyStr.lower plan_response));
          [apply Forall_list_filter|]; apply default_sequence_iterations.
      * destruct (PyStr.contains "skip proximity evaluation" (PyStr.lower plan_response)
                  || PyStr.contains "omit proximity" (PyStr.lower plan_response)).
        -- apply default_sequence_evolves. by intros s ->.
        -- rewrite <- (filter_all_kept (SupervisorAgent.default_sequence hc v fmt)).
           by apply default_sequence_evolves.
    + intros Hm Hf. rewrite (adjust_steps_untouched plan_response _ Hm Hf). cbn [bind].
      by eexists.
Qed.

Lemma planned_steps_follow_answer_witness :
  exists created,
    SupervisorAgent._create_research_plan
      "Omit proximity; use more iterations, not fewer iterations." "2024-01-01 00:00:00"
      "Does caffeine help?" None = Ok created
    /\ map SupervisorAgent.agent (SupervisorAgent.steps (SupervisorAgent.plan created))
       = ["Generation"; "Reflection"; "Ranking"; "Evolution"; "Ranking"; "MetaReview"].
Proof.
  destruct (proj1 (planned_steps_follow_answer
                     "Omit proximity; use more iterations, not fewer iterations."
                     "2024-01-01 00:00:00" "Does caffeine help?" None 2) eq_refl)
    as (created & H1 & H2 & _).
  exists created. split; [exact H1|]. rewrite H2. vm_compute. reflexivity.
Defined.

(** X26.  The updated plan is a shallow copy: it shares the list of steps
    with the plan it was copied from, so the caller's plan sees every step
    added or removed, while 'update_notes' is set on the copy alone.  An
    answer that asks to add a step appends the executive-summary step to the
    caller's list; one that also asks to remove a step pops it again when
    'executed_steps' has at most as many entries as the plan had steps, and
    leaves it appended when it has more; a removal alone drops the last
    step only when fewer steps were executed than there are, so [pop] never
    fails on an empty list; and when the
    length of 'executed_steps' cannot be taken, the exception leaves the
    appended step in the caller's plan.  No other list of the store is
    touched. *)
Theorem updated_plan_shares_steps (update_text : string)
    (current_plan : SupervisorAgent.plan_dict) (heap heap' : SupervisorAgent.store)
    (outcome : result SupervisorAgent.plan_dict) (l : nat)
    (old : list SupervisorAgent.step) :
  SupervisorAgent.steps_at current_plan = Some l ->
  heap !! l = Some old ->
  SupervisorAgent._extract_updated_plan update_text current_plan heap = (heap', outcome) ->
  (forall l', l' <> l -> heap' !! l' = heap !! l')
  /\ (forall updated, outcome = Ok updated ->
        SupervisorAgent.steps_at updated = Some l
        /\ SupervisorAgent.steps_of heap' updated
           = SupervisorAgent.steps_of heap' current_plan
        /\ SupervisorAgent.fields updated
           = <["update_notes" := VStr (String.substring 0 500 update_text)]>
               (SupervisorAgent.fields current_plan))
  /\ (Reference2.adds_step update_text = true ->
      Reference2.removes_step update_text = false ->
      heap' !! l = Some (old ++ [SupervisorAgent.summary_step])
      /\ exists updated, outcome = Ok updated)
  /\ (Reference2.adds_step update_text = true ->
      Reference2.removes_step update_text = true ->
      (forall n, py_len (get (SupervisorAgent.fields current_plan) "executed_steps"
                             (VList [])) = Ok n ->
                 heap' !! l = Some (if (n <=? length old)%nat
                                    then old
                                    else old ++ [SupervisorAgent.summary_step])
                 /\ exists updated, outcome = Ok updated)
      /\ (forall e, py_len (get (SupervisorAgent.fields current_plan) "executed_steps"
                                (VList [])) = Raise e ->
                    outcome = Raise e
                    /\ heap' !! l = Some (old ++ [SupervisorAgent.summary_step])))
  /\ (Reference2.adds_step update_text = false ->
      Reference2.removes_step update_text = true ->
      forall n, py_len (get (SupervisorAgent.fields current_plan) "executed_steps"
                            (VList [])) = Ok n ->
                heap' !! l = Some (if (n <? length old)%nat then removelast old else old)
                /\ exists updated, outcome = Ok updated).
Proof.
  intros Hl Hold.
  unfold SupervisorAgent._extract_updated_plan. cbv zeta.
  fold (Reference2.adds_step update_text). fold (Reference2.removes_step update_text).
  unfold SupervisorAgent.steps_of at 1. cbn [SupervisorAgent.steps_at].
  unfold SupervisorAgent.store in *.
  rewrite Hl. cbn [mbind option_bind]. rewrite Hold.
  unfold SupervisorAgent.append_step, SupervisorAgent.pop_step.
  cbn [SupervisorAgent.steps_at]. unfold SupervisorAgent.store in *.
  destruct (Reference2.adds_step update_text);
    destruct (Reference2.removes_step update_text).
  - unfold SupervisorAgent.steps_of. cbn [SupervisorAgent.steps_at].
    unfold SupervisorAgent.store in *. rewrite ?Hl.
    cbn [mbind option_bind].
    rewrite (lookup_alter_step heap l old _ Hold).
    destruct (py_len (get (SupervisorAgent.fields current_plan) "executed_steps"
                          (VList []))) as [n|e] eqn:En.
    + destruct (Nat.ltb_spec n (length (old ++ [SupervisorAgent.summary_step])))
        as [Hn|Hn]; intros [= <- <-].
      * split; [intros l' Hne; by rewrite !lookup_alter_ne|].
        split; [intros updated [= <-]; cbn; unfold SupervisorAgent.steps_of; by rewrite ?Hl|].
        split; [done|]. split; [|done]. split.
        -- intros n' [= <-]. rewrite length_app in Hn. simpl in Hn.
           destruct (Nat.leb_spec n (length old)) as [_|?]; [|lia].
           split; [|by eexists].
           rewrite (lookup_alter_step _ l (old ++ [SupervisorAgent.summary_step])
                      (fun steps => removelast steps));
             [cbv beta; by rewrite removelast_last|].
           exact (lookup_alter_step heap l old (fun steps => steps ++ [SupervisorAgent.summary_step]) Hold).
        -- intros e [=].
      * rewrite length_app in Hn. simpl in Hn.
        split; [intros l' Hne; by rewrite !lookup_alter_ne|].
        split; [intros updated [= <-]; cbn; unfold SupervisorAgent.steps_of; by rewrite ?Hl|].
        split; [done|]. split; [|done]. split.
        -- intros n' [= <-].
           destruct (Nat.leb_spec n (length old)) as [?|_]; [lia|].
           split; [|by eexists].
           exact (lookup_alter_step heap l old (fun steps => steps ++ [SupervisorAgent.summary_step]) Hold).
        -- intros e [=].
    + intros [= <- <-].
      split; [intros l' Hne; by rewrite !lookup_alter_ne|].
      split; [done|]. split; [done|]. split; [|done]. split.
      * intros n [=].
      * intros e' [= <-]. split; [done|]. exact (lookup_alter_step heap l old (fun steps => steps ++ [SupervisorAgent.summary_step]) Hold).
  - intros [= <- <-].
    split; [intros l' Hne; by rewrite !lookup_alter_ne|].
    split; [intros updated [= <-]; cbn; unfold SupervisorAgent.steps_of; by rewrite ?Hl|].
    split; [|done]. intros _ _. split; [exact (lookup_alter_step heap l old (fun steps => steps ++ [SupervisorAgent.summary_step]) Hold)|by eexists].
  - unfold SupervisorAgent.steps_of. cbn [SupervisorAgent.steps_at].
    unfold SupervisorAgent.store in *. rewrite ?Hl.
    cbn [mbind option_bind]. rewrite Hold.
    destruct (py_len (get (SupervisorAgent.fields current_plan) "executed_steps"
                          (VList []))) as [n|e] eqn:En.
    + destruct (Nat.ltb_spec n (length old)) as [Hn|Hn]; intros [= <- <-].
      * split; [intros l' Hne; by rewrite !lookup_alter_ne|].
        split; [intros updated [= <-]; cbn; unfold SupervisorAgent.steps_of; by rewrite ?Hl|].
        split; [done|]. split; [done|]. intros _ _ n' [= <-].
        destruct (Nat.ltb_spec n (length old)); [|lia].
        split; [exact (lookup_alter_step heap l old (fun steps => removelast steps) Hold)|by eexists].
      * split; [done|].
        split; [intros updated [= <-]; cbn; unfold SupervisorAgent.steps_of; by rewrite ?Hl|].
        split; [done|]. split; [done|]. intros _ _ n' [= <-].
        destruct (Nat.ltb_spec n (length old)); [lia|].
        split; [done|by eexists].
    + intros [= <- <-]. split; [done|]. split; [done|]. split; [done|]. split; [done|].
      intros _ _ n [=].
  - intros [= <- <-]. split; [done|].
    split; [intros updated [= <-]; cbn; unfold SupervisorAgent.steps_of; by rewrite ?Hl|]. done.
Qed.

Lemma updated_plan_shares_steps_witness :
  fst (SupervisorAgent._extract_updated_plan "Add step, then remove step."
         {| SupervisorAgent.steps_at := Some 0%nat;
            SupervisorAgent.fields := {["executed_steps" := VList [VStr "Generation"]]} |}
         {[ 0%nat := [] ]}) !! 0%nat
  = Some [SupervisorAgent.summary_step].
Proof.
  destruct (updated_plan_shares_steps "Add step, then remove step."
              {| SupervisorAgent.steps_at := Some 0%nat;
                 SupervisorAgent.fields := {["executed_steps" := VList [VStr "Generation"]]} |}
              {[ 0%nat := [] ]}
              (fst (SupervisorAgent._extract_updated_plan "Add step, then remove step."
                      {| SupervisorAgent.steps_at := Some 0%nat;
                         SupervisorAgent.fields :=
                           {["executed_steps" := VList [VStr "Generation"]]} |}
                      {[ 0%nat := [] ]}))
              (snd (SupervisorAgent._extract_updated_plan "Add step, then remove step."
                      {| SupervisorAgent.steps_at := Some 0%nat;
                         SupervisorAgent.fields :=
                           {["executed_steps" := VList [VStr "Generation"]]} |}
                      {[ 0%nat := [] ]}))
              0%nat [])
    as (_ & _ & _ & H & _).
  - reflexivity.
  - apply lookup_singleton_eq.
  - apply surjective_pairing.
  - destruct H as [H _]; [vm_compute; reflexivity|vm_compute; reflexivity|].
    apply (H 1%nat). vm_compute. reflexivity.
Defined.
